(** * tagfs: inode lifecycle, directory operations and mount configuration

    A shallow embedding of [tagfs/tagfs_inode.c].  The kernel objects the
    file manipulates (inodes, dentries, super blocks, the per-mount
    [tagfs_fs_info] record) live in finite maps indexed by pointers; every
    C function becomes a computation in a state-and-failure monad over that
    store.  Kernel helpers the file calls ([new_inode], [d_instantiate],
    [iput], [fs_parse], ...) are modelled after their definitions in the
    Linux tree the file is written against. *)

From Stdlib Require Import ZArith Lia Ascii String.
From stdpp Require Import gmap strings list fin_maps.

Local Open Scope Z_scope.

(** ** Constants of the kernel headers *)

(** C writes these constants in octal; [oct 755] reads the decimal digits
    [755] as the octal numeral [0755]. *)
Fixpoint oct_digits (fuel : nat) (n : Z) : Z :=
  match fuel with
  | O => 0
  | S fuel' => if n <=? 0 then 0 else n mod 10 + 8 * oct_digits fuel' (n / 10)
  end.
Definition oct (n : Z) : Z := oct_digits 24 n.

Module Stat.
Definition S_IFMT   : Z := Eval cbv in oct 170000.
Definition S_IFSOCK : Z := Eval cbv in oct 140000.
Definition S_IFLNK  : Z := Eval cbv in oct 120000.
Definition S_IFREG  : Z := Eval cbv in oct 100000.
Definition S_IFBLK  : Z := Eval cbv in oct 60000.
Definition S_IFDIR  : Z := Eval cbv in oct 40000.
Definition S_IFCHR  : Z := Eval cbv in oct 20000.
Definition S_IFIFO  : Z := Eval cbv in oct 10000.
Definition S_ISGID  : Z := Eval cbv in oct 2000.
Definition S_IRWXUGO : Z := Eval cbv in oct 777.
Definition S_IALLUGO : Z := Eval cbv in oct 7777.
End Stat.
Export Stat.

Module Errno.
Definition ENOMEM : Z := 12.
Definition EINVAL : Z := 22.
Definition ENOSPC : Z := 28.
Definition ENOTEMPTY : Z := 39.
Definition ENOPARAM : Z := 519.
End Errno.
Export Errno.

(** [#define TAGFS_DEFAULT_MODE 0755] *)
Definition TAGFS_DEFAULT_MODE : Z := Eval cbv in oct 755.

(** [unsigned int] arithmetic wraps; [to_int] is the conversion of a
    [size_t] to [int] on the two's-complement machines Linux runs on. *)
Definition UINT_MAX : Z := 4294967295.
Definition wrap32 (z : Z) : Z := z mod 2 ^ 32.
Definition to_int (z : Z) : Z := (z + 2 ^ 31) mod 2 ^ 32 - 2 ^ 31.

(** Constants of a 64-bit machine with 4 KiB pages. *)
Definition MAX_LFS_FILESIZE : Z := 9223372036854775807.
Definition PAGE_SHIFT : Z := 12.
Definition PAGE_SIZE : Z := Z.shiftl 1 PAGE_SHIFT.

(** ** Kernel objects *)

Record timespec64 := { tv_sec : Z; tv_nsec : Z }.

Inductive inode_operations :=
  | empty_iops
  | tagfs_file_inode_operations
  | tagfs_dir_inode_operations
  | page_symlink_inode_operations.

Inductive file_operations :=
  | no_open_fops
  | tagfs_file_operations
  | simple_dir_operations
  | def_chr_fops
  | def_blk_fops
  | pipefifo_fops.

Inductive address_space_operations := empty_aops | ram_aops.

Inductive gfp_t := GFP_HIGHUSER_MOVABLE | GFP_HIGHUSER | GFP_USER.

(** The page cache of an inode.  Only page 0 is ever written by this file
    (the target of a symbolic link), so the mapping keeps that page. *)
Record address_space := {
  a_ops : address_space_operations;
  gfp_mask : gfp_t;
  as_unevictable : bool;
  page0 : option string
}.

(** Pointers are keys of the store. *)
Abbreviation iptr := nat (only parsing).
Abbreviation dptr := nat (only parsing).
Abbreviation sbptr := nat (only parsing).
Abbreviation fsiptr := nat (only parsing).

Record inode := {
  i_ino : Z;
  i_mode : Z;
  i_uid : Z;
  i_gid : Z;
  i_nlink : Z;
  i_rdev : Z;
  i_atime : timespec64;
  i_mtime : timespec64;
  i_ctime : timespec64;
  i_count : Z;
  i_sb : sbptr;
  i_op : inode_operations;
  i_fop : file_operations;
  i_mapping : address_space
}.

Record dentry := {
  d_name : string;
  d_parent : option dptr;
  d_inode : option iptr;
  d_count : Z;
  d_sb : sbptr
}.

(** Modelled from the spec: [struct tagfs_fs_info] and its [mount_opts]
    are declared in [tagfs_internal.h], which is not at hand.  The record
    has the fields this file reads or writes: the lock and the default
    creation mode of the spec's Mount Configuration, and the handles to the
    backing block device and DAX device a Volume may reference. *)
Record tagfs_mount_opts := { mode : Z }.

Record tagfs_fs_info := {
  fsi_mutex : bool;                 (* initialised and not yet destroyed *)
  mount_opts : tagfs_mount_opts;
  bdevp : option nat;               (* struct block_device * *)
  dax_devp : option nat             (* struct dax_device * *)
}.

Inductive super_operations := no_sops | tagfs_ops.

Record super_block := {
  s_fs_info : option fsiptr;
  s_root : option dptr;
  s_maxbytes : Z;
  s_blocksize : Z;
  s_blocksize_bits : Z;
  s_magic : Z;
  s_op : super_operations;
  s_time_gran : Z
}.

(** Calls that leave this file and release something, in program order. *)
Inductive event :=
  | EvMutexDestroy (p : fsiptr)
  | EvBlkdevPut (bdev : nat) (holder_mode : Z)
  | EvFsPutDax (dax : nat) (holder : fsiptr)
  | EvKfree (p : fsiptr)
  | EvKillLitterSuper (sb : sbptr).

(** ** The kernel state *)

(** The counters behind [get_next_ino()]: the [last_ino] of every CPU (0
    on a CPU that has handed out no number yet) and the [shared_last_ino]
    from which the CPUs take their batches. *)
Record ino_counters := {
  last_ino : gmap nat Z;
  shared_last_ino : Z
}.

Record kstate := {
  k_inodes : gmap nat inode;
  k_dentries : gmap nat dentry;
  k_sbs : gmap nat super_block;
  k_fsi : gmap nat tagfs_fs_info;
  k_last_ino : ino_counters;        (* counters behind get_next_ino() *)
  k_cpu : nat;                      (* the CPU the task is running on *)
  k_anon_devs : Z;                  (* anonymous device numbers in use *)
  k_time : timespec64;              (* what current_time() reads *)
  k_fsuid : Z;
  k_fsgid : Z;
  k_alloc : list bool;              (* outcome of the coming allocations *)
  k_trace : list event              (* newest event last *)
}.

Definition with_inodes (m : gmap nat inode) (s : kstate) : kstate :=
  {| k_inodes := m; k_dentries := k_dentries s; k_sbs := k_sbs s;
     k_fsi := k_fsi s; k_last_ino := k_last_ino s; k_cpu := k_cpu s;
     k_anon_devs := k_anon_devs s; k_time := k_time s;
     k_fsuid := k_fsuid s; k_fsgid := k_fsgid s; k_alloc := k_alloc s;
     k_trace := k_trace s |}.

Definition with_dentries (m : gmap nat dentry) (s : kstate) : kstate :=
  {| k_inodes := k_inodes s; k_dentries := m; k_sbs := k_sbs s;
     k_fsi := k_fsi s; k_last_ino := k_last_ino s; k_cpu := k_cpu s;
     k_anon_devs := k_anon_devs s; k_time := k_time s;
     k_fsuid := k_fsuid s; k_fsgid := k_fsgid s; k_alloc := k_alloc s;
     k_trace := k_trace s |}.

Definition with_sbs (m : gmap nat super_block) (s : kstate) : kstate :=
  {| k_inodes := k_inodes s; k_dentries := k_dentries s; k_sbs := m;
     k_fsi := k_fsi s; k_last_ino := k_last_ino s; k_cpu := k_cpu s;
     k_anon_devs := k_anon_devs s; k_time := k_time s;
     k_fsuid := k_fsuid s; k_fsgid := k_fsgid s; k_alloc := k_alloc s;
     k_trace := k_trace s |}.

Definition with_fsi (m : gmap nat tagfs_fs_info) (s : kstate) : kstate :=
  {| k_inodes := k_inodes s; k_dentries := k_dentries s; k_sbs := k_sbs s;
     k_fsi := m; k_last_ino := k_last_ino s; k_cpu := k_cpu s;
     k_anon_devs := k_anon_devs s; k_time := k_time s;
     k_fsuid := k_fsuid s; k_fsgid := k_fsgid s; k_alloc := k_alloc s;
     k_trace := k_trace s |}.

Definition with_last_ino (n : ino_counters) (s : kstate) : kstate :=
  {| k_inodes := k_inodes s; k_dentries := k_dentries s; k_sbs := k_sbs s;
     k_fsi := k_fsi s; k_last_ino := n; k_cpu := k_cpu s;
     k_anon_devs := k_anon_devs s; k_time := k_time s;
     k_fsuid := k_fsuid s; k_fsgid := k_fsgid s; k_alloc := k_alloc s;
     k_trace := k_trace s |}.

Definition with_cpu (c : nat) (s : kstate) : kstate :=
  {| k_inodes := k_inodes s; k_dentries := k_dentries s; k_sbs := k_sbs s;
     k_fsi := k_fsi s; k_last_ino := k_last_ino s; k_cpu := c;
     k_anon_devs := k_anon_devs s; k_time := k_time s;
     k_fsuid := k_fsuid s; k_fsgid := k_fsgid s; k_alloc := k_alloc s;
     k_trace := k_trace s |}.

Definition with_anon_devs (n : Z) (s : kstate) : kstate :=
  {| k_inodes := k_inodes s; k_dentries := k_dentries s; k_sbs := k_sbs s;
     k_fsi := k_fsi s; k_last_ino := k_last_ino s; k_cpu := k_cpu s;
     k_anon_devs := n; k_time := k_time s;
     k_fsuid := k_fsuid s; k_fsgid := k_fsgid s; k_alloc := k_alloc s;
     k_trace := k_trace s |}.

Definition with_alloc (l : list bool) (s : kstate) : kstate :=
  {| k_inodes := k_inodes s; k_dentries := k_dentries s; k_sbs := k_sbs s;
     k_fsi := k_fsi s; k_last_ino := k_last_ino s; k_cpu := k_cpu s;
     k_anon_devs := k_anon_devs s; k_time := k_time s;
     k_fsuid := k_fsuid s; k_fsgid := k_fsgid s; k_alloc := l;
     k_trace := k_trace s |}.

Definition with_trace (l : list event) (s : kstate) : kstate :=
  {| k_inodes := k_inodes s; k_dentries := k_dentries s; k_sbs := k_sbs s;
     k_fsi := k_fsi s; k_last_ino := k_last_ino s; k_cpu := k_cpu s;
     k_anon_devs := k_anon_devs s; k_time := k_time s;
     k_fsuid := k_fsuid s; k_fsgid := k_fsgid s; k_alloc := k_alloc s;
     k_trace := l |}.

(** ** The monad: state passing, with [Oops] for a kernel BUG or a
    dereference of a pointer that is not live *)

Inductive result (A : Type) :=
  | Ret (a : A) (s : kstate)
  | Oops.
Arguments Ret {A} a s.
Arguments Oops {A}.

Definition K (A : Type) : Type := kstate -> result A.

Definition ret {A} (a : A) : K A := fun s => Ret a s.

Definition bind {A B} (m : K A) (f : A -> K B) : K B :=
  fun s => match m s with
           | Ret a s' => f a s'
           | Oops => Oops
           end.

Definition oops {A} : K A := fun _ => Oops.
Definition gets {A} (f : kstate -> A) : K A := fun s => Ret (f s) s.
Definition modify (f : kstate -> kstate) : K unit := fun s => Ret tt (f s).

Declare Scope kernel_scope.
Delimit Scope kernel_scope with kernel.
Notation "'let*' x ':=' m 'in' k" := (bind m (fun x => k))
  (at level 10, x name, m at level 100, k at level 200) : kernel_scope.
Notation "m ';;' k" := (bind m (fun _ => k))
  (at level 100, k at level 200, right associativity) : kernel_scope.
Local Open Scope kernel_scope.

(** Dereferences. *)
Definition load_inode (p : iptr) : K inode :=
  fun s => match k_inodes s !! p with
           | Some i => Ret i s
           | None => Oops
           end.

Definition update_inode (p : iptr) (f : inode -> inode) : K unit :=
  fun s => match k_inodes s !! p with
           | Some i => Ret tt (with_inodes (<[p := f i]> (k_inodes s)) s)
           | None => Oops
           end.

Definition load_dentry (p : dptr) : K dentry :=
  fun s => match k_dentries s !! p with
           | Some d => Ret d s
           | None => Oops
           end.

Definition update_dentry (p : dptr) (f : dentry -> dentry) : K unit :=
  fun s => match k_dentries s !! p with
           | Some d => Ret tt (with_dentries (<[p := f d]> (k_dentries s)) s)
           | None => Oops
           end.

Definition load_sb (p : sbptr) : K super_block :=
  fun s => match k_sbs s !! p with
           | Some b => Ret b s
           | None => Oops
           end.

Definition update_sb (p : sbptr) (f : super_block -> super_block) : K unit :=
  fun s => match k_sbs s !! p with
           | Some b => Ret tt (with_sbs (<[p := f b]> (k_sbs s)) s)
           | None => Oops
           end.

Definition load_fsi (p : fsiptr) : K tagfs_fs_info :=
  fun s => match k_fsi s !! p with
           | Some b => Ret b s
           | None => Oops
           end.

Definition update_fsi (p : fsiptr) (f : tagfs_fs_info -> tagfs_fs_info)
  : K unit :=
  fun s => match k_fsi s !! p with
           | Some b => Ret tt (with_fsi (<[p := f b]> (k_fsi s)) s)
           | None => Oops
           end.

Definition emit (e : event) : K unit :=
  modify (fun s => with_trace (k_trace s ++ [e]) s).

(** One allocation attempt: consumes the next entry of [k_alloc]; an
    exhausted schedule means memory has run out. *)
Definition try_alloc : K bool :=
  fun s => Ret (hd false (k_alloc s)) (with_alloc (tl (k_alloc s)) s).

(** ** Field assignments *)

Definition set_i_ino (v : Z) (i : inode) : inode :=
  {| i_ino := v; i_mode := i_mode i; i_uid := i_uid i; i_gid := i_gid i;
     i_nlink := i_nlink i; i_rdev := i_rdev i; i_atime := i_atime i;
     i_mtime := i_mtime i; i_ctime := i_ctime i; i_count := i_count i;
     i_sb := i_sb i; i_op := i_op i; i_fop := i_fop i;
     i_mapping := i_mapping i |}.

Definition set_i_mode (v : Z) (i : inode) : inode :=
  {| i_ino := i_ino i; i_mode := v; i_uid := i_uid i; i_gid := i_gid i;
     i_nlink := i_nlink i; i_rdev := i_rdev i; i_atime := i_atime i;
     i_mtime := i_mtime i; i_ctime := i_ctime i; i_count := i_count i;
     i_sb := i_sb i; i_op := i_op i; i_fop := i_fop i;
     i_mapping := i_mapping i |}.

Definition set_i_uid (v : Z) (i : inode) : inode :=
  {| i_ino := i_ino i; i_mode := i_mode i; i_uid := v; i_gid := i_gid i;
     i_nlink := i_nlink i; i_rdev := i_rdev i; i_atime := i_atime i;
     i_mtime := i_mtime i; i_ctime := i_ctime i; i_count := i_count i;
     i_sb := i_sb i; i_op := i_op i; i_fop := i_fop i;
     i_mapping := i_mapping i |}.

Definition set_i_gid (v : Z) (i : inode) : inode :=
  {| i_ino := i_ino i; i_mode := i_mode i; i_uid := i_uid i; i_gid := v;
     i_nlink := i_nlink i; i_rdev := i_rdev i; i_atime := i_atime i;
     i_mtime := i_mtime i; i_ctime := i_ctime i; i_count := i_count i;
     i_sb := i_sb i; i_op := i_op i; i_fop := i_fop i;
     i_mapping := i_mapping i |}.

Definition set_i_nlink (v : Z) (i : inode) : inode :=
  {| i_ino := i_ino i; i_mode := i_mode i; i_uid := i_uid i;
     i_gid := i_gid i; i_nlink := v; i_rdev := i_rdev i;
     i_atime := i_atime i; i_mtime := i_mtime i; i_ctime := i_ctime i;
     i_count := i_count i; i_sb := i_sb i; i_op := i_op i; i_fop := i_fop i;
     i_mapping := i_mapping i |}.

Definition set_i_rdev (v : Z) (i : inode) : inode :=
  {| i_ino := i_ino i; i_mode := i_mode i; i_uid := i_uid i;
     i_gid := i_gid i; i_nlink := i_nlink i; i_rdev := v;
     i_atime := i_atime i; i_mtime := i_mtime i; i_ctime := i_ctime i;
     i_count := i_count i; i_sb := i_sb i; i_op := i_op i; i_fop := i_fop i;
     i_mapping := i_mapping i |}.

Definition set_i_atime (v : timespec64) (i : inode) : inode :=
  {| i_ino := i_ino i; i_mode := i_mode i; i_uid := i_uid i;
     i_gid := i_gid i; i_nlink := i_nlink i; i_rdev := i_rdev i;
     i_atime := v; i_mtime := i_mtime i; i_ctime := i_ctime i;
     i_count := i_count i; i_sb := i_sb i; i_op := i_op i; i_fop := i_fop i;
     i_mapping := i_mapping i |}.

Definition set_i_mtime (v : timespec64) (i : inode) : inode :=
  {| i_ino := i_ino i; i_mode := i_mode i; i_uid := i_uid i;
     i_gid := i_gid i; i_nlink := i_nlink i; i_rdev := i_rdev i;
     i_atime := i_atime i; i_mtime := v; i_ctime := i_ctime i;
     i_count := i_count i; i_sb := i_sb i; i_op := i_op i; i_fop := i_fop i;
     i_mapping := i_mapping i |}.

Definition set_i_ctime (v : timespec64) (i : inode) : inode :=
  {| i_ino := i_ino i; i_mode := i_mode i; i_uid := i_uid i;
     i_gid := i_gid i; i_nlink := i_nlink i; i_rdev := i_rdev i;
     i_atime := i_atime i; i_mtime := i_mtime i; i_ctime := v;
     i_count := i_count i; i_sb := i_sb i; i_op := i_op i; i_fop := i_fop i;
     i_mapping := i_mapping i |}.

Definition set_i_count (v : Z) (i : inode) : inode :=
  {| i_ino := i_ino i; i_mode := i_mode i; i_uid := i_uid i;
     i_gid := i_gid i; i_nlink := i_nlink i; i_rdev := i_rdev i;
     i_atime := i_atime i; i_mtime := i_mtime i; i_ctime := i_ctime i;
     i_count := v; i_sb := i_sb i; i_op := i_op i; i_fop := i_fop i;
     i_mapping := i_mapping i |}.

Definition set_i_op (v : inode_operations) (i : inode) : inode :=
  {| i_ino := i_ino i; i_mode := i_mode i; i_uid := i_uid i;
     i_gid := i_gid i; i_nlink := i_nlink i; i_rdev := i_rdev i;
     i_atime := i_atime i; i_mtime := i_mtime i; i_ctime := i_ctime i;
     i_count := i_count i; i_sb := i_sb i; i_op := v; i_fop := i_fop i;
     i_mapping := i_mapping i |}.

Definition set_i_fop (v : file_operations) (i : inode) : inode :=
  {| i_ino := i_ino i; i_mode := i_mode i; i_uid := i_uid i;
     i_gid := i_gid i; i_nlink := i_nlink i; i_rdev := i_rdev i;
     i_atime := i_atime i; i_mtime := i_mtime i; i_ctime := i_ctime i;
     i_count := i_count i; i_sb := i_sb i; i_op := i_op i; i_fop := v;
     i_mapping := i_mapping i |}.

Definition set_i_mapping (v : address_space) (i : inode) : inode :=
  {| i_ino := i_ino i; i_mode := i_mode i; i_uid := i_uid i;
     i_gid := i_gid i; i_nlink := i_nlink i; i_rdev := i_rdev i;
     i_atime := i_atime i; i_mtime := i_mtime i; i_ctime := i_ctime i;
     i_count := i_count i; i_sb := i_sb i; i_op := i_op i; i_fop := i_fop i;
     i_mapping := v |}.

Definition set_d_inode (v : option iptr) (d : dentry) : dentry :=
  {| d_name := d_name d; d_parent := d_parent d; d_inode := v;
     d_count := d_count d; d_sb := d_sb d |}.

Definition set_d_count (v : Z) (d : dentry) : dentry :=
  {| d_name := d_name d; d_parent := d_parent d; d_inode := d_inode d;
     d_count := v; d_sb := d_sb d |}.

Definition set_a_ops (v : address_space_operations) (a : address_space) : address_space :=
  {| a_ops := v; gfp_mask := gfp_mask a; as_unevictable := as_unevictable a;
     page0 := page0 a |}.

Definition set_gfp_mask (v : gfp_t) (a : address_space) : address_space :=
  {| a_ops := a_ops a; gfp_mask := v; as_unevictable := as_unevictable a;
     page0 := page0 a |}.

Definition set_as_unevictable (v : bool) (a : address_space) : address_space :=
  {| a_ops := a_ops a; gfp_mask := gfp_mask a; as_unevictable := v;
     page0 := page0 a |}.

Definition set_page0 (v : option string) (a : address_space) : address_space :=
  {| a_ops := a_ops a; gfp_mask := gfp_mask a;
     as_unevictable := as_unevictable a; page0 := v |}.

Definition set_fsi_mutex (v : bool) (f : tagfs_fs_info) : tagfs_fs_info :=
  {| fsi_mutex := v; mount_opts := mount_opts f; bdevp := bdevp f;
     dax_devp := dax_devp f |}.

Definition set_mount_opts (v : tagfs_mount_opts) (f : tagfs_fs_info) : tagfs_fs_info :=
  {| fsi_mutex := fsi_mutex f; mount_opts := v; bdevp := bdevp f;
     dax_devp := dax_devp f |}.

Definition set_bdevp (v : option nat) (f : tagfs_fs_info) : tagfs_fs_info :=
  {| fsi_mutex := fsi_mutex f; mount_opts := mount_opts f; bdevp := v;
     dax_devp := dax_devp f |}.

Definition set_dax_devp (v : option nat) (f : tagfs_fs_info) : tagfs_fs_info :=
  {| fsi_mutex := fsi_mutex f; mount_opts := mount_opts f; bdevp := bdevp f;
     dax_devp := v |}.

Definition set_s_fs_info (v : option fsiptr) (b : super_block) : super_block :=
  {| s_fs_info := v; s_root := s_root b; s_maxbytes := s_maxbytes b;
     s_blocksize := s_blocksize b; s_blocksize_bits := s_blocksize_bits b;
     s_magic := s_magic b; s_op := s_op b; s_time_gran := s_time_gran b |}.

Definition set_s_root (v : option dptr) (b : super_block) : super_block :=
  {| s_fs_info := s_fs_info b; s_root := v; s_maxbytes := s_maxbytes b;
     s_blocksize := s_blocksize b; s_blocksize_bits := s_blocksize_bits b;
     s_magic := s_magic b; s_op := s_op b; s_time_gran := s_time_gran b |}.

Definition set_s_maxbytes (v : Z) (b : super_block) : super_block :=
  {| s_fs_info := s_fs_info b; s_root := s_root b; s_maxbytes := v;
     s_blocksize := s_blocksize b; s_blocksize_bits := s_blocksize_bits b;
     s_magic := s_magic b; s_op := s_op b; s_time_gran := s_time_gran b |}.

Definition set_s_blocksize (v : Z) (b : super_block) : super_block :=
  {| s_fs_info := s_fs_info b; s_root := s_root b;
     s_maxbytes := s_maxbytes b; s_blocksize := v;
     s_blocksize_bits := s_blocksize_bits b; s_magic := s_magic b;
     s_op := s_op b; s_time_gran := s_time_gran b |}.

Definition set_s_blocksize_bits (v : Z) (b : super_block) : super_block :=
  {| s_fs_info := s_fs_info b; s_root := s_root b;
     s_maxbytes := s_maxbytes b; s_blocksize := s_blocksize b;
     s_blocksize_bits := v; s_magic := s_magic b; s_op := s_op b;
     s_time_gran := s_time_gran b |}.

Definition set_s_magic (v : Z) (b : super_block) : super_block :=
  {| s_fs_info := s_fs_info b; s_root := s_root b;
     s_maxbytes := s_maxbytes b; s_blocksize := s_blocksize b;
     s_blocksize_bits := s_blocksize_bits b; s_magic := v; s_op := s_op b;
     s_time_gran := s_time_gran b |}.

Definition set_s_op (v : super_operations) (b : super_block) : super_block :=
  {| s_fs_info := s_fs_info b; s_root := s_root b;
     s_maxbytes := s_maxbytes b; s_blocksize := s_blocksize b;
     s_blocksize_bits := s_blocksize_bits b; s_magic := s_magic b; s_op := v;
     s_time_gran := s_time_gran b |}.

Definition set_s_time_gran (v : Z) (b : super_block) : super_block :=
  {| s_fs_info := s_fs_info b; s_root := s_root b;
     s_maxbytes := s_maxbytes b; s_blocksize := s_blocksize b;
     s_blocksize_bits := s_blocksize_bits b; s_magic := s_magic b;
     s_op := s_op b; s_time_gran := v |}.

(** ** Kernel helpers called by the file *)

Definition S_ISDIR (m : Z) : bool := Z.land m S_IFMT =? S_IFDIR.
Definition S_ISREG (m : Z) : bool := Z.land m S_IFMT =? S_IFREG.
Definition S_ISLNK (m : Z) : bool := Z.land m S_IFMT =? S_IFLNK.
Definition S_ISCHR (m : Z) : bool := Z.land m S_IFMT =? S_IFCHR.
Definition S_ISBLK (m : Z) : bool := Z.land m S_IFMT =? S_IFBLK.
Definition S_ISFIFO (m : Z) : bool := Z.land m S_IFMT =? S_IFIFO.
Definition S_ISSOCK (m : Z) : bool := Z.land m S_IFMT =? S_IFSOCK.

Definition zero_time : timespec64 := {| tv_sec := 0; tv_nsec := 0 |}.

(** What [inode_init_always] leaves in a freshly allocated inode: one
    reference, one link, no operations. *)
Definition inode_init_always (sb : sbptr) : inode :=
  {| i_ino := 0; i_mode := 0; i_uid := 0; i_gid := 0; i_nlink := 1;
     i_rdev := 0; i_atime := zero_time; i_mtime := zero_time;
     i_ctime := zero_time; i_count := 1; i_sb := sb; i_op := empty_iops;
     i_fop := no_open_fops;
     i_mapping := {| a_ops := empty_aops; gfp_mask := GFP_HIGHUSER_MOVABLE;
                     as_unevictable := false; page0 := None |} |}.

(** [new_inode(sb)]: NULL when the allocation fails, otherwise a pointer
    that was not live before. *)
Definition new_inode (sb : sbptr) : K (option iptr) :=
  load_sb sb ;;
  let* ok := try_alloc in
  if ok : bool then
    let* p := gets (fun s => fresh (dom (k_inodes s))) in
    modify (fun s => with_inodes (<[p := inode_init_always sb]> (k_inodes s)) s) ;;
    ret (Some p)
  else ret None.

(** [get_next_ino()] under [CONFIG_SMP]: the CPU the caller runs on
    counts in its own [last_ino]; whenever that sits on a multiple of
    [LAST_INO_BATCH] the CPU takes the next batch from the shared counter
    (an [atomic_t], kept here as its 32-bit pattern).  The result is an
    [unsigned int] and never 0. *)
Definition LAST_INO_BATCH : Z := 1024.

Definition set_last_ino (cpu : nat) (v : Z) (c : ino_counters)
  : ino_counters :=
  {| last_ino := <[cpu := v]> (last_ino c);
     shared_last_ino := shared_last_ino c |}.

Definition set_shared_last_ino (v : Z) (c : ino_counters) : ino_counters :=
  {| last_ino := last_ino c; shared_last_ino := v |}.

Definition get_next_ino : K Z :=
  let* cpu := gets k_cpu in                     (* get_cpu_var(last_ino) *)
  let* res := gets (fun s => default 0 (last_ino (k_last_ino s) !! cpu)) in
  let* res :=
    if Z.land res (LAST_INO_BATCH - 1) =? 0 then
      (* next = atomic_add_return(LAST_INO_BATCH, &shared_last_ino) *)
      let* shared := gets (fun s => shared_last_ino (k_last_ino s)) in
      let next := wrap32 (shared + LAST_INO_BATCH) in
      modify (fun s =>
                with_last_ino (set_shared_last_ino next (k_last_ino s)) s) ;;
      ret (wrap32 (next - LAST_INO_BATCH))
    else ret res in
  let res := wrap32 (res + 1) in
  (* get_next_ino should not provide a 0 inode number *)
  let res := if res =? 0 then 1 else res in
  modify (fun s => with_last_ino (set_last_ino cpu res (k_last_ino s)) s) ;;
  ret res.

(** [inode_init_owner(idmap, inode, dir, mode)] under the identity idmap. *)
Definition inode_init_owner (p : iptr) (dir : option iptr) (mode : Z)
  : K unit :=
  let* fsuid := gets k_fsuid in
  update_inode p (set_i_uid fsuid) ;;
  let* mode :=
    match dir with
    | Some d =>
        let* di := load_inode d in
        if Z.land (i_mode di) S_ISGID =? 0 then
          let* fsgid := gets k_fsgid in
          update_inode p (set_i_gid fsgid) ;;
          ret mode
        else
          update_inode p (set_i_gid (i_gid di)) ;;
          (* Directories are special, and always inherit S_ISGID *)
          ret (if S_ISDIR mode then Z.lor mode S_ISGID else mode)
    | None =>
        let* fsgid := gets k_fsgid in
        update_inode p (set_i_gid fsgid) ;;
        ret mode
    end in
  update_inode p (set_i_mode mode).

Definition mapping_set_gfp_mask (p : iptr) (g : gfp_t) : K unit :=
  update_inode p (fun i => set_i_mapping (set_gfp_mask g (i_mapping i)) i).

Definition mapping_set_unevictable (p : iptr) : K unit :=
  update_inode p
    (fun i => set_i_mapping (set_as_unevictable true (i_mapping i)) i).

Definition inode_nohighmem (p : iptr) : K unit :=
  mapping_set_gfp_mask p GFP_USER.

(** [current_time(inode)] reads the clock. *)
Definition current_time (p : iptr) : K timespec64 :=
  load_inode p ;;
  gets k_time.

(** [init_special_inode(inode, mode, rdev)]. *)
Definition init_special_inode (p : iptr) (mode rdev : Z) : K unit :=
  update_inode p (set_i_mode mode) ;;
  if S_ISCHR mode then
    update_inode p (set_i_fop def_chr_fops) ;;
    update_inode p (set_i_rdev rdev)
  else if S_ISBLK mode then
    update_inode p (set_i_fop def_blk_fops) ;;
    update_inode p (set_i_rdev rdev)
  else if S_ISFIFO mode then
    update_inode p (set_i_fop pipefifo_fops)
  else ret tt.

(** [inc_nlink(inode)] and [drop_nlink(inode)]: [__i_nlink] is an
    [unsigned int]. *)
Definition inc_nlink (p : iptr) : K unit :=
  update_inode p (fun i => set_i_nlink (wrap32 (i_nlink i + 1)) i).

Definition drop_nlink (p : iptr) : K unit :=
  update_inode p (fun i => set_i_nlink (wrap32 (i_nlink i - 1)) i).

(** [iput(inode)]: drops one reference.  On the last one [iput_final]
    asks [s_op->drop_inode]; [tagfs_ops] installs [generic_delete_inode],
    which always answers "delete", so the inode is evicted and freed. *)
Definition iput (p : iptr) : K unit :=
  let* i := load_inode p in
  if i_count i - 1 =? 0 then
    modify (fun s => with_inodes (delete p (k_inodes s)) s)
  else update_inode p (set_i_count (i_count i - 1)).

(** [d_instantiate(entry, inode)] for a non-NULL inode: the entry must
    not be attached to an inode yet ([BUG_ON] otherwise). *)
Definition d_instantiate (e : dptr) (p : iptr) : K unit :=
  let* d := load_dentry e in
  match d_inode d with
  | Some _ => oops
  | None => update_dentry e (set_d_inode (Some p))
  end.

Definition dget (e : dptr) : K unit :=
  update_dentry e (fun d => set_d_count (d_count d + 1) d).

(** [page_symlink(inode, symname, len)]: [write_begin] of [ram_aops]
    grabs page 0 of the mapping, which can fail with [-ENOMEM]; then the
    [len - 1] bytes of the target are copied into that page.  A length
    that does not fit the page overruns it. *)
Definition page_symlink (p : iptr) (symname : string) (len : Z) : K Z :=
  load_inode p ;;
  if (len - 1 <? 0) || (PAGE_SIZE <? len - 1) then oops
  else
    let* ok := try_alloc in
    if ok : bool then
      update_inode p
        (fun i => set_i_mapping
                    (set_page0
                       (Some (String.substring 0 (Z.to_nat (len - 1)) symname))
                       (i_mapping i)) i) ;;
      ret 0
    else ret (- ENOMEM).

Definition strlen (s : string) : Z := Z.of_nat (String.length s).

(** ** tagfs_inode.c *)

Definition tagfs_get_inode (sb : sbptr) (dir : option iptr) (mode dev : Z)
  : K (option iptr) :=
  let* inode := new_inode sb in
  match inode with
  | Some p =>
      let* ino := get_next_ino in
      update_inode p (set_i_ino ino) ;;
      inode_init_owner p dir mode ;;
      update_inode p
        (fun i => set_i_mapping (set_a_ops ram_aops (i_mapping i)) i) ;;
      mapping_set_gfp_mask p GFP_HIGHUSER ;;
      mapping_set_unevictable p ;;
      let* now := current_time p in
      update_inode p (set_i_ctime now) ;;
      update_inode p (set_i_mtime now) ;;
      update_inode p (set_i_atime now) ;;
      (let fmt := Z.land mode S_IFMT in
       if fmt =? S_IFREG then
         update_inode p (set_i_op tagfs_file_inode_operations) ;;
         update_inode p (set_i_fop tagfs_file_operations)
       else if fmt =? S_IFDIR then
         update_inode p (set_i_op tagfs_dir_inode_operations) ;;
         update_inode p (set_i_fop simple_dir_operations) ;;
         (* directory inodes start off with i_nlink == 2 (for "." entry) *)
         inc_nlink p
       else if fmt =? S_IFLNK then
         update_inode p (set_i_op page_symlink_inode_operations) ;;
         inode_nohighmem p
       else
         init_special_inode p mode dev) ;;
      ret inode
  | None => ret inode
  end.

(** File creation. Allocate an inode, and we're done.. *)
Definition tagfs_mknod (dir : iptr) (dentry : dptr) (mode dev : Z) : K Z :=
  let* d := load_inode dir in
  let* inode := tagfs_get_inode (i_sb d) (Some dir) mode dev in
  match inode with
  | Some p =>
      d_instantiate dentry p ;;
      dget dentry ;;            (* Extra count - pin the dentry in core *)
      let* now := current_time dir in
      update_inode dir (set_i_ctime now) ;;
      update_inode dir (set_i_mtime now) ;;
      ret 0
  | None => ret (- ENOSPC)
  end.

Definition tagfs_mkdir (dir : iptr) (dentry : dptr) (mode : Z) : K Z :=
  let* retval := tagfs_mknod dir dentry (Z.lor mode S_IFDIR) 0 in
  if retval =? 0 then
    inc_nlink dir ;;
    ret retval
  else ret retval.

Definition tagfs_create (dir : iptr) (dentry : dptr) (mode : Z) (excl : bool)
  : K Z :=
  tagfs_mknod dir dentry (Z.lor mode S_IFREG) 0.

Definition tagfs_symlink (dir : iptr) (dentry : dptr) (symname : string)
  : K Z :=
  let* d := load_inode dir in
  let* inode := tagfs_get_inode (i_sb d) (Some dir)
                  (Z.lor S_IFLNK S_IRWXUGO) 0 in
  match inode with
  | Some p =>
      let l := to_int (strlen symname + 1) in
      let* error := page_symlink p symname l in
      if error =? 0 then
        d_instantiate dentry p ;;
        dget dentry ;;
        let* now := current_time dir in
        update_inode dir (set_i_ctime now) ;;
        update_inode dir (set_i_mtime now) ;;
        ret error
      else
        iput p ;;
        ret error
  | None => ret (- ENOSPC)
  end.

(** ** Unnamed files: [tagfs_tmpfile] *)

(** [struct file], as far as [tagfs_tmpfile] looks at it. *)
Record file := { f_path_dentry : dptr }.

Definition set_d_name (v : string) (d : dentry) : dentry :=
  {| d_name := v; d_parent := d_parent d; d_inode := d_inode d;
     d_count := d_count d; d_sb := d_sb d |}.

(** [printf]'s [%llu]. *)
Definition decimal_digit (d : Z) : ascii := ascii_of_nat (48 + Z.to_nat d).

Fixpoint fmt_u_aux (fuel : nat) (n : Z) (acc : string) : string :=
  match fuel with
  | O => acc
  | S fuel' =>
      let acc' := String (decimal_digit (n mod 10)) acc in
      if n / 10 =? 0 then acc' else fmt_u_aux fuel' (n / 10) acc'
  end.

Definition fmt_u (n : Z) : string := fmt_u_aux 20 n "".

(** [inode_dec_link_count(inode)]: [drop_nlink], then the inode is marked
    dirty, which leaves no trace in this store. *)
Definition inode_dec_link_count (p : iptr) : K unit := drop_nlink p.

(** [d_tmpfile(file, inode)]: the link count goes down by one, the entry
    of the file is renamed to [#<ino>] and bound to the inode.  Its
    [BUG_ON]s about hashing and inline names concern what this store does
    not track; the one about aliases is repeated by [d_instantiate]. *)
Definition d_tmpfile (f : file) (p : iptr) : K unit :=
  let dentry := f_path_dentry f in
  inode_dec_link_count p ;;
  let* i := load_inode p in
  update_dentry dentry (set_d_name ("#" +:+ fmt_u (i_ino i))) ;;
  d_instantiate dentry p.

(** [finish_open_simple(file, error)]; [finish_open] itself, which opens
    the file through the operations of its inode, is left to the caller
    of the model. *)
Definition finish_open_simple (finish_open : file -> dptr -> K Z)
    (f : file) (error : Z) : K Z :=
  if error =? 0 then finish_open f (f_path_dentry f) else ret error.

Definition tagfs_tmpfile (finish_open : file -> dptr -> K Z)
    (dir : iptr) (f : file) (mode : Z) : K Z :=
  let* d := load_inode dir in
  let* inode := tagfs_get_inode (i_sb d) (Some dir) mode 0 in
  match inode with
  | None => ret (- ENOSPC)
  | Some p =>
      d_tmpfile f p ;;
      finish_open_simple finish_open f 0
  end.

(** ** Removal: [simple_rmdir] of libfs, installed as [.rmdir] *)

(** [simple_empty(dentry)]: no child of the entry is positive. *)
Definition simple_empty (e : dptr) : K bool :=
  load_dentry e ;;
  gets (fun s =>
          forallb (fun kv : nat * dentry =>
                     negb (bool_decide (d_parent kv.2 = Some e)
                           && bool_decide (is_Some (d_inode kv.2))))
                  (map_to_list (k_dentries s))).

(** [dput(dentry)]: entries of this filesystem carry
    [simple_dentry_operations], whose [d_delete] always asks for deletion,
    so an entry whose count reaches zero is killed: its inode reference is
    put, the entry is freed, and the reference it held on its parent is put
    in turn. *)
Fixpoint dput_fuel (fuel : nat) (e : dptr) : K unit :=
  let* d := load_dentry e in
  if d_count d - 1 =? 0 then
    match fuel with
    | O => oops
    | S fuel' =>
        match d_inode d with
        | Some p => iput p
        | None => ret tt
        end ;;
        modify (fun s => with_dentries (delete e (k_dentries s)) s) ;;
        match d_parent d with
        | Some q => dput_fuel fuel' q
        | None => ret tt
        end
    end
  else update_dentry e (set_d_count (d_count d - 1)).

Definition dput (e : dptr) : K unit :=
  fun s => dput_fuel (S (size (k_dentries s))) e s.

Definition deref_d_inode (e : dptr) : K iptr :=
  let* d := load_dentry e in
  match d_inode d with
  | Some p => ret p
  | None => oops
  end.

Definition simple_unlink (dir : iptr) (dentry : dptr) : K Z :=
  let* inode := deref_d_inode dentry in
  let* now := current_time inode in
  update_inode dir (set_i_mtime now) ;;
  update_inode dir (set_i_ctime now) ;;
  update_inode inode (set_i_ctime now) ;;
  drop_nlink inode ;;
  dput dentry ;;
  ret 0.

Definition simple_rmdir (dir : iptr) (dentry : dptr) : K Z :=
  let* empty := simple_empty dentry in
  if empty : bool then
    let* inode := deref_d_inode dentry in
    drop_nlink inode ;;
    simple_unlink dir dentry ;;
    drop_nlink dir ;;
    ret 0
  else ret (- ENOTEMPTY).

(** ** Mount options *)

(** [printf]'s [%o]. *)
Definition octal_digit (d : Z) : ascii := ascii_of_nat (48 + Z.to_nat d).

Fixpoint fmt_o_aux (fuel : nat) (n : Z) (acc : string) : string :=
  match fuel with
  | O => acc
  | S fuel' =>
      let acc' := String (octal_digit (n mod 8)) acc in
      if n / 8 =? 0 then acc' else fmt_o_aux fuel' (n / 8) acc'
  end.

Definition fmt_o (n : Z) : string := fmt_o_aux 22 n "".

Definition seq_printf_mode (m : string) (v : Z) : string :=
  m +:+ ",mode=" +:+ fmt_o v.

(** Display the mount options in /proc/mounts. *)
Definition tagfs_show_options (m : string) (root : dptr) : K (Z * string) :=
  let* d := load_dentry root in
  let* sb := load_sb (d_sb d) in
  match s_fs_info sb with
  | None => oops
  | Some fsip =>
      let* fsi := load_fsi fsip in
      if mode (mount_opts fsi) =? TAGFS_DEFAULT_MODE
      then ret (0, m)
      else ret (0, seq_printf_mode m (mode (mount_opts fsi)))
  end.

Inductive fs_value :=
  | fs_value_is_flag
  | fs_value_is_string (s : string)
  | fs_value_is_blob
  | fs_value_is_filename
  | fs_value_is_file.

Record fs_parameter := { key : string; value : fs_value }.

Record fs_context := {
  fc_s_fs_info : option fsiptr;
  fc_source : option string;
  fc_root : option dptr;
  fc_ops : bool                     (* ops == &tagfs_context_ops *)
}.

Definition set_fc_s_fs_info (v : option fsiptr) (fc : fs_context) :=
  {| fc_s_fs_info := v; fc_source := fc_source fc; fc_root := fc_root fc;
     fc_ops := fc_ops fc |}.
Definition set_fc_source (v : option string) (fc : fs_context) :=
  {| fc_s_fs_info := fc_s_fs_info fc; fc_source := v; fc_root := fc_root fc;
     fc_ops := fc_ops fc |}.
Definition set_fc_root (v : option dptr) (fc : fs_context) :=
  {| fc_s_fs_info := fc_s_fs_info fc; fc_source := fc_source fc;
     fc_root := v; fc_ops := fc_ops fc |}.
Definition set_fc_ops (v : bool) (fc : fs_context) :=
  {| fc_s_fs_info := fc_s_fs_info fc; fc_source := fc_source fc;
     fc_root := fc_root fc; fc_ops := v |}.

(** [enum tagfs_param] *)
Definition Opt_mode : Z := 0.

(** One row of a parameter table: [ps_type] is the base handed to
    [fs_param_is_u32], or [None] for a flag. *)
Record fs_parameter_spec := {
  ps_name : string;
  ps_type : option Z;
  ps_opt : Z;
  ps_flags : Z
}.

Definition fs_param_neg_with_no : Z := 2.

Definition fsparam_u32oct (name : string) (opt : Z) : fs_parameter_spec :=
  {| ps_name := name; ps_type := Some 8; ps_opt := opt; ps_flags := 0 |}.

Definition tagfs_fs_parameters : list fs_parameter_spec :=
  [ fsparam_u32oct "mode" Opt_mode ].

Definition is_flag (p : fs_parameter_spec) : bool :=
  match ps_type p with None => true | Some _ => false end.

Definition want_flag (param : fs_parameter) : bool :=
  match value param with fs_value_is_flag => true | _ => false end.

(** [fs_lookup_key]: the row named like the key and of the wanted
    flavour; failing that, for a flag [noxxx], a negatable row [xxx];
    failing that, the last row named like the key. *)
Fixpoint lookup_named (desc : list fs_parameter_spec) (param : fs_parameter)
    (other : option fs_parameter_spec)
  : option fs_parameter_spec + option fs_parameter_spec :=
  match desc with
  | [] => inr other
  | p :: desc' =>
      if String.eqb (ps_name p) (key param) then
        if Bool.eqb (is_flag p) (want_flag param) then inl (Some p)
        else lookup_named desc' param (Some p)
      else lookup_named desc' param other
  end.

Definition lookup_negated (desc : list fs_parameter_spec) (name : string)
  : option fs_parameter_spec :=
  if String.prefix "no" name && (2 <? String.length name)%nat then
    let name2 := String.substring 2 (String.length name - 2) name in
    List.find (fun p => String.eqb (ps_name p) name2
                        && negb (Z.land (ps_flags p) fs_param_neg_with_no =? 0))
              desc
  else None.

Definition fs_lookup_key (desc : list fs_parameter_spec)
    (param : fs_parameter) : option fs_parameter_spec * bool :=
  match lookup_named desc param None with
  | inl p => (p, false)
  | inr other =>
      if want_flag param then
        match lookup_negated desc (key param) with
        | Some p => (Some p, true)
        | None => (other, false)
        end
      else (other, false)
  end.

(** [kstrtouint(s, base, &res)] for the bases this file uses. *)
Definition ERANGE : Z := 34.
Definition ULLONG_MAX : Z := 18446744073709551615.

Definition digit_val (c : ascii) : option Z :=
  let n := Z.of_nat (nat_of_ascii c) in
  if (48 <=? n) && (n <=? 57) then Some (n - 48)
  else
    let lc := Z.lor n 32 in
    if (97 <=? lc) && (lc <=? 102) then Some (lc - 97 + 10) else None.

Fixpoint _parse_integer (s : string) (base res : Z) (rv : nat)
  : Z * nat * string :=
  match s with
  | EmptyString => (res, rv, s)
  | String c s' =>
      match digit_val c with
      | Some v =>
          if v <? base then _parse_integer s' base (res * base + v) (S rv)
          else (res, rv, s)
      | None => (res, rv, s)
      end
  end.

Definition kstrtoull (s : string) (base : Z) : Z + Z :=
  let s := match s with String "+" s' => s' | _ => s end in
  let '(res, rv, rest) := _parse_integer s base 0 0 in
  if ULLONG_MAX <? res then inl (- ERANGE)
  else
    match rv with
    | O => inl (- EINVAL)
    | _ =>
        let rest := match rest with String "010" r => r | _ => rest end in
        match rest with
        | EmptyString => inr res
        | _ => inl (- EINVAL)
        end
    end.

Definition kstrtouint (s : string) (base : Z) : Z + Z :=
  match kstrtoull s base with
  | inl e => inl e
  | inr tmp => if tmp =? wrap32 tmp then inr tmp else inl (- ERANGE)
  end.

(** [fs_parse(fc, desc, param, &result)]: the option number and
    [result.uint_32], or a negative errno. *)
Definition fs_parse (desc : list fs_parameter_spec) (param : fs_parameter)
  : Z * Z :=
  match fs_lookup_key desc param with
  | (None, _) => (- ENOPARAM, 0)
  | (Some p, _) =>
      match ps_type p with
      | None =>
          match value param with
          | fs_value_is_flag => (ps_opt p, 0)
          | _ => (- EINVAL, 0)
          end
      | Some base =>
          match value param with
          | fs_value_is_string str =>
              match kstrtouint str base with
              | inr v => (ps_opt p, v)
              | inl _ => (- EINVAL, 0)          (* fs_param_bad_value *)
              end
          | _ => (- EINVAL, 0)
          end
      end
  end.

(** [vfs_parse_fs_param_source(fc, param)]. *)
Definition vfs_parse_fs_param_source (fc : fs_context) (param : fs_parameter)
  : Z * fs_context :=
  if negb (String.eqb (key param) "source") then (- ENOPARAM, fc)
  else
    match value param with
    | fs_value_is_string str =>
        match fc_source fc with
        | Some _ => (- EINVAL, fc)              (* Multiple sources *)
        | None => (0, set_fc_source (Some str) fc)
        end
    | _ => (- EINVAL, fc)                        (* Non-string source *)
    end.

Definition deref_fsi (p : option fsiptr) : K fsiptr :=
  match p with
  | Some q => load_fsi q ;; ret q
  | None => oops
  end.

Definition tagfs_parse_param (fc : fs_context) (param : fs_parameter)
  : K (Z * fs_context) :=
  let fsi := fc_s_fs_info fc in
  let '(opt, uint_32) := fs_parse tagfs_fs_parameters param in
  if opt =? - ENOPARAM then
    let '(opt, fc) := vfs_parse_fs_param_source fc param in
    if negb (opt =? - ENOPARAM) then ret (opt, fc)
    else
      (* We might like to report bad mount options here; but
         traditionally tagfs has ignored all mount options *)
      ret (0, fc)
  else if opt <? 0 then ret (opt, fc)
  else
    (if opt =? Opt_mode then
       let* q := deref_fsi fsi in
       update_fsi q (set_mount_opts {| mode := Z.land uint_32 S_IALLUGO |})
     else ret tt) ;;
    ret (0, fc).

(** ** Volume lifecycle *)

(** [kzalloc(sizeof(struct tagfs_fs_info), GFP_KERNEL)]. *)
Definition kzalloc_fsi : K (option fsiptr) :=
  let* ok := try_alloc in
  if ok : bool then
    let* p := gets (fun s => fresh (dom (k_fsi s))) in
    let zeroed := {| fsi_mutex := false; mount_opts := {| mode := 0 |};
                     bdevp := None; dax_devp := None |} in
    modify (fun s => with_fsi (<[p := zeroed]> (k_fsi s)) s) ;;
    ret (Some p)
  else ret None.

(** [kfree(p)]: nothing for NULL; freeing what is not allocated (a second
    free) is an [Oops]. *)
Definition kfree (p : option fsiptr) : K unit :=
  match p with
  | None => ret tt
  | Some q =>
      load_fsi q ;;
      modify (fun s => with_fsi (delete q (k_fsi s)) s) ;;
      emit (EvKfree q)
  end.

Definition mutex_init (q : fsiptr) : K unit :=
  update_fsi q (set_fsi_mutex true).

Definition mutex_destroy (q : fsiptr) : K unit :=
  update_fsi q (set_fsi_mutex false) ;;
  emit (EvMutexDestroy q).

Definition blkdev_put (bdev : nat) (holder_mode : Z) : K unit :=
  emit (EvBlkdevPut bdev holder_mode).

Definition fs_put_dax (dax : nat) (holder : fsiptr) : K unit :=
  emit (EvFsPutDax dax holder).

(** [d_make_root(root_inode)]. *)
Definition d_make_root (root_inode : option iptr) : K (option dptr) :=
  match root_inode with
  | None => ret None
  | Some p =>
      let* i := load_inode p in
      let* ok := try_alloc in                   (* d_alloc_anon *)
      if ok : bool then
        let* e := gets (fun s => fresh (dom (k_dentries s))) in
        let anon := {| d_name := "/"; d_parent := None; d_inode := None;
                       d_count := 1; d_sb := i_sb i |} in
        modify (fun s => with_dentries (<[e := anon]> (k_dentries s)) s) ;;
        d_instantiate e p ;;
        ret (Some e)
      else
        iput p ;;
        ret None
  end.

(** [tagfs_fill_super]; [TAGFS_MAGIC] comes from [tagfs.h]. *)
Definition tagfs_fill_super (TAGFS_MAGIC : Z) (sb : sbptr) (fc : fs_context)
  : K Z :=
  let* b := load_sb sb in
  let fsi := s_fs_info b in
  update_sb sb (set_s_maxbytes MAX_LFS_FILESIZE) ;;
  update_sb sb (set_s_blocksize PAGE_SIZE) ;;
  update_sb sb (set_s_blocksize_bits PAGE_SHIFT) ;;
  update_sb sb (set_s_magic TAGFS_MAGIC) ;;
  update_sb sb (set_s_op tagfs_ops) ;;
  update_sb sb (set_s_time_gran 1) ;;
  let* q := deref_fsi fsi in
  let* f := load_fsi q in
  let* inode := tagfs_get_inode sb None
                  (Z.lor S_IFDIR (mode (mount_opts f))) 0 in
  let* root := d_make_root inode in
  update_sb sb (set_s_root root) ;;
  match root with
  | None => ret (- ENOMEM)
  | Some _ => ret 0
  end.

Definition tagfs_free_fc (fc : fs_context) : K unit :=
  kfree (fc_s_fs_info fc).

Definition tagfs_init_fs_context (fc : fs_context) : K (Z * fs_context) :=
  let* fsi := kzalloc_fsi in
  match fsi with
  | None => ret (- ENOMEM, fc)
  | Some q =>
      mutex_init q ;;
      update_fsi q (set_mount_opts {| mode := TAGFS_DEFAULT_MODE |}) ;;
      ret (0, set_fc_ops true (set_fc_s_fs_info fsi fc))
  end.

(** [generic_shutdown_super(sb)]: if the super block has a root,
    [shrink_dcache_for_umount] clears [s_root] and kills every dentry of
    the super block, and [evict_inodes] every inode; without a root there
    is nothing to tear down. *)
Definition generic_shutdown_super (sb : sbptr) : K unit :=
  let* b := load_sb sb in
  match s_root b with
  | Some _ =>
      update_sb sb (set_s_root None) ;;
      modify (fun s =>
                with_dentries
                  (filter (fun kv => d_sb kv.2 ≠ sb) (k_dentries s))
                  (with_inodes
                     (filter (fun kv => i_sb kv.2 ≠ sb) (k_inodes s)) s))
  | None => ret tt
  end.

(** [free_anon_bdev(dev)]: the number goes back to [unnamed_dev_ida]
    (which only warns about a number that was not taken). *)
Definition free_anon_bdev : K unit :=
  modify (fun s => with_anon_devs (Z.max 0 (k_anon_devs s - 1)) s).

(** [kill_anon_super(sb)]. *)
Definition kill_anon_super (sb : sbptr) : K unit :=
  generic_shutdown_super sb ;;
  free_anon_bdev.

(** [kill_litter_super(sb)]: [d_genocide] drops the pins on the dentries
    (they are all killed right after), then [kill_anon_super]. *)
Definition kill_litter_super (sb : sbptr) : K unit :=
  kill_anon_super sb ;;
  emit (EvKillLitterSuper sb).

(** [tagfs_kill_sb]; [tagfs_blkdev_mode] comes from [tagfs_internal.h]. *)
Definition tagfs_kill_sb (tagfs_blkdev_mode : Z) (sb : sbptr) : K unit :=
  let* b := load_sb sb in
  let* q := deref_fsi (s_fs_info b) in
  mutex_destroy q ;;
  let* f := load_fsi q in
  match bdevp f with
  | Some bdev => blkdev_put bdev tagfs_blkdev_mode
  | None => ret tt
  end ;;
  let* f := load_fsi q in
  match dax_devp f with
  | Some dax => fs_put_dax dax q
  | None => ret tt
  end ;;
  let* b := load_sb sb in
  kfree (s_fs_info b) ;;
  kill_litter_super sb.

(** [get_anon_bdev(&dev)]: a number from [unnamed_dev_ida], which holds
    the minors 1 .. 2^MINORBITS - 1.  When they are all taken the answer
    is [-EMFILE] (the [-ENOSPC] of the ida, renamed); otherwise the ida
    may need memory, and fail with [-ENOMEM]. *)
Definition MINORBITS : Z := 20.
Definition EMFILE : Z := 24.

Definition get_anon_bdev : K Z :=
  let* used := gets k_anon_devs in
  if Z.shiftl 1 MINORBITS - 1 <=? used then ret (- EMFILE)
  else
    let* ok := try_alloc in
    if ok : bool then
      modify (with_anon_devs (used + 1)) ;;
      ret 0
    else ret (- ENOMEM).

(** [sget_fc(fc, NULL, set_anon_super_fc)]: a new super block takes over
    [fc->s_fs_info]; when the super block cannot be set up the context
    keeps it and the error of [set_anon_super_fc] is passed on. *)
Definition sget_fc (fc : fs_context) : K ((Z + sbptr) * fs_context) :=
  let* ok := try_alloc in                       (* alloc_super *)
  if ok : bool then
    let* err := get_anon_bdev in                (* set_anon_super_fc *)
    if err =? 0 then
      let* sb := gets (fun s => fresh (dom (k_sbs s))) in
      let b := {| s_fs_info := fc_s_fs_info fc; s_root := None;
                  s_maxbytes := 0; s_blocksize := 0; s_blocksize_bits := 0;
                  s_magic := 0; s_op := no_sops; s_time_gran := 0 |} in
      modify (fun s => with_sbs (<[sb := b]> (k_sbs s)) s) ;;
      ret (inr sb, set_fc_s_fs_info None fc)
    else ret (inl err, fc)
  else ret (inl (- ENOMEM), fc).

(** [deactivate_locked_super(sb)] on the last active reference:
    [fs->kill_sb(sb)], then the super block itself goes. *)
Definition deactivate_locked_super (kill_sb : sbptr -> K unit) (sb : sbptr)
  : K unit :=
  kill_sb sb ;;
  modify (fun s => with_sbs (delete sb (k_sbs s)) s).

(** [get_tree_nodev(fc, fill_super)]. *)
Definition get_tree_nodev (kill_sb : sbptr -> K unit)
    (fill_super : sbptr -> fs_context -> K Z) (fc : fs_context)
  : K (Z * fs_context) :=
  let* r := sget_fc fc in
  match r with
  | (inl err, fc) => ret (err, fc)
  | (inr sb, fc) =>
      let* err := fill_super sb fc in
      if err =? 0 then
        let* b := load_sb sb in
        match s_root b with
        | Some root => dget root
        | None => oops
        end ;;
        ret (0, set_fc_root (s_root b) fc)
      else
        deactivate_locked_super kill_sb sb ;;
        ret (err, fc)
  end.

Definition tagfs_get_tree (TAGFS_MAGIC tagfs_blkdev_mode : Z)
    (fc : fs_context) : K (Z * fs_context) :=
  get_tree_nodev (tagfs_kill_sb tagfs_blkdev_mode)
                 (tagfs_fill_super TAGFS_MAGIC) fc.

(** The life of one volume as the VFS drives it: a context is set up, the
    options are parsed, the tree is built, the context is dropped
    ([put_fs_context] calls [->free]), other parts of the filesystem may
    attach a block device and a DAX device to the mounted volume, and the
    volume is unmounted.  The result is the errno of the mount. *)
Fixpoint parse_params (fc : fs_context) (params : list fs_parameter)
  : K (Z * fs_context) :=
  match params with
  | [] => ret (0, fc)
  | param :: rest =>
      let* r := tagfs_parse_param fc param in
      if r.1 =? 0 then parse_params r.2 rest else ret r
  end.

Definition attach_devices (sb : sbptr) (bdev dax : option nat) : K unit :=
  let* b := load_sb sb in
  let* q := deref_fsi (s_fs_info b) in
  update_fsi q (set_bdevp bdev) ;;
  update_fsi q (set_dax_devp dax).

Definition root_sb (fc : fs_context) : K sbptr :=
  match fc_root fc with
  | Some root => let* d := load_dentry root in ret (d_sb d)
  | None => oops
  end.

Definition empty_fc : fs_context :=
  {| fc_s_fs_info := None; fc_source := None; fc_root := None;
     fc_ops := false |}.

Definition volume_lifetime (TAGFS_MAGIC tagfs_blkdev_mode : Z)
    (params : list fs_parameter) (bdev dax : option nat) : K Z :=
  let* r := tagfs_init_fs_context empty_fc in
  if r.1 =? 0 then
    let* r := parse_params r.2 params in
    if r.1 =? 0 then
      let* r := tagfs_get_tree TAGFS_MAGIC tagfs_blkdev_mode r.2 in
      tagfs_free_fc r.2 ;;
      if r.1 =? 0 then
        let* sb := root_sb r.2 in
        attach_devices sb bdev dax ;;
        deactivate_locked_super (tagfs_kill_sb tagfs_blkdev_mode) sb ;;
        ret 0
      else ret r.1
    else
      tagfs_free_fc r.2 ;;
      ret r.1
  else ret r.1.

(** Reading a trace. *)
Definition is_release (e : event) : bool :=
  match e with
  | EvBlkdevPut _ _ | EvFsPutDax _ _ => true
  | _ => false
  end.

Definition is_kfree (q : fsiptr) (e : event) : bool :=
  match e with
  | EvKfree p => bool_decide (p = q)
  | _ => false
  end.

Definition count_kfree (q : fsiptr) (evs : list event) : nat :=
  List.length (List.filter (is_kfree q) evs).

(** No release is issued once [q] has been freed. *)
Fixpoint releases_precede_free (q : fsiptr) (evs : list event) : bool :=
  match evs with
  | [] => true
  | e :: rest =>
      if is_kfree q e then forallb (fun e' => negb (is_release e')) rest
      else releases_precede_free q rest
  end.

(** ** Sample states *)

Definition sample_sb : super_block :=
  {| s_fs_info := Some 0%nat; s_root := Some 0%nat;
     s_maxbytes := MAX_LFS_FILESIZE; s_blocksize := PAGE_SIZE;
     s_blocksize_bits := PAGE_SHIFT; s_magic := 0; s_op := tagfs_ops;
     s_time_gran := 1 |}.

Definition sample_root_inode : inode :=
  set_i_fop simple_dir_operations
    (set_i_op tagfs_dir_inode_operations
       (set_i_nlink 2
          (set_i_mode (Z.lor S_IFDIR TAGFS_DEFAULT_MODE)
             (set_i_ino 1 (inode_init_always 0%nat))))).

Definition sample_fsi : tagfs_fs_info :=
  {| fsi_mutex := true; mount_opts := {| mode := TAGFS_DEFAULT_MODE |};
     bdevp := None; dax_devp := None |}.

(** A mounted volume with root [/] (dentry 0, inode 0) and one negative
    dentry [/x] (dentry 1) that a lookup has just produced; the next
    [allocs] allocations behave as listed. *)
Definition sample_state (allocs : list bool) : kstate :=
  {| k_inodes := {[ 0%nat := sample_root_inode ]};
     k_dentries :=
       {[ 0%nat := {| d_name := "/"; d_parent := None; d_inode := Some 0%nat;
                      d_count := 2; d_sb := 0%nat |};
          1%nat := {| d_name := "x"; d_parent := Some 0%nat; d_inode := None;
                      d_count := 1; d_sb := 0%nat |} ]};
     k_sbs := {[ 0%nat := sample_sb ]};
     k_fsi := {[ 0%nat := sample_fsi ]};
     k_last_ino := {| last_ino := {[ 0%nat := 1 ]};
                      shared_last_ino := LAST_INO_BATCH |};
     k_cpu := 0%nat;
     k_anon_devs := 1;
     k_time := {| tv_sec := 1700000000; tv_nsec := 0 |};
     k_fsuid := 1000; k_fsgid := 1000;
     k_alloc := allocs;
     k_trace := [] |}.

Definition empty_state (allocs : list bool) : kstate :=
  {| k_inodes := ∅; k_dentries := ∅; k_sbs := ∅; k_fsi := ∅;
     k_last_ino := {| last_ino := ∅; shared_last_ino := 0 |};
     k_cpu := 0%nat; k_anon_devs := 0;
     k_time := {| tv_sec := 1700000000; tv_nsec := 0 |};
     k_fsuid := 0; k_fsgid := 0; k_alloc := allocs; k_trace := [] |}.

(** The sample volume with a block device and a DAX device attached. *)
Definition attached_fsi : tagfs_fs_info :=
  set_dax_devp (Some 6%nat) (set_bdevp (Some 5%nat) sample_fsi).

Definition attached_state : kstate :=
  with_fsi (<[0%nat := attached_fsi]> (k_fsi (sample_state [])))
    (sample_state []).

(** The sample volume whose root has as many links as an [unsigned int]
    can count. *)
Definition crowded_dir_state (allocs : list bool) : kstate :=
  with_inodes (<[0%nat := set_i_nlink UINT_MAX sample_root_inode]>
                 (k_inodes (sample_state allocs)))
    (sample_state allocs).

(** The mode [inode_init_owner] stores for a new inode under [dir]. *)
Definition owner_mode (s : kstate) (dir : option iptr) (mode : Z) : Z :=
  match dir with
  | Some d =>
      match k_inodes s !! d with
      | Some di =>
          if Z.land (i_mode di) S_ISGID =? 0 then mode
          else if S_ISDIR mode then Z.lor mode S_ISGID else mode
      | None => mode
      end
  | None => mode
  end.


(** A context whose source has already been set. *)
Definition fc_with_source : fs_context :=
  {| fc_s_fs_info := Some 0%nat; fc_source := Some "none"; fc_root := None;
     fc_ops := true |}.

(** The root dentry of a super block. *)
Definition root_of (s : kstate) (sb : sbptr) : option dptr :=
  match k_sbs s !! sb with
  | Some b => s_root b
  | None => None
  end.

(** What [tagfs_fill_super] leaves behind: either a root dentry bound to a
    new directory inode, or nothing new at all. *)
Definition fill_super_ok (s : kstate) (sb : sbptr) (q : fsiptr)
    (f : tagfs_fs_info) (s' : kstate) : Prop :=
  exists b' e d i,
    k_sbs s' = <[sb := b']> (k_sbs s)
    /\ s_root b' = Some e /\ s_fs_info b' = Some q
    /\ k_dentries s' = <[e := d]> (k_dentries s)
    /\ d_inode d = Some (fresh (dom (k_inodes s))) /\ d_sb d = sb
    /\ k_inodes s' = <[fresh (dom (k_inodes s)) := i]> (k_inodes s)
    /\ i_mode i = Z.lor S_IFDIR (mode (mount_opts f))
    /\ i_nlink i = (if S_ISDIR (i_mode i) then 2 else 1)
    /\ k_fsi s' = k_fsi s /\ k_trace s' = k_trace s.

Definition fill_super_failed (s : kstate) (sb : sbptr) (q : fsiptr)
    (s' : kstate) : Prop :=
  exists b',
    k_sbs s' = <[sb := b']> (k_sbs s)
    /\ s_root b' = None /\ s_fs_info b' = Some q
    /\ k_inodes s' = k_inodes s /\ k_dentries s' = k_dentries s
    /\ k_fsi s' = k_fsi s /\ k_trace s' = k_trace s.

(** The events of one [tagfs_kill_sb], and the store it leaves. *)
Definition bdev_events (mode : Z) (f : tagfs_fs_info) : list event :=
  match bdevp f with Some b => [EvBlkdevPut b mode] | None => [] end.
Definition dax_events (q : fsiptr) (f : tagfs_fs_info) : list event :=
  match dax_devp f with Some d => [EvFsPutDax d q] | None => [] end.
Definition kill_sb_events (mode : Z) (sb : sbptr) (q : fsiptr)
    (f : tagfs_fs_info) : list event :=
  [EvMutexDestroy q] ++ bdev_events mode f ++ dax_events q f
  ++ [EvKfree q; EvKillLitterSuper sb].

Definition kill_sb_post (mode : Z) (sb : sbptr) (b : super_block)
    (q : fsiptr) (f : tagfs_fs_info) (s : kstate) : kstate :=
  with_trace (k_trace s ++ kill_sb_events mode sb q f)
    (with_anon_devs (Z.max 0 (k_anon_devs s - 1))
       (match s_root b with
        | Some _ =>
            with_dentries (filter (fun kv => d_sb kv.2 ≠ sb) (k_dentries s))
              (with_inodes (filter (fun kv => i_sb kv.2 ≠ sb) (k_inodes s))
                 (with_sbs (<[sb := set_s_root None b]> (k_sbs s))
                    (with_fsi (delete q (k_fsi s)) s)))
        | None => with_fsi (delete q (k_fsi s)) s
        end)).

(** How [tagfs_get_tree] can end: mounted, failed with the context still
    owning the record, or failed after the new super block was killed. *)
Definition get_tree_post (blkmode : Z) (s : kstate) (q : fsiptr)
    (f : tagfs_fs_info) (r : Z * fs_context) (s' : kstate) : Prop :=
  (r.1 = 0 /\ fc_s_fs_info r.2 = None
   /\ exists e d b,
        fc_root r.2 = Some e /\ k_dentries s' !! e = Some d
        /\ k_sbs s' !! d_sb d = Some b /\ s_fs_info b = Some q
        /\ k_fsi s' = k_fsi s /\ k_trace s' = k_trace s)
  \/ (r.1 <> 0 /\ fc_s_fs_info r.2 = Some q
      /\ k_fsi s' = k_fsi s /\ k_trace s' = k_trace s)
  \/ (r.1 <> 0 /\ fc_s_fs_info r.2 = None
      /\ k_fsi s' = delete q (k_fsi s)
      /\ exists sb, k_trace s' = k_trace s ++ kill_sb_events blkmode sb q f).

(** What a whole volume lifetime leaves in the trace. *)
Definition lifetime_post (blkmode : Z) (bdev dax : option nat) (s : kstate)
    (r : Z) (s' : kstate) : Prop :=
  let q := fresh (dom (k_fsi s)) in
  exists evs,
    k_trace s' = k_trace s ++ evs
    /\ k_fsi s' = k_fsi s
    /\ count_kfree q evs = (if hd false (k_alloc s) then 1 else 0)%nat
    /\ releases_precede_free q evs = true
    /\ (r = 0 ->
        (forall b, bdev = Some b -> In (EvBlkdevPut b blkmode) evs)
        /\ (forall d, dax = Some d -> In (EvFsPutDax d q) evs)).

(** The mode of a mount configuration is made of permission bits. *)
Definition permission_bits (f : tagfs_fs_info) : Prop :=
  Z.land (mode (mount_opts f)) S_IALLUGO = mode (mount_opts f).

(** The link count of a live inode. *)
Definition link_count (s : kstate) (p : iptr) : option Z :=
  i_nlink <$> k_inodes s !! p.

(** [wp m Q s]: from [s] the computation [m] returns (it does not [Oops])
    and its result and final state satisfy [Q]. *)
Definition wp {A} (m : K A) (Q : A -> kstate -> Prop) (s : kstate) : Prop :=
  match m s with
  | Ret a s' => Q a s'
  | Oops => False
  end.

(** ** Closed forms of the runs *)

(** Does the CPU of the caller start a new batch of inode numbers? *)
Definition ino_batch (s : kstate) : bool :=
  Z.land (default 0 (last_ino (k_last_ino s) !! k_cpu s)) (LAST_INO_BATCH - 1)
  =? 0.

(** The number [get_next_ino] hands out in [s], and the counters it
    leaves. *)
Definition next_ino (s : kstate) : Z :=
  let res :=
    if ino_batch s then
      wrap32 (wrap32 (shared_last_ino (k_last_ino s) + LAST_INO_BATCH)
              - LAST_INO_BATCH)
    else default 0 (last_ino (k_last_ino s) !! k_cpu s) in
  let res := wrap32 (res + 1) in
  if res =? 0 then 1 else res.

Definition next_counters (s : kstate) : ino_counters :=
  {| last_ino := <[k_cpu s := next_ino s]> (last_ino (k_last_ino s));
     shared_last_ino :=
       if ino_batch s
       then wrap32 (shared_last_ino (k_last_ino s) + LAST_INO_BATCH)
       else shared_last_ino (k_last_ino s) |}.

(** The group [inode_init_owner] gives a new inode under [dir]. *)
Definition owner_gid (s : kstate) (dir : option iptr) : Z :=
  match dir with
  | Some d =>
      match k_inodes s !! d with
      | Some di => if Z.land (i_mode di) S_ISGID =? 0 then k_fsgid s else i_gid di
      | None => k_fsgid s
      end
  | None => k_fsgid s
  end.

(** The inode a successful [tagfs_get_inode] leaves at the new pointer,
    in closed form; [wp_tagfs_get_inode_node] proves that this is what the
    code computes. *)
Definition new_node (s : kstate) (sb : sbptr) (dir : option iptr) (m dev : Z)
  : inode :=
  let fmt := Z.land m S_IFMT in
  {| i_ino := next_ino s;
     i_mode := owner_mode s dir m;
     i_uid := k_fsuid s;
     i_gid := owner_gid s dir;
     i_nlink := if fmt =? S_IFDIR then 2 else 1;
     i_rdev := if (fmt =? S_IFCHR) || (fmt =? S_IFBLK) then dev else 0;
     i_atime := k_time s; i_mtime := k_time s; i_ctime := k_time s;
     i_count := 1;
     i_sb := sb;
     i_op := if fmt =? S_IFREG then tagfs_file_inode_operations
             else if fmt =? S_IFDIR then tagfs_dir_inode_operations
             else if fmt =? S_IFLNK then page_symlink_inode_operations
             else empty_iops;
     i_fop := if fmt =? S_IFREG then tagfs_file_operations
              else if fmt =? S_IFDIR then simple_dir_operations
              else if fmt =? S_IFCHR then def_chr_fops
              else if fmt =? S_IFBLK then def_blk_fops
              else if fmt =? S_IFIFO then pipefifo_fops
              else no_open_fops;
     i_mapping := {| a_ops := ram_aops;
                     gfp_mask := if fmt =? S_IFLNK then GFP_USER
                                 else GFP_HIGHUSER;
                     as_unevictable := true;
                     page0 := None |} |}.

(** The store a successful [tagfs_mknod] leaves. *)
Definition mknod_post (s : kstate) (dir : iptr) (e : dptr) (di : inode)
    (de : dentry) (m dev : Z) : kstate :=
  let p := fresh (dom (k_inodes s)) in
  with_inodes
    (<[dir := set_i_mtime (k_time s) (set_i_ctime (k_time s) di)]>
       (<[p := new_node s (i_sb di) (Some dir) m dev]> (k_inodes s)))
    (with_dentries
       (<[e := set_d_count (d_count de + 1) (set_d_inode (Some p) de)]>
          (k_dentries s))
       (with_last_ino (next_counters s)
          (with_alloc (tl (k_alloc s)) s))).

(** The super block as [tagfs_fill_super] leaves it, with root [root]. *)
Definition sb_filled (magic : Z) (b : super_block) (root : option dptr)
  : super_block :=
  {| s_fs_info := s_fs_info b; s_root := root;
     s_maxbytes := MAX_LFS_FILESIZE; s_blocksize := PAGE_SIZE;
     s_blocksize_bits := PAGE_SHIFT; s_magic := magic; s_op := tagfs_ops;
     s_time_gran := 1 |}.

(** The store after a successful [tagfs_fill_super]. *)
Definition fill_super_post (magic : Z) (s : kstate) (sb : sbptr)
    (b : super_block) (f : tagfs_fs_info) : kstate :=
  let p := fresh (dom (k_inodes s)) in
  let e := fresh (dom (k_dentries s)) in
  with_sbs (<[sb := sb_filled magic b (Some e)]> (k_sbs s))
    (with_dentries
       (<[e := {| d_name := "/"; d_parent := None; d_inode := Some p;
                  d_count := 1; d_sb := sb |}]> (k_dentries s))
       (with_inodes
          (<[p := new_node s sb None (Z.lor S_IFDIR (mode (mount_opts f))) 0]>
             (k_inodes s))
          (with_last_ino (next_counters s)
             (with_alloc (tl (tl (k_alloc s))) s)))).

(** A context that owns record 0, before any super block exists. *)
Definition pending_mount_state (allocs : list bool) : kstate :=
  {| k_inodes := ∅; k_dentries := ∅; k_sbs := ∅;
     k_fsi := {[ 0%nat := sample_fsi ]};
     k_last_ino := {| last_ino := ∅; shared_last_ino := 0 |};
     k_cpu := 0%nat; k_anon_devs := 0;
     k_time := {| tv_sec := 1700000000; tv_nsec := 0 |};
     k_fsuid := 0; k_fsgid := 0; k_alloc := allocs; k_trace := [] |}.

(** The file whose entry is [/x] of the sample volume, and an open that
    succeeds. *)
Definition sample_file : file := {| f_path_dentry := 1%nat |}.

Definition open_succeeds (f : file) (e : dptr) : K Z := ret 0.

(** * Properties *)

(** ** Running the monad *)

Lemma wp_elim {A} (m : K A) Q s :
  wp m Q s -> exists a s', m s = Ret a s' /\ Q a s'.
Proof. unfold wp. destruct (m s); [eauto | tauto]. Qed.

Lemma wp_mono {A} (m : K A) (Q Q' : A -> kstate -> Prop) s :
  (forall a s', Q a s' -> Q' a s') -> wp m Q s -> wp m Q' s.
Proof. unfold wp. destruct (m s); auto. Qed.

Lemma wp_bind {A B} (m : K A) (f : A -> K B) Q s :
  wp m (fun a => wp (f a) Q) s -> wp (bind m f) Q s.
Proof. unfold wp, bind. destruct (m s); auto. Qed.

Lemma wp_ret {A} (a : A) (Q : A -> kstate -> Prop) s : Q a s -> wp (ret a) Q s.
Proof. auto. Qed.

Lemma wp_gets {A} (f : kstate -> A) (Q : A -> kstate -> Prop) s :
  Q (f s) s -> wp (gets f) Q s.
Proof. auto. Qed.

Lemma wp_modify f (Q : unit -> kstate -> Prop) s :
  Q tt (f s) -> wp (modify f) Q s.
Proof. auto. Qed.

Lemma wp_emit e (Q : unit -> kstate -> Prop) s :
  Q tt (with_trace (k_trace s ++ [e]) s) -> wp (emit e) Q s.
Proof. auto. Qed.

Lemma wp_try_alloc (Q : bool -> kstate -> Prop) s :
  Q (hd false (k_alloc s)) (with_alloc (tl (k_alloc s)) s) -> wp try_alloc Q s.
Proof. auto. Qed.

Lemma wp_load_inode p (Q : inode -> kstate -> Prop) s i :
  k_inodes s !! p = Some i -> Q i s -> wp (load_inode p) Q s.
Proof. unfold wp, load_inode. intros ->. auto. Qed.

Lemma wp_update_inode p f (Q : unit -> kstate -> Prop) s i :
  k_inodes s !! p = Some i ->
  Q tt (with_inodes (<[p := f i]> (k_inodes s)) s) ->
  wp (update_inode p f) Q s.
Proof. unfold wp, update_inode. intros ->. auto. Qed.

Lemma wp_load_dentry p (Q : dentry -> kstate -> Prop) s d :
  k_dentries s !! p = Some d -> Q d s -> wp (load_dentry p) Q s.
Proof. unfold wp, load_dentry. intros ->. auto. Qed.

Lemma wp_update_dentry p f (Q : unit -> kstate -> Prop) s d :
  k_dentries s !! p = Some d ->
  Q tt (with_dentries (<[p := f d]> (k_dentries s)) s) ->
  wp (update_dentry p f) Q s.
Proof. unfold wp, update_dentry. intros ->. auto. Qed.

Lemma wp_load_sb p (Q : super_block -> kstate -> Prop) s b :
  k_sbs s !! p = Some b -> Q b s -> wp (load_sb p) Q s.
Proof. unfold wp, load_sb. intros ->. auto. Qed.

Lemma wp_update_sb p f (Q : unit -> kstate -> Prop) s b :
  k_sbs s !! p = Some b ->
  Q tt (with_sbs (<[p := f b]> (k_sbs s)) s) ->
  wp (update_sb p f) Q s.
Proof. unfold wp, update_sb. intros ->. auto. Qed.

Lemma wp_load_fsi p (Q : tagfs_fs_info -> kstate -> Prop) s f :
  k_fsi s !! p = Some f -> Q f s -> wp (load_fsi p) Q s.
Proof. unfold wp, load_fsi. intros ->. auto. Qed.

Lemma wp_update_fsi p g (Q : unit -> kstate -> Prop) s f :
  k_fsi s !! p = Some f ->
  Q tt (with_fsi (<[p := g f]> (k_fsi s)) s) ->
  wp (update_fsi p g) Q s.
Proof. unfold wp, update_fsi. intros ->. auto. Qed.

Lemma fresh_inode_dead s : k_inodes s !! fresh (dom (k_inodes s)) = None.
Proof. apply not_elem_of_dom, is_fresh. Qed.

Lemma fresh_inode_ne s p i :
  k_inodes s !! p = Some i -> fresh (dom (k_inodes s)) ≠ p.
Proof. intros H E. rewrite <- E, fresh_inode_dead in H. discriminate. Qed.

Lemma with_inodes_twice a b s :
  with_inodes a (with_inodes b s) = with_inodes a s.
Proof. reflexivity. Qed.

Lemma with_dentries_twice a b s :
  with_dentries a (with_dentries b s) = with_dentries a s.
Proof. reflexivity. Qed.

Lemma with_sbs_twice a b s : with_sbs a (with_sbs b s) = with_sbs a s.
Proof. reflexivity. Qed.

Lemma with_fsi_twice a b s : with_fsi a (with_fsi b s) = with_fsi a s.
Proof. reflexivity. Qed.

(** Normalising a store after a step. *)
(** Two stores with the same components are the same store. *)
Lemma kstate_ext a b :
  k_inodes a = k_inodes b -> k_dentries a = k_dentries b ->
  k_sbs a = k_sbs b -> k_fsi a = k_fsi b -> k_last_ino a = k_last_ino b ->
  k_cpu a = k_cpu b -> k_anon_devs a = k_anon_devs b ->
  k_time a = k_time b -> k_fsuid a = k_fsuid b -> k_fsgid a = k_fsgid b ->
  k_alloc a = k_alloc b -> k_trace a = k_trace b -> a = b.
Proof. destruct a, b; cbn; intros; subst; reflexivity. Qed.

Lemma post_eq {A} (Q : A -> kstate -> Prop) a st st' :
  Q a st -> st = st' -> Q a st'.
Proof. intros H <-. exact H. Qed.

Ltac ksimpl :=
  repeat first
    [ rewrite lookup_insert_eq
    | rewrite insert_insert_eq
    | rewrite lookup_insert_ne by congruence
    | rewrite with_inodes_twice
    | rewrite with_dentries_twice
    | rewrite with_sbs_twice
    | rewrite with_fsi_twice
    | progress cbn [k_inodes k_dentries k_sbs k_fsi k_last_ino k_cpu
                    k_anon_devs with_cpu with_anon_devs k_time k_fsuid
                    k_fsgid k_alloc k_trace with_inodes with_dentries with_sbs
                    with_fsi with_last_ino with_alloc with_trace
                    i_ino i_mode i_uid i_gid i_nlink i_rdev i_atime i_mtime
                    i_ctime i_count i_sb i_op i_fop i_mapping
                    set_i_ino set_i_mode set_i_uid set_i_gid set_i_nlink
                    set_i_rdev set_i_atime set_i_mtime set_i_ctime set_i_count
                    set_i_op set_i_fop set_i_mapping
                    a_ops gfp_mask as_unevictable page0
                    set_a_ops set_gfp_mask set_as_unevictable set_page0
                    d_name d_parent d_inode d_count d_sb set_d_inode
                    set_d_count
                    fsi_mutex mount_opts bdevp dax_devp mode set_fsi_mutex
                    set_mount_opts set_bdevp set_dax_devp
                    s_fs_info s_root s_maxbytes s_blocksize s_blocksize_bits
                    s_magic s_op s_time_gran set_s_fs_info set_s_root
                    set_s_maxbytes set_s_blocksize set_s_blocksize_bits
                    set_s_magic set_s_op set_s_time_gran
                    fc_s_fs_info fc_source fc_root fc_ops set_fc_s_fs_info
                    set_fc_source set_fc_root set_fc_ops fst snd] ].

Ltac klookup := ksimpl; first [ reflexivity | eassumption ].

(** Two stores built by the same assignments in a different order. *)
Ltac kmap_eq :=
  apply map_eq; intros ?;
  repeat (rewrite lookup_insert; case_decide); subst;
  first [ reflexivity | congruence ].

Ltac kstate_eq :=
  unfold with_inodes, with_dentries, with_sbs, with_fsi, with_last_ino,
    with_cpu, with_anon_devs, with_alloc, with_trace;
  cbn [k_inodes k_dentries k_sbs k_fsi k_last_ino k_cpu k_anon_devs k_time
       k_fsuid k_fsgid k_alloc k_trace];
  f_equal; first [ reflexivity | kmap_eq ].

(** Conclude from [H : Q a st] when the goal is [Q a st'] for an equal
    store [st']. *)
Ltac kclose H :=
  lazymatch type of H with
  | _ _ ?st =>
      lazymatch goal with
      | |- _ _ ?st' => replace st' with st; [exact H | kstate_eq]
      end
  end.

(** One step of symbolic execution. *)
Ltac kstep :=
  lazymatch goal with
  | |- wp (bind _ _) _ _ => apply wp_bind
  | |- wp (ret _) _ _ => apply wp_ret
  | |- wp (gets _) _ _ => apply wp_gets
  | |- wp (modify _) _ _ => apply wp_modify
  | |- wp (emit _) _ _ => apply wp_emit
  | |- wp try_alloc _ _ => apply wp_try_alloc
  | |- wp (load_inode _) _ _ => eapply wp_load_inode; [klookup |]
  | |- wp (update_inode _ _) _ _ => eapply wp_update_inode; [klookup |]
  | |- wp (load_dentry _) _ _ => eapply wp_load_dentry; [klookup |]
  | |- wp (update_dentry _ _) _ _ => eapply wp_update_dentry; [klookup |]
  | |- wp (load_sb _) _ _ => eapply wp_load_sb; [klookup |]
  | |- wp (update_sb _ _) _ _ => eapply wp_update_sb; [klookup |]
  | |- wp (load_fsi _) _ _ => eapply wp_load_fsi; [klookup |]
  | |- wp (update_fsi _ _) _ _ => eapply wp_update_fsi; [klookup |]
  end; ksimpl.

Ltac ksteps := repeat kstep.

(** The same, splitting on the conditions met on the way. *)
Ltac kbranch :=
  lazymatch goal with
  | |- wp (if ?c then _ else _) _ _ => destruct c eqn:?
  | |- _ => kstep
  end; ksimpl.

(** The type bits of a mode are not touched by the set-group-id bit. *)
Lemma ifmt_lor_isgid m : Z.land (Z.lor m S_ISGID) S_IFMT = Z.land m S_IFMT.
Proof.
  rewrite Z.land_lor_distr_l.
  change (Z.land S_ISGID S_IFMT) with 0. apply Z.lor_0_r.
Qed.

Lemma owner_mode_ifmt s dir m :
  Z.land (owner_mode s dir m) S_IFMT = Z.land m S_IFMT.
Proof.
  unfold owner_mode. destruct dir as [d|]; [|reflexivity].
  destruct (k_inodes s !! d); [|reflexivity].
  destruct (_ =? 0); [reflexivity|].
  destruct (S_ISDIR m); [apply ifmt_lor_isgid | reflexivity].
Qed.

(** ** Node allocation *)

Lemma with_last_ino_twice a b s :
  with_last_ino a (with_last_ino b s) = with_last_ino a s.
Proof. destruct s; reflexivity. Qed.

(** [get_next_ino] in closed form. *)
Lemma wp_get_next_ino (Q : Z -> kstate -> Prop) s :
  Q (next_ino s) (with_last_ino (next_counters s) s) ->
  wp get_next_ino Q s.
Proof.
  intros HQ. unfold next_counters, next_ino, ino_batch in HQ.
  unfold get_next_ino. ksteps.
  destruct (Z.land _ _ =? 0); ksteps;
    rewrite ?with_last_ino_twice; exact HQ.
Qed.

(** A successful [tagfs_get_inode]: exactly one inode is added, at a
    pointer that was not live, and nothing else of the store changes but
    the inode-number counter and the allocation schedule. *)
Lemma wp_tagfs_get_inode s sb dir m dev Q :
  is_Some (k_sbs s !! sb) ->
  (forall d, dir = Some d -> is_Some (k_inodes s !! d)) ->
  hd false (k_alloc s) = true ->
  (forall i ino,
     i_nlink i = (if S_ISDIR m then 2 else 1) ->
     i_atime i = k_time s -> i_mtime i = k_time s -> i_ctime i = k_time s ->
     i_count i = 1 -> i_sb i = sb -> page0 (i_mapping i) = None ->
     i_mode i = owner_mode s dir m ->
     Q (Some (fresh (dom (k_inodes s))))
       (with_last_ino ino
          (with_inodes (<[fresh (dom (k_inodes s)) := i]> (k_inodes s))
             (with_alloc (tl (k_alloc s)) s)))) ->
  wp (tagfs_get_inode sb dir m dev) Q s.
Proof.
  intros [b Hb] Hdir Hal HQ.
  unfold tagfs_get_inode, new_inode. ksteps. rewrite Hal. ksteps.
  apply wp_get_next_ino. ksimpl.
  lazymatch goal with
  | |- wp _ _ (with_last_ino ?c _) => generalize c
  end.
  intros ino.
  unfold inode_init_owner, inode_nohighmem, mapping_set_gfp_mask,
    mapping_set_unevictable, current_time, inc_nlink, init_special_inode.
  assert (Hfin : forall I,
     i_nlink I = (if S_ISDIR m then 2 else 1) ->
     i_atime I = k_time s -> i_mtime I = k_time s -> i_ctime I = k_time s ->
     i_count I = 1 -> i_sb I = sb -> page0 (i_mapping I) = None ->
     i_mode I = owner_mode s dir m ->
     forall s1, s1 = with_last_ino ino
          (with_inodes (<[fresh (dom (k_inodes s)) := I]> (k_inodes s))
             (with_alloc (tl (k_alloc s)) s)) ->
     Q (Some (fresh (dom (k_inodes s)))) s1).
  { intros; subst; apply HQ; auto. }
  clear HQ. unfold owner_mode in Hfin.
  assert (Hdir' : forall d, dir = Some d ->
            exists di, k_inodes s !! d = Some di
                       /\ fresh (dom (k_inodes s)) ≠ d).
  { intros d E. destruct (Hdir d E) as [di Hdi]. exists di. split; [done|].
    eapply fresh_inode_ne; eauto. }
  destruct dir as [d|];
    [ destruct (Hdir' d eq_refl) as (di & Hdi & Hne); rewrite Hdi in Hfin | ].
  all: repeat kbranch.
  all: lazymatch goal with
       | |- _ _ (with_inodes (<[_ := ?I]> _) _) =>
           apply (Hfin I);
           [ .. | unfold with_inodes, with_last_ino, with_alloc; ksimpl;
                  reflexivity ];
           ksimpl; try reflexivity
       end.
  all: unfold S_ISDIR.
  all: repeat match goal with
         | H : (_ =? _) = _ |- _ => rewrite H
         | H : (Z.land _ S_IFMT =? _) = true |- _ =>
             apply Z.eqb_eq in H; rewrite H
         end.
  all: reflexivity.
Qed.

(** A failed one leaves the store as it was. *)
Lemma wp_tagfs_get_inode_fail s sb dir m dev Q :
  is_Some (k_sbs s !! sb) ->
  hd false (k_alloc s) = false ->
  Q None (with_alloc (tl (k_alloc s)) s) ->
  wp (tagfs_get_inode sb dir m dev) Q s.
Proof.
  intros [b Hb] Hal HQ.
  unfold tagfs_get_inode, new_inode. ksteps. rewrite Hal. ksteps. exact HQ.
Qed.

(** C2.  [tagfs_get_inode] returns a node exactly when the allocation
    succeeds, and that node is new.  If it is a directory its link count
    is 2, if it is a regular file or a symbolic link its link count is 1;
    and its access, modification and change times are all the current
    time. *)
Theorem tagfs_get_inode_link_count_and_times s sb dir m dev :
  is_Some (k_sbs s !! sb) ->
  (forall d, dir = Some d -> is_Some (k_inodes s !! d)) ->
  exists r s',
    tagfs_get_inode sb dir m dev s = Ret r s'
    /\ (is_Some r <-> hd false (k_alloc s) = true)
    /\ (forall p, r = Some p ->
        exists i,
          k_inodes s !! p = None /\ k_inodes s' !! p = Some i
          /\ Z.land (i_mode i) S_IFMT = Z.land m S_IFMT
          /\ (S_ISDIR (i_mode i) = true -> i_nlink i = 2)
          /\ (S_ISREG (i_mode i) = true \/ S_ISLNK (i_mode i) = true ->
              i_nlink i = 1)
          /\ i_atime i = k_time s /\ i_mtime i = k_time s
          /\ i_ctime i = k_time s).
Proof.
  intros Hsb Hdir.
  apply wp_elim with (Q := fun r s' =>
       (is_Some r <-> hd false (k_alloc s) = true)
    /\ (forall p, r = Some p ->
        exists i,
          k_inodes s !! p = None /\ k_inodes s' !! p = Some i
          /\ Z.land (i_mode i) S_IFMT = Z.land m S_IFMT
          /\ (S_ISDIR (i_mode i) = true -> i_nlink i = 2)
          /\ (S_ISREG (i_mode i) = true \/ S_ISLNK (i_mode i) = true ->
              i_nlink i = 1)
          /\ i_atime i = k_time s /\ i_mtime i = k_time s
          /\ i_ctime i = k_time s)).
  destruct (hd false (k_alloc s)) eqn:Hal.
  - apply wp_tagfs_get_inode; [assumption..|].
    intros i ino Hn Ha Hm Hc _ _ _ Hmode.
    split; [split; eauto|]. intros p [= <-]. exists i. ksimpl.
    assert (Hfmt : Z.land (i_mode i) S_IFMT = Z.land m S_IFMT)
      by (rewrite Hmode; apply owner_mode_ifmt).
    split; [apply fresh_inode_dead|]. split; [reflexivity|].
    split; [exact Hfmt|]. unfold S_ISDIR, S_ISREG, S_ISLNK in *.
    rewrite Hfmt. repeat split; auto.
    + intros E. rewrite E in Hn. exact Hn.
    + intros [E|E]; apply Z.eqb_eq in E; rewrite E in Hn; exact Hn.
  - apply wp_tagfs_get_inode_fail; [assumption..|].
    split; [split; [intros [? ?] |]; discriminate | discriminate].
Qed.

(** Allocating the inode of a new directory under the sample root. *)
Lemma tagfs_get_inode_link_count_and_times_witness :
  is_Some (k_sbs (sample_state [true]) !! 0%nat)
  /\ is_Some (k_inodes (sample_state [true]) !! 0%nat)
  /\ exists p s' i,
       tagfs_get_inode 0%nat (Some 0%nat) (Z.lor (oct 755) S_IFDIR) 0
         (sample_state [true]) = Ret (Some p) s'
       /\ k_inodes s' !! p = Some i
       /\ i_nlink i = 2
       /\ i_atime i = k_time (sample_state [true]).
Proof.
  assert (H1 : is_Some (k_sbs (sample_state [true]) !! 0%nat))
    by (vm_compute; eauto).
  assert (H2 : is_Some (k_inodes (sample_state [true]) !! 0%nat))
    by (vm_compute; eauto).
  split; [exact H1|]. split; [exact H2|].
  destruct (tagfs_get_inode_link_count_and_times (sample_state [true]) 0%nat
              (Some 0%nat) (Z.lor (oct 755) S_IFDIR) 0 H1)
    as (r & s' & Hrun & [_ Hsome] & Hnode).
  { intros d [= <-]. exact H2. }
  destruct (Hsome eq_refl) as [p ->].
  destruct (Hnode p eq_refl) as (i & _ & Hi & Hfmt & Hdir & _ & Ha & _).
  exists p, s', i. split; [exact Hrun|]. split; [exact Hi|].
  split; [|exact Ha]. apply Hdir. unfold S_ISDIR. rewrite Hfmt. reflexivity.
Defined.

(** ** Directory operations *)

(** The VFS calls a directory operation with a live parent inode [dir] on
    a live super block and with a live dentry that is not bound to an
    inode yet; a symbolic-link target is shorter than a page.  The
    statements below assume just that. *)

(** [tagfs_mknod] when the inode can be allocated, and when it cannot. *)
Lemma wp_tagfs_mknod s dir dentry m dev Q di de :
  k_inodes s !! dir = Some di ->
  is_Some (k_sbs s !! i_sb di) ->
  k_dentries s !! dentry = Some de ->
  d_inode de = None ->
  hd false (k_alloc s) = true ->
  (forall i ino,
     i_nlink i = (if S_ISDIR m then 2 else 1) ->
     i_count i = 1 -> i_sb i = i_sb di -> page0 (i_mapping i) = None ->
     i_mode i = owner_mode s (Some dir) m ->
     Q 0
       (with_inodes
          (<[dir := set_i_mtime (k_time s) (set_i_ctime (k_time s) di)]>
             (<[fresh (dom (k_inodes s)) := i]> (k_inodes s)))
          (with_dentries
             (<[dentry := set_d_count (d_count de + 1)
                            (set_d_inode (Some (fresh (dom (k_inodes s)))) de)]>
                (k_dentries s))
             (with_last_ino ino (with_alloc (tl (k_alloc s)) s))))) ->
  wp (tagfs_mknod dir dentry m dev) Q s.
Proof.
  intros Hdi Hsb Hde Hneg Hal HQ.
  pose proof (fresh_inode_ne _ _ _ Hdi) as Hne.
  unfold tagfs_mknod. ksteps.
  apply wp_tagfs_get_inode; [assumption | intros ? [= <-]; eauto | assumption |].
  intros i ino Hn _ _ _ Hc Hs Hp Hm.
  unfold d_instantiate, dget, current_time. ksteps. rewrite Hneg. ksteps.
  exact (HQ i ino Hn Hc Hs Hp Hm).
Qed.

Lemma wp_tagfs_mknod_fail s dir dentry m dev (Q : Z -> kstate -> Prop) di :
  k_inodes s !! dir = Some di ->
  is_Some (k_sbs s !! i_sb di) ->
  hd false (k_alloc s) = false ->
  Q (- ENOSPC) (with_alloc (tl (k_alloc s)) s) ->
  wp (tagfs_mknod dir dentry m dev) Q s.
Proof.
  intros Hdi Hsb Hal HQ.
  unfold tagfs_mknod. ksteps.
  apply wp_tagfs_get_inode_fail; [assumption..|]. ksteps. exact HQ.
Qed.

(** A directory entry without positive children is empty. *)
Lemma wp_simple_empty s e (Q : bool -> kstate -> Prop) :
  is_Some (k_dentries s !! e) ->
  (forall k c, k_dentries s !! k = Some c -> d_parent c = Some e -> d_inode c = None) ->
  Q true s ->
  wp (simple_empty e) Q s.
Proof.
  intros [d Hd] Hch HQ. unfold simple_empty. ksteps.
  match goal with |- Q ?b s => replace b with true; [exact HQ|] end.
  symmetry. apply forallb_forall. intros [k c] Hin. cbn.
  apply list_elem_of_In, elem_of_map_to_list in Hin.
  destruct (decide (d_parent c = Some e)) as [E|E].
  - rewrite (Hch _ _ Hin E). rewrite andb_comm. reflexivity.
  - rewrite bool_decide_eq_false_2 by exact E. reflexivity.
Qed.

(** Dropping a reference that is not the last one. *)
Lemma wp_dput_keep s e (Q : unit -> kstate -> Prop) d :
  k_dentries s !! e = Some d ->
  d_count d - 1 <> 0 ->
  Q tt (with_dentries (<[e := set_d_count (d_count d - 1) d]> (k_dentries s)) s) ->
  wp (dput e) Q s.
Proof.
  intros Hd Hc HQ. unfold wp, dput. cbn [dput_fuel].
  unfold bind, load_dentry, update_dentry. rewrite Hd.
  destruct (Z.eqb_spec (d_count d - 1) 0) as [E|E]; [contradiction|].
  rewrite Hd. exact HQ.
Qed.

(** [simple_rmdir] of an empty directory whose dentry the caller holds. *)
Lemma wp_simple_rmdir s dir dentry (Q : Z -> kstate -> Prop) di de p ip :
  k_inodes s !! dir = Some di ->
  k_dentries s !! dentry = Some de ->
  d_inode de = Some p ->
  k_inodes s !! p = Some ip ->
  p <> dir ->
  d_count de - 1 <> 0 ->
  (forall k c, k_dentries s !! k = Some c -> d_parent c = Some dentry -> d_inode c = None) ->
  Q 0
    (with_dentries (<[dentry := set_d_count (d_count de - 1) de]> (k_dentries s))
       (with_inodes
          (<[dir := set_i_nlink (wrap32 (i_nlink di - 1))
                      (set_i_ctime (k_time s) (set_i_mtime (k_time s) di))]>
             (<[p := set_i_nlink (wrap32 (wrap32 (i_nlink ip - 1) - 1))
                       (set_i_ctime (k_time s) ip)]> (k_inodes s)))
          s)) ->
  wp (simple_rmdir dir dentry) Q s.
Proof.
  intros Hdi Hde Hp Hip Hne Hcnt Hch HQ.
  unfold simple_rmdir. kstep.
  apply wp_simple_empty; [eauto | assumption |].
  unfold simple_unlink, deref_d_inode, drop_nlink, current_time.
  ksteps. rewrite Hp. ksteps. rewrite Hp. ksteps.
  eapply wp_dput_keep; [klookup | assumption |]. ksteps.
  kclose HQ.
Qed.

(** [tagfs_mkdir] when the inode can be allocated, and when it cannot. *)
Lemma wp_tagfs_mkdir s dir dentry m Q di de :
  k_inodes s !! dir = Some di ->
  is_Some (k_sbs s !! i_sb di) ->
  k_dentries s !! dentry = Some de ->
  d_inode de = None ->
  hd false (k_alloc s) = true ->
  (forall i ino,
     Q 0
       (with_inodes
          (<[dir := set_i_nlink (wrap32 (i_nlink di + 1))
                      (set_i_mtime (k_time s) (set_i_ctime (k_time s) di))]>
             (<[fresh (dom (k_inodes s)) := i]> (k_inodes s)))
          (with_dentries
             (<[dentry := set_d_count (d_count de + 1)
                            (set_d_inode (Some (fresh (dom (k_inodes s)))) de)]>
                (k_dentries s))
             (with_last_ino ino (with_alloc (tl (k_alloc s)) s))))) ->
  wp (tagfs_mkdir dir dentry m) Q s.
Proof.
  intros Hdi Hsb Hde Hneg Hal HQ.
  pose proof (fresh_inode_ne _ _ _ Hdi) as Hne.
  unfold tagfs_mkdir. kstep.
  eapply wp_tagfs_mknod; eauto.
  intros i ino _ _ _ _ _. change (0 =? 0) with true. cbv iota.
  unfold inc_nlink. ksteps.
  exact (HQ i ino).
Qed.

Lemma wp_tagfs_mkdir_fail s dir dentry m (Q : Z -> kstate -> Prop) di :
  k_inodes s !! dir = Some di ->
  is_Some (k_sbs s !! i_sb di) ->
  hd false (k_alloc s) = false ->
  Q (- ENOSPC) (with_alloc (tl (k_alloc s)) s) ->
  wp (tagfs_mkdir dir dentry m) Q s.
Proof.
  intros Hdi Hsb Hal HQ. unfold tagfs_mkdir. kstep.
  eapply wp_tagfs_mknod_fail; eauto.
Qed.

Lemma wp_elim_val {A} (m : K A) (P : kstate -> Prop) s (v : A) :
  wp m (fun r s' => r = v /\ P s') s -> exists s', m s = Ret v s' /\ P s'.
Proof. intros W. apply wp_elim in W as (a & s' & E & -> & HP). eauto. Qed.

Lemma wrap32_small z : 0 <= z <= UINT_MAX -> wrap32 z = z.
Proof. unfold wrap32, UINT_MAX. intros H. apply Z.mod_small. lia. Qed.

Lemma wrap32_succ_pred z :
  0 <= z <= UINT_MAX -> wrap32 (wrap32 (z + 1) - 1) = z.
Proof.
  unfold wrap32, UINT_MAX. intros H.
  rewrite Zminus_mod_idemp_l. replace (z + 1 - 1) with z by lia.
  apply Z.mod_small. lia.
Qed.

(** C3 as stated fails where the count cannot grow: a parent whose link
    count is [UINT_MAX] ends a successful [mkdir] with link count 0, not
    [UINT_MAX + 1].  ([tagfs_fill_super] sets no [s_max_links], so nothing
    stops [mkdir] there.) *)
Lemma tagfs_mkdir_link_count_wraps :
  link_count (crowded_dir_state [true]) 0%nat = Some UINT_MAX
  /\ exists s1,
       tagfs_mkdir 0%nat 1%nat (oct 755) (crowded_dir_state [true]) = Ret 0 s1
       /\ link_count s1 0%nat = Some 0
       /\ link_count s1 0%nat <> Some (UINT_MAX + 1).
Proof.
  split; [vm_compute; reflexivity|].
  eexists. split; [vm_compute; reflexivity|].
  split; [vm_compute; reflexivity | vm_compute; discriminate].
Qed.

(** C3, amended.  [tagfs_mkdir] succeeds exactly when the inode can be
    allocated.  If it succeeds the parent's link count has been incremented
    as an [unsigned int]: by exactly 1 whenever it was below [UINT_MAX]
    (and to 0 from [UINT_MAX]).  If it fails, with [-ENOSPC], no inode has
    changed, so the parent's link count is what it was.  And after a
    successful [mkdir], an immediate [rmdir] of the same entry succeeds and
    puts the parent's link count back to its value before the [mkdir]. *)
Theorem tagfs_mkdir_parent_link_count s dir dentry m di de :
  k_inodes s !! dir = Some di ->
  is_Some (k_sbs s !! i_sb di) ->
  k_dentries s !! dentry = Some de ->
  d_inode de = None ->
  exists r s1,
    tagfs_mkdir dir dentry m s = Ret r s1
    /\ (r = 0 <-> hd false (k_alloc s) = true)
    /\ (r = 0 ->
        link_count s1 dir = Some (wrap32 (i_nlink di + 1))
        /\ (0 <= i_nlink di < UINT_MAX ->
            link_count s1 dir = Some (i_nlink di + 1))
        /\ (0 <= i_nlink di <= UINT_MAX ->
            d_count de <> 0 ->
            (forall k c, k_dentries s !! k = Some c ->
                         d_parent c <> Some dentry) ->
            exists s2, simple_rmdir dir dentry s1 = Ret 0 s2
                       /\ link_count s2 dir = Some (i_nlink di)))
    /\ (r <> 0 -> r = - ENOSPC /\ k_inodes s1 = k_inodes s
                  /\ link_count s1 dir = Some (i_nlink di)).
Proof.
  intros Hdi Hsb Hde Hneg.
  pose proof (fresh_inode_ne _ _ _ Hdi) as Hne.
  apply wp_elim with (Q := fun r s1 =>
     (r = 0 <-> hd false (k_alloc s) = true)
    /\ (r = 0 ->
        link_count s1 dir = Some (wrap32 (i_nlink di + 1))
        /\ (0 <= i_nlink di < UINT_MAX ->
            link_count s1 dir = Some (i_nlink di + 1))
        /\ (0 <= i_nlink di <= UINT_MAX ->
            d_count de <> 0 ->
            (forall k c, k_dentries s !! k = Some c ->
                         d_parent c <> Some dentry) ->
            exists s2, simple_rmdir dir dentry s1 = Ret 0 s2
                       /\ link_count s2 dir = Some (i_nlink di)))
    /\ (r <> 0 -> r = - ENOSPC /\ k_inodes s1 = k_inodes s
                  /\ link_count s1 dir = Some (i_nlink di))).
  destruct (hd false (k_alloc s)) eqn:Hal.
  - eapply wp_tagfs_mkdir; eauto. intros i ino.
    split; [tauto|]. split; [|intros []; reflexivity]. intros _.
    unfold link_count. ksimpl. cbn. split; [reflexivity|]. split.
    + intros Hr. rewrite wrap32_small by lia. reflexivity.
    + intros Hr Hc Hch.
      apply wp_elim_val.
      eapply wp_simple_rmdir.
      * klookup.
      * klookup.
      * ksimpl. reflexivity.
      * klookup.
      * exact Hne.
      * ksimpl. lia.
      * ksimpl. intros k c Hk Hpar. exfalso.
        rewrite lookup_insert in Hk. case_decide.
        -- injection Hk as <-. ksimpl. cbn in Hpar. exact (Hch _ _ Hde Hpar).
        -- exact (Hch _ _ Hk Hpar).
      * ksimpl. split; [reflexivity|]. cbn. f_equal. apply wrap32_succ_pred, Hr.
  - eapply wp_tagfs_mkdir_fail; eauto.
    split; [split; [discriminate | intros H; discriminate]|].
    split; [discriminate|]. intros _.
    unfold link_count. ksimpl. rewrite Hdi. auto.
Qed.

(** [mkdir /x] then [rmdir /x] on the sample volume. *)
Lemma tagfs_mkdir_parent_link_count_witness :
  k_inodes (sample_state [true]) !! 0%nat = Some sample_root_inode
  /\ is_Some (k_sbs (sample_state [true]) !! i_sb sample_root_inode)
  /\ exists de,
       k_dentries (sample_state [true]) !! 1%nat = Some de
       /\ d_inode de = None
       /\ exists r s1,
            tagfs_mkdir 0%nat 1%nat (oct 755) (sample_state [true]) = Ret r s1
            /\ r = 0
            /\ link_count s1 0%nat = Some 3
            /\ exists s2, simple_rmdir 0%nat 1%nat s1 = Ret 0 s2
                          /\ link_count s2 0%nat = Some 2.
Proof.
  assert (H1 : k_inodes (sample_state [true]) !! 0%nat = Some sample_root_inode)
    by (vm_compute; reflexivity).
  assert (H2 : is_Some (k_sbs (sample_state [true]) !! i_sb sample_root_inode))
    by (vm_compute; eauto).
  split; [exact H1|]. split; [exact H2|].
  eexists. split; [vm_compute; reflexivity|]. split; [reflexivity|].
  destruct (tagfs_mkdir_parent_link_count (sample_state [true]) 0%nat 1%nat
              (oct 755) sample_root_inode _ H1 H2 eq_refl eq_refl)
    as (r & s1 & Hrun & Hiff & Hok & _).
  assert (Hr : r = 0) by (apply Hiff; reflexivity).
  destruct (Hok Hr) as (_ & Hinc & Hrm).
  exists r, s1. split; [exact Hrun|]. split; [exact Hr|].
  split.
  - apply Hinc. vm_compute. split; [discriminate | reflexivity].
  - apply Hrm.
    + vm_compute. split; discriminate.
    + discriminate.
    + assert (HF : map_Forall (fun _ c => d_parent c <> Some 1%nat)
                     (k_dentries (sample_state [true])))
        by (refine (proj1 (bool_decide_spec _) _); vm_compute; exact I).
      exact HF.
Defined.

Lemma substring_all (x : string) : String.substring 0 (String.length x) x = x.
Proof. induction x as [|c x IH]; cbn; [reflexivity | rewrite IH; reflexivity]. Qed.

Lemma strlen_nonneg (x : string) : 0 <= strlen x.
Proof. unfold strlen. lia. Qed.

Lemma to_int_strlen (x : string) :
  strlen x < PAGE_SIZE -> to_int (strlen x + 1) = strlen x + 1.
Proof.
  intros H. pose proof (strlen_nonneg x). unfold to_int.
  change PAGE_SIZE with 4096 in H.
  rewrite Z.mod_small by lia. lia.
Qed.

Lemma symlink_fits_page (x : string) :
  strlen x < PAGE_SIZE ->
  (strlen x + 1 - 1 <? 0) || (PAGE_SIZE <? strlen x + 1 - 1) = false.
Proof.
  intros H. pose proof (strlen_nonneg x).
  apply orb_false_iff. split; apply Z.ltb_ge; lia.
Qed.

Lemma strlen_bytes (x : string) :
  Z.to_nat (strlen x + 1 - 1) = String.length x.
Proof. unfold strlen. lia. Qed.

(** C1.  A [symlink] whose inode has been allocated either stores the
    target and then binds the entry to the new inode, returning 0; or, when
    the store fails, puts the inode again before returning the error of
    the store: the inodes and the dentries are then exactly those from
    before the call, and the pointer of the allocated inode is not live. *)
Theorem tagfs_symlink_releases_node_on_failure s dir dentry symname di de :
  k_inodes s !! dir = Some di ->
  is_Some (k_sbs s !! i_sb di) ->
  k_dentries s !! dentry = Some de ->
  d_inode de = None ->
  strlen symname < PAGE_SIZE ->
  hd false (k_alloc s) = true ->
  let p := fresh (dom (k_inodes s)) in
  exists r s',
    tagfs_symlink dir dentry symname s = Ret r s'
    /\ (r = 0 <-> hd false (tl (k_alloc s)) = true)
    /\ (r <> 0 ->
        r = - ENOMEM /\ k_inodes s' = k_inodes s /\ k_inodes s' !! p = None
        /\ k_dentries s' = k_dentries s)
    /\ (r = 0 ->
        exists i d',
          k_inodes s' !! p = Some i /\ S_ISLNK (i_mode i) = true
          /\ page0 (i_mapping i) = Some symname
          /\ k_dentries s' !! dentry = Some d' /\ d_inode d' = Some p).
Proof.
  intros Hdi Hsb Hde Hneg Hlen Hal p.
  pose proof (fresh_inode_ne _ _ _ Hdi) as Hne. fold p in Hne.
  apply wp_elim with (Q := fun r s' =>
       (r = 0 <-> hd false (tl (k_alloc s)) = true)
    /\ (r <> 0 ->
        r = - ENOMEM /\ k_inodes s' = k_inodes s /\ k_inodes s' !! p = None
        /\ k_dentries s' = k_dentries s)
    /\ (r = 0 ->
        exists i d',
          k_inodes s' !! p = Some i /\ S_ISLNK (i_mode i) = true
          /\ page0 (i_mapping i) = Some symname
          /\ k_dentries s' !! dentry = Some d' /\ d_inode d' = Some p)).
  unfold tagfs_symlink. ksteps.
  apply wp_tagfs_get_inode; [assumption | intros ? [= <-]; eauto | assumption |].
  intros i ino Hn _ _ _ Hc Hs Hp Hm. fold p.
  rewrite (to_int_strlen _ Hlen).
  unfold page_symlink. ksteps. rewrite (symlink_fits_page _ Hlen). ksteps.
  destruct (hd false (tl (k_alloc s))) eqn:Hal2.
  - ksteps. change (0 =? 0) with true. cbv iota.
    unfold d_instantiate, dget, current_time. ksteps. rewrite Hneg. ksteps.
    split; [tauto|]. split; [intros []; reflexivity|]. intros _.
    eexists _, _. split; [reflexivity|]. ksimpl.
    split; [|split; [|split; reflexivity]].
    + unfold S_ISLNK. rewrite Hm, owner_mode_ifmt. reflexivity.
    + rewrite strlen_bytes, substring_all. reflexivity.
  - ksteps. change (- ENOMEM =? 0) with false. cbv iota.
    unfold iput. ksteps. rewrite Hc. change (1 - 1 =? 0) with true. cbv iota.
    ksteps. split; [split; discriminate|]. split; [|discriminate]. intros _.
    rewrite delete_insert_eq. pose proof (fresh_inode_dead s) as Hd. fold p in Hd.
    rewrite delete_id by exact Hd. auto.
Qed.
(** [symlink /x -> target] on the sample volume, with the store failing. *)
Lemma tagfs_symlink_releases_node_on_failure_witness :
  k_inodes (sample_state [true; false]) !! 0%nat = Some sample_root_inode
  /\ is_Some (k_sbs (sample_state [true; false]) !! i_sb sample_root_inode)
  /\ strlen "target" < PAGE_SIZE
  /\ hd false (k_alloc (sample_state [true; false])) = true
  /\ exists r s',
       tagfs_symlink 0%nat 1%nat "target" (sample_state [true; false])
       = Ret r s'
       /\ r = - ENOMEM
       /\ k_inodes s' = k_inodes (sample_state [true; false]).
Proof.
  assert (H1 : k_inodes (sample_state [true; false]) !! 0%nat
               = Some sample_root_inode) by (vm_compute; reflexivity).
  assert (H2 : is_Some (k_sbs (sample_state [true; false])
                          !! i_sb sample_root_inode)) by (vm_compute; eauto).
  assert (H3 : strlen "target" < PAGE_SIZE) by (vm_compute; reflexivity).
  assert (H4 : hd false (k_alloc (sample_state [true; false])) = true)
    by reflexivity.
  repeat (split; [assumption|]).
  destruct (tagfs_symlink_releases_node_on_failure (sample_state [true; false])
              0%nat 1%nat "target" sample_root_inode _ H1 H2 eq_refl eq_refl
              H3 H4)
    as (r & s' & Hrun & Hiff & Hfail & _).
  assert (Hr : r <> 0) by (intros E; apply Hiff in E; discriminate E).
  destruct (Hfail Hr) as (Herr & Hin & _).
  exists r, s'. auto.
Defined.




(** C10.  The exclusive-creation flag plays no part in [tagfs_create]:
    with it or without it, the same call returns the same result and
    leaves the same store. *)
Theorem tagfs_create_ignores_excl s dir dentry m excl excl' :
  tagfs_create dir dentry m excl s = tagfs_create dir dentry m excl' s.
Proof. reflexivity. Qed.

(** ** Mount options *)

(** The table of tagfs knows the key [mode] and no other. *)
Lemma fs_parse_unknown_key param :
  key param <> "mode" ->
  fs_parse tagfs_fs_parameters param = (- ENOPARAM, 0).
Proof.
  intros Hk. unfold fs_parse, fs_lookup_key, tagfs_fs_parameters.
  cbn [lookup_named fsparam_u32oct ps_name].
  assert (E : String.eqb "mode" (key param) = false).
  { apply String.eqb_neq. congruence. }
  rewrite E.
  assert (N : lookup_negated [fsparam_u32oct "mode" Opt_mode] (key param) = None).
  { unfold lookup_negated.
    destruct (_ && _); [|reflexivity].
    cbn. rewrite andb_false_r. reflexivity. }
  rewrite N. destruct (want_flag param); reflexivity.
Qed.

Lemma fs_parse_mode str v :
  kstrtouint str 8 = inr v ->
  fs_parse tagfs_fs_parameters {| key := "mode"; value := fs_value_is_string str |}
  = (Opt_mode, v).
Proof. intros H. cbn. rewrite H. reflexivity. Qed.

Lemma wp_run {A} (m : K A) s (v : A) st :
  wp m (fun a s' => a = v /\ s' = st) s -> m s = Ret v st.
Proof. unfold wp. destruct (m s); [intros [-> ->]; reflexivity | tauto]. Qed.

(** C7.  For a [mode] option whose value reads as the octal number [v],
    parsing succeeds and stores [v & S_IALLUGO] as the mode of the record;
    the other fields of the record, the rest of the store and the context
    are unchanged. *)
Theorem tagfs_parse_param_mode_masked s fc str v q f :
  fc_s_fs_info fc = Some q ->
  k_fsi s !! q = Some f ->
  kstrtouint str 8 = inr v ->
  tagfs_parse_param fc {| key := "mode"; value := fs_value_is_string str |} s
  = Ret (0, fc)
        (with_fsi
           (<[q := {| fsi_mutex := fsi_mutex f;
                      mount_opts := {| mode := Z.land v S_IALLUGO |};
                      bdevp := bdevp f; dax_devp := dax_devp f |}]> (k_fsi s))
           s).
Proof.
  intros Hq Hf Hv. unfold tagfs_parse_param.
  rewrite (fs_parse_mode _ _ Hv).
  change (Opt_mode =? - ENOPARAM) with false. cbv iota.
  change (Opt_mode <? 0) with false. change (Opt_mode =? Opt_mode) with true. cbv iota.
  rewrite Hq. apply wp_run. unfold deref_fsi. ksteps. split; reflexivity.
Qed.

(** [mode=17750] on the sample volume stores [7750]. *)
Lemma tagfs_parse_param_mode_masked_witness :
  fc_s_fs_info fc_with_source = Some 0%nat
  /\ k_fsi (sample_state []) !! 0%nat = Some sample_fsi
  /\ kstrtouint "17750" 8 = inr (oct 17750)
  /\ exists s',
       tagfs_parse_param fc_with_source
         {| key := "mode"; value := fs_value_is_string "17750" |}
         (sample_state [])
       = Ret (0, fc_with_source) s'
       /\ (mode <$> (mount_opts <$> k_fsi s' !! 0%nat)) = Some (oct 7750).
Proof.
  assert (H1 : fc_s_fs_info fc_with_source = Some 0%nat) by reflexivity.
  assert (H2 : k_fsi (sample_state []) !! 0%nat = Some sample_fsi)
    by (vm_compute; reflexivity).
  assert (H3 : kstrtouint "17750" 8 = inr (oct 17750))
    by (vm_compute; reflexivity).
  repeat (split; [assumption|]).
  eexists. split.
  - exact (tagfs_parse_param_mode_masked (sample_state []) fc_with_source
             "17750" (oct 17750) 0%nat sample_fsi H1 H2 H3).
  - vm_compute. reflexivity.
Defined.

(** C6 as stated fails for the key [source]: the option table of tagfs
    does not know it, yet a second [source] is rejected with [-EINVAL] by
    the generic source handler the function falls back to. *)
Lemma tagfs_parse_param_second_source_rejected :
  key {| key := "source"; value := fs_value_is_string "tagfs" |} <> "mode"
  /\ tagfs_parse_param fc_with_source
       {| key := "source"; value := fs_value_is_string "tagfs" |}
       (sample_state [])
     = Ret (- EINVAL, fc_with_source) (sample_state []).
Proof. split; [discriminate | reflexivity]. Qed.

(** C6, amended.  For every key other than [mode], parsing leaves the
    store, and so the mount configuration record, unchanged.  Every such
    key other than [source] is accepted and ignored: the result is 0 and
    the context is unchanged.  The key [source] is handed to the generic
    source handler: a first, string-valued source is recorded in the
    context and the result is 0; a source that is not a string, or that
    comes when one is already recorded, is rejected with [-EINVAL] and
    the context is unchanged. *)
Theorem tagfs_parse_param_other_keys s fc param :
  key param <> "mode" ->
  exists r fc',
    tagfs_parse_param fc param s = Ret (r, fc') s
    /\ (key param <> "source" -> r = 0 /\ fc' = fc)
    /\ (key param = "source" ->
        (r, fc') = vfs_parse_fs_param_source fc param
        /\ (r = 0 \/ r = - EINVAL)
        /\ fc_s_fs_info fc' = fc_s_fs_info fc
        /\ (forall str,
              value param = fs_value_is_string str -> fc_source fc = None ->
              r = 0 /\ fc' = set_fc_source (Some str) fc)
        /\ ((forall str, value param <> fs_value_is_string str)
            \/ fc_source fc <> None ->
            r = - EINVAL /\ fc' = fc)).
Proof.
  intros Hk. unfold tagfs_parse_param.
  rewrite (fs_parse_unknown_key _ Hk).
  change (- ENOPARAM =? - ENOPARAM) with true. cbv iota.
  unfold vfs_parse_fs_param_source.
  destruct (String.eqb_spec (key param) "source") as [E|E]; cbn [negb].
  - destruct (value param) as [|str| | |] eqn:Hv;
      [| destruct (fc_source fc) as [old|] eqn:Hsrc|..];
      cbn; eexists _, _; (split; [reflexivity|]); (split; [congruence|]);
      intros _; (split; [reflexivity|]); (split; [auto|]);
      (split; [reflexivity|]);
      (split; [intros str' Hs Hn; try discriminate; try congruence|]);
      try (intros _; split; reflexivity).
    + injection Hs as <-. split; reflexivity.
    + intros [Hns | Hsome]; [destruct (Hns str eq_refl) | congruence].
  - cbn. eexists _, _. split; [reflexivity|]. split; [auto | congruence].
Qed.

(** An option tagfs has never heard of is accepted and ignored; a first
    [source] is recorded. *)
Lemma tagfs_parse_param_other_keys_witness :
  (key {| key := "size"; value := fs_value_is_string "1G" |} <> "mode"
   /\ tagfs_parse_param empty_fc
        {| key := "size"; value := fs_value_is_string "1G" |} (sample_state [])
      = Ret (0, empty_fc) (sample_state []))
  /\ (key {| key := "source"; value := fs_value_is_string "none" |} <> "mode"
      /\ tagfs_parse_param empty_fc
           {| key := "source"; value := fs_value_is_string "none" |}
           (sample_state [])
         = Ret (0, set_fc_source (Some "none") empty_fc) (sample_state [])).
Proof.
  assert (H1 : key {| key := "size"; value := fs_value_is_string "1G" |}
               <> "mode") by discriminate.
  assert (H2 : key {| key := "source"; value := fs_value_is_string "none" |}
               <> "mode") by discriminate.
  split; (split; [assumption|]).
  - destruct (tagfs_parse_param_other_keys (sample_state []) empty_fc
                {| key := "size"; value := fs_value_is_string "1G" |} H1)
      as (r & fc' & Hrun & Hother & _).
    destruct Hother as [-> ->]; [discriminate|]. exact Hrun.
  - destruct (tagfs_parse_param_other_keys (sample_state []) empty_fc
                {| key := "source"; value := fs_value_is_string "none" |} H2)
      as (r & fc' & Hrun & _ & Hsrc).
    destruct (Hsrc eq_refl) as (_ & _ & _ & Hfirst & _).
    destruct (Hfirst "none" eq_refl eq_refl) as [-> ->]. exact Hrun.
Defined.

Lemma append_eq_self (m x : string) : m +:+ x = m -> x = "".
Proof.
  induction m as [|c m IH]; cbn; [auto|]. intros [= E]. auto.
Qed.

Lemma seq_printf_mode_emits m v : seq_printf_mode m v <> m.
Proof.
  unfold seq_printf_mode. intros E. apply append_eq_self in E. discriminate E.
Qed.

Lemma wp_tagfs_init_fs_context s fc (Q : Z * fs_context -> kstate -> Prop) :
  hd false (k_alloc s) = true ->
  Q (0, set_fc_ops true (set_fc_s_fs_info (Some (fresh (dom (k_fsi s)))) fc))
    (with_fsi
       (<[fresh (dom (k_fsi s)) :=
            {| fsi_mutex := true; mount_opts := {| mode := TAGFS_DEFAULT_MODE |};
               bdevp := None; dax_devp := None |}]> (k_fsi s))
       (with_alloc (tl (k_alloc s)) s)) ->
  wp (tagfs_init_fs_context fc) Q s.
Proof.
  intros Hal HQ. unfold tagfs_init_fs_context, kzalloc_fsi, mutex_init.
  ksteps. rewrite Hal. ksteps. exact HQ.
Qed.

Lemma wp_tagfs_init_fs_context_fail s fc (Q : Z * fs_context -> kstate -> Prop) :
  hd false (k_alloc s) = false ->
  Q (- ENOMEM, fc) (with_alloc (tl (k_alloc s)) s) ->
  wp (tagfs_init_fs_context fc) Q s.
Proof.
  intros Hal HQ. unfold tagfs_init_fs_context, kzalloc_fsi.
  ksteps. rewrite Hal. ksteps. exact HQ.
Qed.

Lemma wp_inv {A} (m : K A) (Q : A -> kstate -> Prop) s a s' :
  wp m Q s -> m s = Ret a s' -> Q a s'.
Proof. unfold wp. intros W E. rewrite E in W. exact W. Qed.

Lemma tagfs_init_fs_context_default s fc fc' s' q f :
  tagfs_init_fs_context fc s = Ret (0, fc') s' ->
  fc_s_fs_info fc' = Some q ->
  k_fsi s' !! q = Some f ->
  mode (mount_opts f) = TAGFS_DEFAULT_MODE.
Proof.
  intros Hrun Hq Hf.
  destruct (hd false (k_alloc s)) eqn:Hal.
  - refine (wp_inv _ (fun r s1 => forall q f, fc_s_fs_info r.2 = Some q ->
                        k_fsi s1 !! q = Some f ->
                        mode (mount_opts f) = TAGFS_DEFAULT_MODE)
                   _ _ _ _ Hrun q f Hq Hf).
    apply wp_tagfs_init_fs_context; [exact Hal|].
    cbn. intros q' f' [= <-]. rewrite lookup_insert_eq. intros [= <-]. reflexivity.
  - exfalso.
    refine (wp_inv _ (fun r _ => r.1 <> 0) _ _ _ _ Hrun eq_refl).
    apply wp_tagfs_init_fs_context_fail; [exact Hal|]. discriminate.
Qed.

(** C8.  [tagfs_show_options] always succeeds and changes nothing; it
    appends [,mode=<octal>] to the output if and only if the mode of the
    record differs from [TAGFS_DEFAULT_MODE] (0755), and for a record as
    [tagfs_init_fs_context] leaves it, it appends nothing. *)
Theorem tagfs_show_options_iff_not_default s m root d b q f :
  k_dentries s !! root = Some d ->
  k_sbs s !! d_sb d = Some b ->
  s_fs_info b = Some q ->
  k_fsi s !! q = Some f ->
  exists out,
    tagfs_show_options m root s = Ret (0, out) s
    /\ (out <> m <-> mode (mount_opts f) <> TAGFS_DEFAULT_MODE)
    /\ (mode (mount_opts f) <> TAGFS_DEFAULT_MODE ->
        out = m +:+ ",mode=" +:+ fmt_o (mode (mount_opts f)))
    /\ (forall s0 fc0 fc1 s1,
          tagfs_init_fs_context fc0 s0 = Ret (0, fc1) s1 ->
          fc_s_fs_info fc1 = Some q -> k_fsi s1 !! q = Some f ->
          out = m).
Proof.
  intros Hd Hb Hq Hf.
  assert (Hrun : tagfs_show_options m root s =
                 Ret (0, if mode (mount_opts f) =? TAGFS_DEFAULT_MODE then m
                         else seq_printf_mode m (mode (mount_opts f))) s).
  { apply wp_run. unfold tagfs_show_options. ksteps. rewrite Hq. ksteps.
    destruct (_ =? _); ksteps; split; reflexivity. }
  eexists. split; [exact Hrun|].
  destruct (Z.eqb_spec (mode (mount_opts f)) TAGFS_DEFAULT_MODE) as [E|E].
  - split; [tauto|]. split; [tauto|]. reflexivity.
  - split; [split; [auto | intros _; apply seq_printf_mode_emits]|].
    split; [reflexivity|].
    intros s0 fc0 fc1 s1 Hinit Hq1 Hf1. exfalso. apply E.
    eapply tagfs_init_fs_context_default; eauto.
Qed.

(** The options of the sample volume, whose mode is the default. *)
Lemma tagfs_show_options_iff_not_default_witness :
  k_sbs (sample_state []) !! 0%nat = Some sample_sb
  /\ s_fs_info sample_sb = Some 0%nat
  /\ k_fsi (sample_state []) !! 0%nat = Some sample_fsi
  /\ tagfs_show_options "rw" 0%nat (sample_state [])
     = Ret (0, "rw") (sample_state []).
Proof.
  assert (H1 : k_sbs (sample_state []) !! 0%nat = Some sample_sb)
    by (vm_compute; reflexivity).
  assert (H2 : s_fs_info sample_sb = Some 0%nat) by reflexivity.
  assert (H3 : k_fsi (sample_state []) !! 0%nat = Some sample_fsi)
    by (vm_compute; reflexivity).
  repeat (split; [assumption|]).
  destruct (tagfs_show_options_iff_not_default (sample_state []) "rw" 0%nat
              {| d_name := "/"; d_parent := None; d_inode := Some 0%nat;
                 d_count := 2; d_sb := 0%nat |}
              sample_sb 0%nat sample_fsi eq_refl H1 H2 H3)
    as (out & Hrun & Hiff & _).
  destruct (decide (out = "rw")) as [-> | Hne]; [exact Hrun|].
  apply Hiff in Hne. exfalso. apply Hne. reflexivity.
Defined.

(** ** Mounting *)

Lemma dir_mode_bits m :
  Z.land m S_IALLUGO = m ->
  Z.land (Z.lor S_IFDIR m) S_IFMT = S_IFDIR
  /\ Z.land (Z.lor S_IFDIR m) S_IALLUGO = m.
Proof.
  intros <-. rewrite !Z.land_lor_distr_l, <- !Z.land_assoc.
  change (Z.land S_IALLUGO S_IFMT) with 0.
  change (Z.land S_IALLUGO S_IALLUGO) with S_IALLUGO.
  change (Z.land S_IFDIR S_IFMT) with S_IFDIR.
  change (Z.land S_IFDIR S_IALLUGO) with 0.
  rewrite Z.land_0_r, Z.lor_0_r. split; reflexivity.
Qed.

Lemma wp_tagfs_fill_super magic s sb fc b q f (Q : Z -> kstate -> Prop) :
  k_sbs s !! sb = Some b ->
  s_fs_info b = Some q ->
  k_fsi s !! q = Some f ->
  (forall s', hd false (k_alloc s) = true ->
              hd false (tl (k_alloc s)) = true ->
              fill_super_ok s sb q f s' -> Q 0 s') ->
  (forall s', hd false (k_alloc s) = false
              \/ hd false (tl (k_alloc s)) = false ->
              fill_super_failed s sb q s' -> Q (- ENOMEM) s') ->
  wp (tagfs_fill_super magic sb fc) Q s.
Proof.
  intros Hb Hq Hf Hok Hfail.
  unfold tagfs_fill_super. ksteps. rewrite Hq. unfold deref_fsi. ksteps.
  destruct (hd false (k_alloc s)) eqn:Hal.
  - apply wp_tagfs_get_inode; ksimpl; [eauto | discriminate | assumption |].
    intros i ino Hn _ _ _ Hc Hs Hp Hm. cbn [owner_mode] in Hm.
    unfold d_make_root. ksteps.
    destruct (hd false (tl (k_alloc s))) eqn:Hal2.
    + ksteps. unfold d_instantiate. ksteps.
      apply Hok; [reflexivity..|].
      eexists _, _, _, i. ksimpl.
      split; [reflexivity|]. ksimpl. split; [reflexivity|].
      split; [exact Hq|]. split; [reflexivity|]. ksimpl.
      split; [reflexivity|]. split; [exact Hs|].
      split; [reflexivity|]. split; [exact Hm|].
      split; [|split; reflexivity].
      rewrite Hn. unfold S_ISDIR. rewrite Hm. reflexivity.
    + ksteps. unfold iput. ksteps. rewrite Hc.
      change (1 - 1 =? 0) with true. cbv iota. ksteps.
      apply Hfail; [auto|]. eexists. ksimpl.
      split; [reflexivity|]. ksimpl. split; [reflexivity|].
      split; [exact Hq|].
      rewrite delete_insert_eq, delete_id by apply fresh_inode_dead. auto.
  - apply wp_tagfs_get_inode_fail; ksimpl; [eauto | assumption |].
    unfold d_make_root. ksteps.
    apply Hfail; [auto|]. eexists. ksimpl.
    split; [reflexivity|]. ksimpl. split; [reflexivity|]. auto.
Qed.

(** C5.  Mounting: [tagfs_fill_super] makes the root a new directory
    inode whose permission bits are the mode of the mount configuration,
    and exposes it as the root dentry of the super block; it succeeds
    exactly when the root inode and the root dentry can both be allocated,
    and otherwise fails with [-ENOMEM], leaving no inode or dentry
    behind.  The mode of a configuration is a set of permission bits: that
    is all [tagfs_init_fs_context] and [tagfs_parse_param] ever store. *)
Theorem tagfs_fill_super_root magic s sb fc b q f :
  k_sbs s !! sb = Some b ->
  s_fs_info b = Some q ->
  k_fsi s !! q = Some f ->
  permission_bits f ->
  exists r s',
    tagfs_fill_super magic sb fc s = Ret r s'
    /\ (r = 0 <->
        hd false (k_alloc s) = true /\ hd false (tl (k_alloc s)) = true)
    /\ (r <> 0 ->
        r = - ENOMEM /\ root_of s' sb = None
        /\ k_inodes s' = k_inodes s /\ k_dentries s' = k_dentries s)
    /\ (r = 0 ->
        exists e d i,
          root_of s' sb = Some e
          /\ k_dentries s' !! e = Some d
          /\ d_inode d = Some (fresh (dom (k_inodes s)))
          /\ k_inodes s !! fresh (dom (k_inodes s)) = None
          /\ k_inodes s' !! fresh (dom (k_inodes s)) = Some i
          /\ S_ISDIR (i_mode i) = true
          /\ Z.land (i_mode i) S_IALLUGO = mode (mount_opts f)
          /\ i_nlink i = 2).
Proof.
  intros Hb Hq Hf Hmask.
  apply wp_elim with (Q := fun r s' =>
       (r = 0 <->
        hd false (k_alloc s) = true /\ hd false (tl (k_alloc s)) = true)
    /\ (r <> 0 ->
        r = - ENOMEM /\ root_of s' sb = None
        /\ k_inodes s' = k_inodes s /\ k_dentries s' = k_dentries s)
    /\ (r = 0 ->
        exists e d i,
          root_of s' sb = Some e
          /\ k_dentries s' !! e = Some d
          /\ d_inode d = Some (fresh (dom (k_inodes s)))
          /\ k_inodes s !! fresh (dom (k_inodes s)) = None
          /\ k_inodes s' !! fresh (dom (k_inodes s)) = Some i
          /\ S_ISDIR (i_mode i) = true
          /\ Z.land (i_mode i) S_IALLUGO = mode (mount_opts f)
          /\ i_nlink i = 2)).
  eapply wp_tagfs_fill_super; eauto.
  - intros s' Hal Hal2 (b' & e & d & i & Hsb & Hroot & _ & Hde & Hdi & _ & Hin
                       & Hm & Hn & _ & _).
    split; [tauto|]. split; [intros []; reflexivity|]. intros _.
    exists e, d, i. unfold root_of. rewrite Hsb, Hde, Hin, !lookup_insert_eq.
    split; [exact Hroot|]. split; [reflexivity|]. split; [exact Hdi|].
    split; [apply fresh_inode_dead|]. split; [reflexivity|].
    destruct (dir_mode_bits _ Hmask) as [Hd Hperm].
    unfold S_ISDIR in *. rewrite Hm in *. rewrite Hd in *. rewrite Hperm. auto.
  - intros s' Hal (b' & Hsb & Hroot & _ & Hin & Hde & _ & _).
    split; [split; [discriminate | intros [H1 H2]; destruct Hal; congruence]|].
    split; [|discriminate]. intros _. unfold root_of.
    rewrite Hsb, lookup_insert_eq. auto.
Qed.

(** A mount of the sample configuration, from an empty store holding only
    the super block and the record. *)
Lemma tagfs_fill_super_root_witness :
  k_sbs (sample_state [true; true]) !! 0%nat = Some sample_sb
  /\ s_fs_info sample_sb = Some 0%nat
  /\ k_fsi (sample_state [true; true]) !! 0%nat = Some sample_fsi
  /\ permission_bits sample_fsi
  /\ exists r s',
       tagfs_fill_super 0 0%nat empty_fc (sample_state [true; true]) = Ret r s'
       /\ r = 0.
Proof.
  assert (H1 : k_sbs (sample_state [true; true]) !! 0%nat = Some sample_sb)
    by (vm_compute; reflexivity).
  assert (H2 : s_fs_info sample_sb = Some 0%nat) by reflexivity.
  assert (H3 : k_fsi (sample_state [true; true]) !! 0%nat = Some sample_fsi)
    by (vm_compute; reflexivity).
  assert (H4 : permission_bits sample_fsi) by reflexivity.
  repeat (split; [assumption|]).
  destruct (tagfs_fill_super_root 0 (sample_state [true; true]) 0%nat empty_fc
              sample_sb 0%nat sample_fsi H1 H2 H3 H4)
    as (r & s' & Hrun & Hiff & _).
  exists r, s'. split; [exact Hrun|]. apply Hiff. split; reflexivity.
Defined.

(** ** Teardown *)

(** One [tagfs_kill_sb] of a mounted volume. *)
Lemma wp_tagfs_kill_sb blkmode s sb b q f (Q : unit -> kstate -> Prop) :
  k_sbs s !! sb = Some b ->
  s_fs_info b = Some q ->
  k_fsi s !! q = Some f ->
  Q tt (kill_sb_post blkmode sb b q f s) ->
  wp (tagfs_kill_sb blkmode sb) Q s.
Proof.
  intros Hb Hq Hf HQ.
  unfold tagfs_kill_sb, deref_fsi, mutex_destroy, blkdev_put, fs_put_dax, kfree,
    kill_litter_super, kill_anon_super, generic_shutdown_super, free_anon_bdev.
  ksteps. rewrite Hq. ksteps.
  unfold kill_sb_post, kill_sb_events, bdev_events, dax_events in HQ.
  destruct (bdevp f) as [bd|] eqn:Hbd, (dax_devp f) as [dx|] eqn:Hdx,
    (s_root b) as [e|] eqn:Hr.
  all: ksteps; rewrite ?Hbd; ksteps; rewrite ?Hdx; ksteps; rewrite ?Hq; ksteps;
    rewrite ?Hr; ksteps.
  all: refine (post_eq _ _ _ _ HQ _); apply kstate_ext; ksimpl;
    rewrite ?delete_insert_eq, <- ?app_assoc; reflexivity.
Qed.

(** The record and the trace after [tagfs_kill_sb], root or no root. *)
Lemma kill_sb_post_fsi mode sb b q f s :
  k_fsi (kill_sb_post mode sb b q f s) = delete q (k_fsi s).
Proof. unfold kill_sb_post. destruct (s_root b); reflexivity. Qed.

Lemma kill_sb_post_trace mode sb b q f s :
  k_trace (kill_sb_post mode sb b q f s)
  = k_trace s ++ kill_sb_events mode sb q f.
Proof. unfold kill_sb_post. destruct (s_root b); reflexivity. Qed.

Lemma with_fsi_id s q f :
  k_fsi s !! q = Some f -> with_fsi (<[q := f]> (k_fsi s)) s = s.
Proof. intros H. destruct s. cbn in *. rewrite insert_id by exact H. reflexivity. Qed.

Lemma fresh_fsi_dead s : k_fsi s !! fresh (dom (k_fsi s)) = None.
Proof. apply not_elem_of_dom, is_fresh. Qed.

Lemma vfs_parse_fs_param_source_owner fc param :
  fc_s_fs_info (vfs_parse_fs_param_source fc param).2 = fc_s_fs_info fc.
Proof.
  unfold vfs_parse_fs_param_source.
  destruct (negb _); [reflexivity|].
  destruct (value param); [|destruct (fc_source fc)|..]; reflexivity.
Qed.

Lemma land_allugo_idem v :
  Z.land (Z.land v S_IALLUGO) S_IALLUGO = Z.land v S_IALLUGO.
Proof. rewrite <- Z.land_assoc, Z.land_diag. reflexivity. Qed.

(** Parsing one option touches nothing but the mode of the record, and
    leaves a mode made of permission bits. *)
Lemma wp_tagfs_parse_param_frame s fc param q f :
  fc_s_fs_info fc = Some q ->
  k_fsi s !! q = Some f ->
  wp (tagfs_parse_param fc param)
     (fun r s' =>
        fc_s_fs_info r.2 = Some q
        /\ exists f', s' = with_fsi (<[q := f']> (k_fsi s)) s
                      /\ bdevp f' = bdevp f /\ dax_devp f' = dax_devp f
                      /\ (permission_bits f -> permission_bits f'))
     s.
Proof.
  intros Hq Hf. unfold tagfs_parse_param.
  assert (Hsame : with_fsi (<[q := f]> (k_fsi s)) s = s) by (apply with_fsi_id, Hf).
  destruct (fs_parse tagfs_fs_parameters param) as [opt u32].
  destruct (opt =? - ENOPARAM).
  - pose proof (vfs_parse_fs_param_source_owner fc param) as Hsrc.
    destruct (vfs_parse_fs_param_source fc param) as [opt2 fc2].
    cbn [snd] in Hsrc. rewrite Hq in Hsrc.
    destruct (negb _); ksteps; eauto 10.
  - destruct (opt <? 0); [ksteps; eauto 10|].
    rewrite Hq. unfold deref_fsi.
    destruct (opt =? Opt_mode); ksteps; [|eauto 10].
    split; [exact Hq|]. eexists. split; [reflexivity|].
    split; [reflexivity|]. split; [reflexivity|].
    intros _. apply land_allugo_idem.
Qed.

Lemma wp_parse_params_frame params : forall s fc q f,
  fc_s_fs_info fc = Some q ->
  k_fsi s !! q = Some f ->
  wp (parse_params fc params)
     (fun r s' =>
        fc_s_fs_info r.2 = Some q
        /\ exists f', s' = with_fsi (<[q := f']> (k_fsi s)) s
                      /\ bdevp f' = bdevp f /\ dax_devp f' = dax_devp f
                      /\ (permission_bits f -> permission_bits f'))
     s.
Proof.
  induction params as [|param rest IH]; intros s fc q f Hq Hf; cbn [parse_params].
  - ksteps. split; [exact Hq|]. exists f. rewrite with_fsi_id by exact Hf. auto.
  - kstep. eapply wp_mono; [|apply (wp_tagfs_parse_param_frame s fc param q f Hq Hf)].
    intros [r fc'] s' (Hq' & f' & -> & Hb & Hd & Hp). cbn [fst snd] in *.
    destruct (r =? 0).
    + eapply wp_mono; [|eapply (IH _ fc' q f' Hq')]; [|ksimpl; reflexivity].
      intros r2 s2 (Hq2 & f2 & -> & Hb2 & Hd2 & Hp2). split; [exact Hq2|].
      exists f2. ksimpl. split; [reflexivity|].
      split; [congruence|]. split; [congruence | auto].
    + ksteps. eauto 10.
Qed.

(** So the mode of a mount configuration, set up by
    [tagfs_init_fs_context] and changed by options only, is always a set
    of permission bits. *)
Lemma mount_configuration_permission_bits s fc0 fc1 s1 params r s2 q f :
  tagfs_init_fs_context fc0 s = Ret (0, fc1) s1 ->
  parse_params fc1 params s1 = Ret r s2 ->
  fc_s_fs_info fc1 = Some q ->
  k_fsi s2 !! q = Some f ->
  permission_bits f.
Proof.
  intros Hinit Hparse Hq Hf.
  assert (H1 : exists f1, k_fsi s1 !! q = Some f1 /\ permission_bits f1).
  { destruct (hd false (k_alloc s)) eqn:Hal.
    - refine (wp_inv _ (fun r s1 => forall q, fc_s_fs_info r.2 = Some q ->
                          exists f1, k_fsi s1 !! q = Some f1
                                     /\ permission_bits f1)
                     _ _ _ _ Hinit q Hq).
      apply wp_tagfs_init_fs_context; [exact Hal|].
      cbn. intros q' [= <-]. rewrite lookup_insert_eq. eexists.
      split; reflexivity.
    - exfalso.
      refine (wp_inv _ (fun r _ => r.1 <> 0) _ _ _ _ Hinit eq_refl).
      apply wp_tagfs_init_fs_context_fail; [exact Hal|]. discriminate. }
  destruct H1 as (f1 & Hf1 & Hp1).
  pose proof (wp_inv _ _ _ _ _ (wp_parse_params_frame params s1 fc1 q f1 Hq Hf1)
                Hparse) as (_ & f' & -> & _ & _ & Hp).
  revert Hf. ksimpl. intros [= <-]. auto.
Qed.

(** The three answers of [get_anon_bdev]. *)
Lemma wp_get_anon_bdev (Q : Z -> kstate -> Prop) s :
  (Z.shiftl 1 MINORBITS - 1 <= k_anon_devs s -> Q (- EMFILE) s) ->
  (k_anon_devs s < Z.shiftl 1 MINORBITS - 1 ->
   hd false (k_alloc s) = false ->
   Q (- ENOMEM) (with_alloc (tl (k_alloc s)) s)) ->
  (k_anon_devs s < Z.shiftl 1 MINORBITS - 1 ->
   hd false (k_alloc s) = true ->
   Q 0 (with_anon_devs (k_anon_devs s + 1) (with_alloc (tl (k_alloc s)) s))) ->
  wp get_anon_bdev Q s.
Proof.
  intros H1 H2 H3. unfold get_anon_bdev. ksteps.
  destruct (Z.leb_spec (Z.shiftl 1 MINORBITS - 1) (k_anon_devs s)) as [L|L];
    ksteps; [auto|].
  destruct (hd false (k_alloc s)); ksteps; auto.
Qed.

(** [tagfs_get_tree] hands the record over to the super block, or leaves
    it with the context. *)
Lemma wp_tagfs_get_tree magic blkmode s fc q f :
  fc_s_fs_info fc = Some q ->
  k_fsi s !! q = Some f ->
  wp (tagfs_get_tree magic blkmode fc) (get_tree_post blkmode s q f) s.
Proof.
  intros Hq Hf.
  unfold tagfs_get_tree, get_tree_nodev, sget_fc. ksteps.
  destruct (hd false (k_alloc s)); ksteps;
    [|right; left; cbn; split; [discriminate|auto]].
  apply wp_get_anon_bdev; ksimpl; intros;
    [ change (- EMFILE =? 0) with false; cbv iota; ksteps;
      right; left; cbn; split; [discriminate|auto]
    | change (- ENOMEM =? 0) with false; cbv iota; ksteps;
      right; left; cbn; split; [discriminate|auto]
    | change (0 =? 0) with true; cbv iota; ksteps ].
  set (sb := fresh (dom (k_sbs s))).
  eapply wp_tagfs_fill_super; [klookup | ksimpl; exact Hq | klookup | |].
  - intros s' _ _ (b' & e & d & i & Hsb & Hroot & Hfsi & Hde & Hdi & Hdsb & Hin
                   & Hm & Hn & Hk & Htr).
    cbn [k_sbs k_dentries k_inodes k_fsi k_trace with_sbs with_alloc
         with_anon_devs] in *.
    change (0 =? 0) with true. cbv iota. kstep.
    eapply wp_load_sb; [rewrite Hsb, insert_insert_eq; apply lookup_insert_eq|].
    kstep. rewrite Hroot. unfold dget.
    eapply wp_update_dentry; [rewrite Hde; apply lookup_insert_eq|]. ksteps.
    left. cbn [fst snd]. split; [reflexivity|]. split; [reflexivity|].
    eexists e, _, b'. ksimpl. split; [reflexivity|].
    split; [reflexivity|]. ksimpl. rewrite Hdsb, Hsb, insert_insert_eq, lookup_insert_eq.
    auto.
  - intros s' _ (b' & Hsb & Hroot & Hfsi & Hin & Hde & Hk & Htr).
    cbn [k_sbs k_dentries k_inodes k_fsi k_trace with_sbs with_alloc
         with_anon_devs] in *.
    change (- ENOMEM =? 0) with false. cbv iota.
    unfold deactivate_locked_super. ksteps.
    eapply wp_tagfs_kill_sb;
      [rewrite Hsb, insert_insert_eq; apply lookup_insert_eq | exact Hfsi
      | rewrite Hk; exact Hf |].
    ksteps. right; right. cbn [fst snd]. unfold kill_sb_post.
    rewrite Hroot. ksimpl.
    split; [discriminate|]. split; [reflexivity|]. rewrite Hk, Htr. eauto.
Qed.

Lemma kill_sb_events_once mode sb q f :
  count_kfree q (kill_sb_events mode sb q f) = 1%nat
  /\ releases_precede_free q (kill_sb_events mode sb q f) = true.
Proof.
  unfold kill_sb_events, bdev_events, dax_events, count_kfree.
  destruct (bdevp f), (dax_devp f); cbn; rewrite bool_decide_eq_true_2 by reflexivity;
    split; reflexivity.
Qed.

Lemma kill_sb_events_release mode sb q f :
  (forall b, bdevp f = Some b -> In (EvBlkdevPut b mode) (kill_sb_events mode sb q f))
  /\ (forall d, dax_devp f = Some d -> In (EvFsPutDax d q) (kill_sb_events mode sb q f)).
Proof.
  unfold kill_sb_events, bdev_events, dax_events.
  split; intros x ->; destruct (bdevp f), (dax_devp f); cbn; auto.
Qed.

Lemma wp_kfree s q f (Q : unit -> kstate -> Prop) :
  k_fsi s !! q = Some f ->
  Q tt (with_trace (k_trace s ++ [EvKfree q]) (with_fsi (delete q (k_fsi s)) s)) ->
  wp (kfree (Some q)) Q s.
Proof. intros Hf HQ. unfold kfree. ksteps. exact HQ. Qed.

(** Every volume lifetime runs to its end and frees the record once. *)
Lemma wp_volume_lifetime magic blkmode params bdev dax s :
  wp (volume_lifetime magic blkmode params bdev dax)
     (lifetime_post blkmode bdev dax s) s.
Proof.
  unfold volume_lifetime. kstep.
  set (q := fresh (dom (k_fsi s))).
  pose proof (fresh_fsi_dead s) as Hdead. fold q in Hdead.
  destruct (hd false (k_alloc s)) eqn:Hal.
  2:{ apply wp_tagfs_init_fs_context_fail; [exact Hal|]. cbn [fst snd].
      change (- ENOMEM =? 0) with false. cbv iota. ksteps.
      unfold lifetime_post. rewrite Hal.
      exists []. rewrite app_nil_r. repeat split; auto; discriminate. }
  apply wp_tagfs_init_fs_context; [exact Hal|]. fold q. cbn [fst snd].
  change (0 =? 0) with true. cbv iota. kstep.
  eapply wp_mono; [|eapply wp_parse_params_frame; [reflexivity | klookup]].
  intros [r1 fc1] s1 (Hq1 & f1 & -> & Hb1 & Hd1 & _). cbn [fst snd] in *.
  ksimpl.
  assert (Hfree : forall (r : Z) s2 f2,
             r <> 0 ->
             k_fsi s2 = <[q := f2]> (k_fsi s) -> k_trace s2 = k_trace s ->
             wp (tagfs_free_fc fc1;; ret r) (lifetime_post blkmode bdev dax s) s2).
  { intros r s2 f2 Hr Hk Ht. unfold tagfs_free_fc. rewrite Hq1. kstep.
    eapply wp_kfree; [rewrite Hk; apply lookup_insert_eq|]. ksteps.
    unfold lifetime_post. fold q. rewrite Hal. ksimpl.
    exists [EvKfree q]. rewrite Hk, Ht, delete_insert_eq, delete_id by exact Hdead.
    unfold count_kfree. cbn. rewrite bool_decide_eq_true_2 by reflexivity.
    repeat split; auto; contradiction. }
  destruct (Z.eqb_spec r1 0) as [-> | Hr1].
  2:{ eapply Hfree; eauto; ksimpl; reflexivity. }
  clear Hfree. kstep.
  eapply wp_mono; [|eapply wp_tagfs_get_tree; [exact Hq1 | klookup]].
  intros [r2 fc2] s2 Hpost. cbn [fst snd].
  destruct Hpost as [(Hr & Hq2 & e & d & b & Hroot & Hde & Hsb & Hfsi & Hk & Ht)
                    |[(Hr & Hq2 & Hk & Ht)|(Hr & Hq2 & Hk & sb & Ht)]];
    cbn [fst snd] in *; ksimpl; cbn [k_fsi k_trace with_fsi with_alloc] in *.
  - subst r2. unfold tagfs_free_fc. rewrite Hq2. unfold kfree. ksteps.
    change (0 =? 0) with true. cbv iota.
    unfold root_sb. rewrite Hroot. ksteps. unfold attach_devices. ksteps.
    rewrite Hfsi. unfold deref_fsi. kstep.
    eapply wp_load_fsi; [rewrite Hk; apply lookup_insert_eq|]. ksteps.
    eapply wp_update_fsi; [rewrite Hk; apply lookup_insert_eq|]. ksteps.
    unfold deactivate_locked_super. ksteps.
    eapply wp_tagfs_kill_sb; [ksimpl; exact Hsb | exact Hfsi | klookup |].
    ksteps.
    unfold lifetime_post. fold q. rewrite Hal. ksimpl.
    rewrite kill_sb_post_fsi, kill_sb_post_trace. ksimpl.
    eexists. rewrite Ht. split; [reflexivity|].
    rewrite Hk, !delete_insert_eq, delete_id by exact Hdead.
    split; [reflexivity|].
    destruct (kill_sb_events_once blkmode (d_sb d) q
                (set_dax_devp dax (set_bdevp bdev f1))) as [Hc Ho].
    destruct (kill_sb_events_release blkmode (d_sb d) q
                (set_dax_devp dax (set_bdevp bdev f1))) as [Hrb Hrd].
    split; [exact Hc|]. split; [exact Ho|]. intros _. split.
    + intros x ->. apply Hrb. reflexivity.
    + intros x ->. apply Hrd. reflexivity.
  - unfold tagfs_free_fc. rewrite Hq2. kstep.
    eapply wp_kfree; [rewrite Hk; apply lookup_insert_eq|]. ksimpl.
    destruct (Z.eqb_spec r2 0) as [E|E]; [contradiction|]. ksteps.
    unfold lifetime_post. fold q. rewrite Hal. ksimpl.
    exists [EvKfree q]. rewrite Hk, Ht, delete_insert_eq, delete_id by exact Hdead.
    unfold count_kfree. cbn. rewrite bool_decide_eq_true_2 by reflexivity.
    repeat split; auto; contradiction.
  - unfold tagfs_free_fc. rewrite Hq2. unfold kfree. ksteps.
    destruct (Z.eqb_spec r2 0) as [E|E]; [contradiction|]. ksteps.
    unfold lifetime_post. fold q. rewrite Hal. ksimpl.
    eexists. rewrite Ht. split; [reflexivity|].
    rewrite Hk, delete_insert_eq, delete_id by exact Hdead.
    split; [reflexivity|].
    destruct (kill_sb_events_once blkmode sb q f1) as [Hc Ho].
    split; [exact Hc|]. split; [exact Ho|]. contradiction.
Qed.

(** C9.  [tagfs_kill_sb] destroys the mutex, puts the block device and the
    DAX device the record refers to, and only then frees the record, once;
    and over the whole life of a volume, however the mount goes, the record
    allocated by [tagfs_init_fs_context] is freed exactly once (by
    [tagfs_free_fc] or by [tagfs_kill_sb], never both), with no device put
    after it. *)
Theorem tagfs_kill_sb_releases_then_frees_once blkmode s sb b q f :
  k_sbs s !! sb = Some b ->
  s_fs_info b = Some q ->
  k_fsi s !! q = Some f ->
  (exists s',
     tagfs_kill_sb blkmode sb s = Ret tt s'
     /\ k_trace s' =
        k_trace s ++ [EvMutexDestroy q] ++ bdev_events blkmode f
        ++ dax_events q f ++ [EvKfree q; EvKillLitterSuper sb]
     /\ k_fsi s' = delete q (k_fsi s)
     /\ count_kfree q (kill_sb_events blkmode sb q f) = 1%nat
     /\ releases_precede_free q (kill_sb_events blkmode sb q f) = true
     /\ (forall x, bdevp f = Some x ->
                   In (EvBlkdevPut x blkmode) (kill_sb_events blkmode sb q f))
     /\ (forall x, dax_devp f = Some x ->
                   In (EvFsPutDax x q) (kill_sb_events blkmode sb q f)))
  /\ (forall magic params bdev dax s0,
        exists r s' evs,
          volume_lifetime magic blkmode params bdev dax s0 = Ret r s'
          /\ k_trace s' = k_trace s0 ++ evs
          /\ k_fsi s' = k_fsi s0
          /\ count_kfree (fresh (dom (k_fsi s0))) evs
             = (if hd false (k_alloc s0) then 1 else 0)%nat
          /\ releases_precede_free (fresh (dom (k_fsi s0))) evs = true
          /\ (r = 0 ->
              (forall x, bdev = Some x -> In (EvBlkdevPut x blkmode) evs)
              /\ (forall x, dax = Some x ->
                            In (EvFsPutDax x (fresh (dom (k_fsi s0)))) evs))).
Proof.
  intros Hb Hq Hf. split.
  - destruct (kill_sb_events_once blkmode sb q f) as [Hc Ho].
    destruct (kill_sb_events_release blkmode sb q f) as [Hrb Hrd].
    apply wp_elim_val with (v := tt)
      (P := fun s' =>
         k_trace s' = k_trace s ++ kill_sb_events blkmode sb q f
         /\ k_fsi s' = delete q (k_fsi s)
         /\ count_kfree q (kill_sb_events blkmode sb q f) = 1%nat
         /\ releases_precede_free q (kill_sb_events blkmode sb q f) = true
         /\ (forall x, bdevp f = Some x ->
               In (EvBlkdevPut x blkmode) (kill_sb_events blkmode sb q f))
         /\ (forall x, dax_devp f = Some x ->
               In (EvFsPutDax x q) (kill_sb_events blkmode sb q f))).
    eapply wp_tagfs_kill_sb; eauto.
    rewrite kill_sb_post_fsi, kill_sb_post_trace. auto 10.
  - intros magic params bdev dax s0.
    destruct (wp_elim _ _ _ (wp_volume_lifetime magic blkmode params bdev dax s0))
      as (r & s' & Hrun & evs & H).
    exists r, s', evs. split; [exact Hrun | exact H].
Qed.

(** Unmounting the sample volume with a block device and a DAX device
    attached. *)
Lemma tagfs_kill_sb_releases_then_frees_once_witness :
  k_sbs attached_state !! 0%nat = Some sample_sb
  /\ s_fs_info sample_sb = Some 0%nat
  /\ k_fsi attached_state !! 0%nat = Some attached_fsi
  /\ exists s',
       tagfs_kill_sb 3 0%nat attached_state = Ret tt s'
       /\ k_trace s' = [EvMutexDestroy 0; EvBlkdevPut 5 3; EvFsPutDax 6 0;
                        EvKfree 0; EvKillLitterSuper 0].
Proof.
  assert (H1 : k_sbs attached_state !! 0%nat = Some sample_sb)
    by (vm_compute; reflexivity).
  assert (H2 : s_fs_info sample_sb = Some 0%nat) by reflexivity.
  assert (H3 : k_fsi attached_state !! 0%nat = Some attached_fsi)
    by (vm_compute; reflexivity).
  repeat (split; [assumption|]).
  destruct (tagfs_kill_sb_releases_then_frees_once 3 attached_state
              0%nat sample_sb 0%nat attached_fsi H1 H2 H3)
    as [(s' & Hrun & Htr & _) _].
  exists s'. split; [exact Hrun | exact Htr].
Defined.

(** * Further properties *)

(** ** Node allocation in closed form *)

(** A successful [tagfs_get_inode] leaves [new_node] at a pointer that
    was not live, and uses up one inode number and one allocation. *)
Lemma wp_tagfs_get_inode_node s sb dir m dev (Q : option nat -> kstate -> Prop) :
  is_Some (k_sbs s !! sb) ->
  (forall d, dir = Some d -> is_Some (k_inodes s !! d)) ->
  hd false (k_alloc s) = true ->
  Q (Some (fresh (dom (k_inodes s))))
    (with_last_ino (next_counters s)
       (with_inodes
          (<[fresh (dom (k_inodes s)) := new_node s sb dir m dev]> (k_inodes s))
          (with_alloc (tl (k_alloc s)) s))) ->
  wp (tagfs_get_inode sb dir m dev) Q s.
Proof.
  intros [b Hb] Hdir Hal HQ.
  unfold tagfs_get_inode, new_inode. ksteps. rewrite Hal. ksteps.
  apply wp_get_next_ino. ksimpl.
  lazymatch goal with
  | |- context [next_ino ?st] => change (next_ino st) with (next_ino s)
  end.
  lazymatch goal with
  | |- wp _ _ (with_last_ino ?c _) => change c with (next_counters s)
  end.
  set (ino := next_counters s) in *.
  unfold inode_init_owner, inode_nohighmem, mapping_set_gfp_mask,
    mapping_set_unevictable, current_time, inc_nlink, init_special_inode.
  assert (Hfin : forall I,
     I = new_node s sb dir m dev ->
     forall s1, s1 = with_last_ino ino
          (with_inodes (<[fresh (dom (k_inodes s)) := I]> (k_inodes s))
             (with_alloc (tl (k_alloc s)) s)) ->
     Q (Some (fresh (dom (k_inodes s)))) s1).
  { intros; subst; exact HQ. }
  clear HQ. unfold new_node, owner_mode, owner_gid in Hfin. fold ino in Hfin.
  assert (Hdir' : forall d, dir = Some d ->
            exists di, k_inodes s !! d = Some di
                       /\ fresh (dom (k_inodes s)) ≠ d).
  { intros d E. destruct (Hdir d E) as [di Hdi]. exists di. split; [done|].
    eapply fresh_inode_ne; eauto. }
  destruct dir as [d|];
    [ destruct (Hdir' d eq_refl) as (di & Hdi & Hne); rewrite Hdi in Hfin | ].
  all: repeat kbranch.
  all: lazymatch goal with
       | |- _ _ (with_inodes (<[_ := ?I]> _) _) =>
           apply (Hfin I);
           [ | unfold with_inodes, with_last_ino, with_alloc; ksimpl;
               reflexivity ]
       end.
  all: unfold S_ISDIR, S_ISCHR, S_ISBLK, S_ISFIFO in *.
  all: repeat match goal with
         | H : (Z.land _ S_IFMT =? _) = true |- _ =>
             apply Z.eqb_eq in H; rewrite H
         | H : (_ =? _) = _ |- _ => rewrite H; clear H
         end.
  all: try reflexivity.
Qed.

(** ** More on node allocation *)

(** The run of a successful [tagfs_get_inode], in closed form. *)
Lemma tagfs_get_inode_run s sb dir m dev :
  is_Some (k_sbs s !! sb) ->
  (forall d, dir = Some d -> is_Some (k_inodes s !! d)) ->
  hd false (k_alloc s) = true ->
  tagfs_get_inode sb dir m dev s
  = Ret (Some (fresh (dom (k_inodes s))))
        (with_last_ino (next_counters s)
           (with_inodes
              (<[fresh (dom (k_inodes s)) := new_node s sb dir m dev]>
                 (k_inodes s))
              (with_alloc (tl (k_alloc s)) s))).
Proof.
  intros Hsb Hdir Hal. apply wp_run.
  apply wp_tagfs_get_inode_node; auto.
Qed.

Lemma tagfs_get_inode_fail_run s sb dir m dev :
  is_Some (k_sbs s !! sb) ->
  hd false (k_alloc s) = false ->
  tagfs_get_inode sb dir m dev s = Ret None (with_alloc (tl (k_alloc s)) s).
Proof.
  intros Hsb Hal. apply wp_run.
  apply wp_tagfs_get_inode_fail; auto.
Qed.

(** One step of the counter of a CPU that stands at [last], with the
    shared counter at [shared]. *)
Lemma next_ino_range s : 0 < next_ino s <= UINT_MAX.
Proof.
  unfold next_ino, UINT_MAX.
  match goal with
  | |- context [wrap32 (?r + 1)] => generalize r
  end.
  intros r. unfold wrap32.
  pose proof (Z.mod_pos_bound (r + 1) (2 ^ 32) eq_refl) as Hb.
  destruct (Z.eqb_spec ((r + 1) mod 2 ^ 32) 0); lia.
Qed.

Lemma land_batch x : Z.land x (LAST_INO_BATCH - 1) = x mod 1024.
Proof.
  change (LAST_INO_BATCH - 1) with (Z.ones 10).
  rewrite Z.land_ones by lia. reflexivity.
Qed.

(** On one CPU the next number differs from the last one, as long as the
    shared counter holds a multiple of the batch size (it starts at 0 and
    only ever grows by [LAST_INO_BATCH], modulo 2^32). *)
Lemma ino_step_moves a sh :
  0 < a <= UINT_MAX ->
  sh mod 1024 = 0 -> 0 <= sh <= UINT_MAX ->
  (let res := if Z.land a (LAST_INO_BATCH - 1) =? 0
              then wrap32 (wrap32 (sh + LAST_INO_BATCH) - LAST_INO_BATCH)
              else a in
   let res := wrap32 (res + 1) in
   if res =? 0 then 1 else res) <> a.
Proof.
  unfold UINT_MAX. intros Ha Hm Hs. cbv zeta.
  rewrite (land_batch a). unfold LAST_INO_BATCH, wrap32.
  destruct (Z.eqb_spec (a mod 1024) 0) as [E|E].
  - assert (R : ((sh + 1024) mod 2 ^ 32 - 1024) mod 2 ^ 32 = sh).
    { destruct (Z_lt_le_dec (sh + 1024) (2 ^ 32)) as [L|L].
      - rewrite (Z.mod_small (sh + 1024)) by lia.
        replace (sh + 1024 - 1024) with sh by lia.
        apply Z.mod_small. lia.
      - assert (sh = 2 ^ 32 - 1024).
        { assert (D : sh = 1024 * (sh / 1024))
            by (pose proof (Z.div_mod sh 1024); lia).
          assert (sh / 1024 < 2 ^ 22)
            by (apply Z.div_lt_upper_bound; lia).
          lia. }
        subst sh. reflexivity. }
    rewrite R.
    assert (sh <= 2 ^ 32 - 1024).
    { assert (D : sh = 1024 * (sh / 1024))
        by (pose proof (Z.div_mod sh 1024); lia).
      assert (sh / 1024 < 2 ^ 22) by (apply Z.div_lt_upper_bound; lia).
      lia. }
    rewrite (Z.mod_small (sh + 1)) by lia.
    destruct (Z.eqb_spec (sh + 1) 0); [lia|].
    intros <-.
    rewrite <- Zplus_mod_idemp_l, Hm in E. discriminate E.
  - destruct (Z.eq_dec a (2 ^ 32 - 1)) as [-> | Hne].
    + vm_compute. discriminate.
    + rewrite (Z.mod_small (a + 1)) by lia.
      destruct (Z.eqb_spec (a + 1) 0); lia.
Qed.

(** The shared counter keeps holding a multiple of the batch size. *)
Lemma next_counters_shared s :
  shared_last_ino (k_last_ino s) mod 1024 = 0 ->
  0 <= shared_last_ino (k_last_ino s) <= UINT_MAX ->
  shared_last_ino (next_counters s) mod 1024 = 0
  /\ 0 <= shared_last_ino (next_counters s) <= UINT_MAX.
Proof.
  unfold next_counters, UINT_MAX. cbn [shared_last_ino].
  generalize (shared_last_ino (k_last_ino s)). intros sh Hm Hs.
  destruct (ino_batch s); [|auto].
  unfold wrap32, LAST_INO_BATCH.
  pose proof (Z.mod_pos_bound (sh + 1024) (2 ^ 32) eq_refl).
  split; [|lia].
  rewrite Z.mod_mod_divide by (exists (2 ^ 22); reflexivity).
  rewrite <- Zplus_mod_idemp_l, Hm. reflexivity.
Qed.

Lemma next_ino_same_cpu s s1 :
  shared_last_ino (k_last_ino s) mod LAST_INO_BATCH = 0 ->
  0 <= shared_last_ino (k_last_ino s) <= UINT_MAX ->
  k_cpu s1 = k_cpu s ->
  k_last_ino s1 = next_counters s ->
  next_ino s1 <> next_ino s.
Proof.
  intros Hm Hs Hc Hl.
  destruct (next_counters_shared s Hm Hs) as [Hm' Hs'].
  pose proof (next_ino_range s) as Ha.
  unfold next_ino at 1, ino_batch. rewrite Hc, Hl.
  replace (last_ino (next_counters s) !! k_cpu s) with (Some (next_ino s))
    by (unfold next_counters; cbn [last_ino]; rewrite lookup_insert_eq;
        reflexivity).
  cbn [default from_option].
  apply ino_step_moves; assumption.
Qed.

(** Ownership of a new node ([inode_init_owner] as [tagfs_get_inode]
    calls it): the owner is the caller; the group is the caller's, unless
    the parent directory is set-group-id, in which case the group is the
    parent's and a new directory is set-group-id as well.  The mode is
    otherwise stored as given. *)
Theorem tagfs_get_inode_owner s sb dir di m dev :
  is_Some (k_sbs s !! sb) ->
  k_inodes s !! dir = Some di ->
  hd false (k_alloc s) = true ->
  exists p s' i,
    tagfs_get_inode sb (Some dir) m dev s = Ret (Some p) s'
    /\ k_inodes s' !! p = Some i
    /\ i_uid i = k_fsuid s
    /\ (Z.land (i_mode di) S_ISGID = 0 ->
        i_gid i = k_fsgid s /\ i_mode i = m)
    /\ (Z.land (i_mode di) S_ISGID <> 0 ->
        i_gid i = i_gid di
        /\ i_mode i = (if S_ISDIR m then Z.lor m S_ISGID else m)).
Proof.
  intros Hsb Hdi Hal. eexists _, _, _.
  split; [apply tagfs_get_inode_run; [assumption | intros ? [= <-]; eauto
                                     | assumption]|].
  ksimpl. split; [reflexivity|]. split; [reflexivity|].
  unfold new_node, owner_gid, owner_mode. cbn [i_gid i_mode]. rewrite Hdi.
  destruct (Z.eqb_spec (Z.land (i_mode di) S_ISGID) 0) as [E|E];
    split; intros E'; try contradiction; split; reflexivity.
Qed.

(** A node made under the root of the sample volume, which is not
    set-group-id. *)
Lemma tagfs_get_inode_owner_witness :
  is_Some (k_sbs (sample_state [true]) !! 0%nat)
  /\ k_inodes (sample_state [true]) !! 0%nat = Some sample_root_inode
  /\ exists p s' i,
       tagfs_get_inode 0%nat (Some 0%nat) (oct 100644) 0 (sample_state [true])
       = Ret (Some p) s'
       /\ k_inodes s' !! p = Some i
       /\ i_uid i = 1000 /\ i_gid i = 1000 /\ i_mode i = oct 100644.
Proof.
  assert (H1 : is_Some (k_sbs (sample_state [true]) !! 0%nat))
    by (vm_compute; eauto).
  assert (H2 : k_inodes (sample_state [true]) !! 0%nat = Some sample_root_inode)
    by (vm_compute; reflexivity).
  split; [exact H1|]. split; [exact H2|].
  destruct (tagfs_get_inode_owner (sample_state [true]) 0%nat 0%nat
              sample_root_inode (oct 100644) 0 H1 H2 eq_refl)
    as (p & s' & i & Hrun & Hi & Hu & Hg & _).
  destruct (Hg eq_refl) as [Hgid Hmode].
  exists p, s', i. auto.
Defined.

(** Inode numbers.  Every new node gets a number in [1, UINT_MAX] and an
    inode of its own.  Two nodes allocated one after the other by a task
    that stays on its CPU get different numbers.  If the task has moved to
    another CPU in between, only the range is promised: the CPUs count
    independently inside batches taken from a 32-bit counter, which wraps
    around. *)
Theorem tagfs_get_inode_numbers s sb dir m1 dev1 m2 dev2 cpu2 :
  is_Some (k_sbs s !! sb) ->
  (forall d, dir = Some d -> is_Some (k_inodes s !! d)) ->
  hd false (k_alloc s) = true ->
  hd false (tl (k_alloc s)) = true ->
  shared_last_ino (k_last_ino s) mod LAST_INO_BATCH = 0 ->
  0 <= shared_last_ino (k_last_ino s) <= UINT_MAX ->
  exists p1 s1 p2 s2 i1 i2,
    tagfs_get_inode sb dir m1 dev1 s = Ret (Some p1) s1
    /\ tagfs_get_inode sb dir m2 dev2 (with_cpu cpu2 s1) = Ret (Some p2) s2
    /\ p1 <> p2
    /\ k_inodes s2 !! p1 = Some i1 /\ k_inodes s2 !! p2 = Some i2
    /\ 0 < i_ino i1 <= UINT_MAX /\ 0 < i_ino i2 <= UINT_MAX
    /\ (cpu2 = k_cpu s -> i_ino i1 <> i_ino i2).
Proof.
  intros Hsb Hdir Hal1 Hal2 Hm Hs.
  set (p1 := fresh (dom (k_inodes s))).
  set (s1 := with_last_ino (next_counters s)
               (with_inodes (<[p1 := new_node s sb dir m1 dev1]> (k_inodes s))
                  (with_alloc (tl (k_alloc s)) s))).
  assert (R1 : tagfs_get_inode sb dir m1 dev1 s = Ret (Some p1) s1)
    by (apply tagfs_get_inode_run; assumption).
  assert (R2 := tagfs_get_inode_run (with_cpu cpu2 s1) sb dir m2 dev2).
  assert (Hp : fresh (dom (k_inodes (with_cpu cpu2 s1))) <> p1).
  { apply (fresh_inode_ne (with_cpu cpu2 s1) p1 (new_node s sb dir m1 dev1)).
    subst s1. ksimpl. reflexivity. }
  eexists p1, s1, _, _, _, _. split; [exact R1|].
  split.
  { apply R2; subst s1; ksimpl; [assumption | | assumption].
    intros d Hd. destruct (Hdir d Hd) as [di Hdi].
    rewrite lookup_insert_ne; [eauto|].
    intros E. pose proof (fresh_inode_dead s) as Hf. fold p1 in Hf. congruence. }
  split; [congruence|].
  ksimpl. rewrite lookup_insert_ne by exact Hp.
  split; [subst s1; ksimpl; reflexivity|]. split; [reflexivity|].
  cbn [new_node i_ino].
  split; [apply next_ino_range|]. split; [apply next_ino_range|].
  intros ->. intros E. symmetry in E. revert E.
  apply next_ino_same_cpu; subst s1; auto.
Qed.

(** Two nodes made one after the other on the sample volume. *)
Lemma tagfs_get_inode_numbers_witness :
  is_Some (k_sbs (sample_state [true; true]) !! 0%nat)
  /\ shared_last_ino (k_last_ino (sample_state [true; true]))
     mod LAST_INO_BATCH = 0
  /\ exists p1 s1 p2 s2 i1 i2,
       tagfs_get_inode 0%nat (Some 0%nat) (oct 100644) 0
         (sample_state [true; true]) = Ret (Some p1) s1
       /\ tagfs_get_inode 0%nat (Some 0%nat) (oct 40755) 0 (with_cpu 0 s1)
          = Ret (Some p2) s2
       /\ p1 <> p2
       /\ k_inodes s2 !! p1 = Some i1 /\ k_inodes s2 !! p2 = Some i2
       /\ i_ino i1 <> i_ino i2.
Proof.
  assert (H1 : is_Some (k_sbs (sample_state [true; true]) !! 0%nat))
    by (vm_compute; eauto).
  assert (H2 : shared_last_ino (k_last_ino (sample_state [true; true]))
               mod LAST_INO_BATCH = 0) by reflexivity.
  split; [exact H1|]. split; [exact H2|].
  destruct (tagfs_get_inode_numbers (sample_state [true; true]) 0%nat
              (Some 0%nat) (oct 100644) 0 (oct 40755) 0 0%nat H1)
    as (p1 & s1 & p2 & s2 & i1 & i2 & R1 & R2 & Hp & L1 & L2 & _ & _ & Hne).
  - intros d [= <-]. vm_compute. eauto.
  - reflexivity.
  - reflexivity.
  - exact H2.
  - vm_compute. split; discriminate.
  - exists p1, s1, p2, s2, i1, i2. auto 10.
Defined.

(** Why the CPU matters: when two CPUs stand at the same place of the
    same batch, which takes a wrap of the shared counter, a task that
    moves from one to the other gets the same inode number twice. *)
Example tagfs_get_inode_number_repeats_across_cpus :
  let s := with_last_ino {| last_ino := {[ 0%nat := 5; 1%nat := 5 ]};
                            shared_last_ino := 2 * LAST_INO_BATCH |}
             (sample_state [true; true]) in
  exists p1 s1 p2 s2 i1 i2,
    tagfs_get_inode 0%nat (Some 0%nat) (oct 100644) 0 s = Ret (Some p1) s1
    /\ tagfs_get_inode 0%nat (Some 0%nat) (oct 100644) 0 (with_cpu 1 s1)
       = Ret (Some p2) s2
    /\ p1 <> p2
    /\ k_inodes s2 !! p1 = Some i1 /\ k_inodes s2 !! p2 = Some i2
    /\ i_ino i1 = 6 /\ i_ino i2 = 6.
Proof.
  cbv zeta. eexists _, _, _, _, _, _.
  split; [vm_compute; reflexivity|].
  split; [vm_compute; reflexivity|].
  split; [discriminate|].
  split; [vm_compute; reflexivity|].
  split; [vm_compute; reflexivity|].
  split; reflexivity.
Qed.

(** What a node is fitted with depends on its kind alone: operation
    tables by file type, the device number for character and block
    devices only, and a page cache on [ram_aops] that is never evicted
    and, for a symbolic link, kept out of high memory. *)
Theorem tagfs_get_inode_kind s sb dir m dev :
  is_Some (k_sbs s !! sb) ->
  (forall d, dir = Some d -> is_Some (k_inodes s !! d)) ->
  hd false (k_alloc s) = true ->
  exists p s' i,
    tagfs_get_inode sb dir m dev s = Ret (Some p) s'
    /\ k_inodes s' !! p = Some i
    /\ i_rdev i = (if S_ISCHR m || S_ISBLK m then dev else 0)
    /\ (S_ISREG m = true ->
        i_op i = tagfs_file_inode_operations /\ i_fop i = tagfs_file_operations)
    /\ (S_ISDIR m = true ->
        i_op i = tagfs_dir_inode_operations /\ i_fop i = simple_dir_operations)
    /\ (S_ISLNK m = true -> i_op i = page_symlink_inode_operations)
    /\ (S_ISCHR m = true -> i_fop i = def_chr_fops)
    /\ (S_ISBLK m = true -> i_fop i = def_blk_fops)
    /\ (S_ISFIFO m = true -> i_fop i = pipefifo_fops)
    /\ (S_ISREG m || S_ISDIR m || S_ISLNK m = false -> i_op i = empty_iops)
    /\ (S_ISREG m || S_ISDIR m || S_ISCHR m || S_ISBLK m || S_ISFIFO m = false ->
        i_fop i = no_open_fops)
    /\ a_ops (i_mapping i) = ram_aops
    /\ as_unevictable (i_mapping i) = true
    /\ gfp_mask (i_mapping i) = (if S_ISLNK m then GFP_USER else GFP_HIGHUSER).
Proof.
  intros Hsb Hdir Hal. eexists _, _, _.
  split; [apply tagfs_get_inode_run; assumption|].
  ksimpl. split; [reflexivity|].
  unfold new_node, S_ISREG, S_ISDIR, S_ISLNK, S_ISCHR, S_ISBLK, S_ISFIFO.
  cbn [i_rdev i_op i_fop i_mapping a_ops as_unevictable gfp_mask].
  split; [reflexivity|].
  repeat split; try reflexivity.
  all: intros;
    repeat match goal with
      | H : (_ || _) = false |- _ => apply orb_false_elim in H as [? ?]
      | H : (Z.land _ S_IFMT =? _) = true |- _ => apply Z.eqb_eq in H; rewrite H
      | H : (_ =? _) = false |- _ => rewrite H; clear H
      end; reflexivity.
Qed.

(** A character device node on the sample volume. *)
Lemma tagfs_get_inode_kind_witness :
  is_Some (k_sbs (sample_state [true]) !! 0%nat)
  /\ exists p s' i,
       tagfs_get_inode 0%nat (Some 0%nat) (oct 20600) 259 (sample_state [true])
       = Ret (Some p) s'
       /\ k_inodes s' !! p = Some i
       /\ i_rdev i = 259 /\ i_fop i = def_chr_fops.
Proof.
  assert (H1 : is_Some (k_sbs (sample_state [true]) !! 0%nat))
    by (vm_compute; eauto).
  split; [exact H1|].
  destruct (tagfs_get_inode_kind (sample_state [true]) 0%nat (Some 0%nat)
              (oct 20600) 259 H1)
    as (p & s' & i & Hrun & Hi & Hrdev & _ & _ & _ & Hchr & _).
  - intros d [= <-]. vm_compute. eauto.
  - reflexivity.
  - exists p, s', i. split; [exact Hrun|]. split; [exact Hi|].
    split; [exact Hrdev | exact (Hchr eq_refl)].
Defined.

(** A failed allocation costs nothing: [tagfs_get_inode] returns NULL, no
    inode number is used up and no object changes. *)
Theorem tagfs_get_inode_failure_is_clean s sb dir m dev :
  is_Some (k_sbs s !! sb) ->
  hd false (k_alloc s) = false ->
  exists s',
    tagfs_get_inode sb dir m dev s = Ret None s'
    /\ k_last_ino s' = k_last_ino s
    /\ k_inodes s' = k_inodes s /\ k_dentries s' = k_dentries s
    /\ k_sbs s' = k_sbs s /\ k_fsi s' = k_fsi s /\ k_trace s' = k_trace s.
Proof.
  intros Hsb Hal. eexists. split; [apply tagfs_get_inode_fail_run; assumption|].
  repeat split.
Qed.

(** The sample volume out of memory. *)
Lemma tagfs_get_inode_failure_is_clean_witness :
  is_Some (k_sbs (sample_state [false]) !! 0%nat)
  /\ exists s',
       tagfs_get_inode 0%nat (Some 0%nat) (oct 100644) 0 (sample_state [false])
       = Ret None s'
       /\ k_last_ino s' = k_last_ino (sample_state [false]).
Proof.
  assert (H1 : is_Some (k_sbs (sample_state [false]) !! 0%nat))
    by (vm_compute; eauto).
  split; [exact H1|].
  destruct (tagfs_get_inode_failure_is_clean (sample_state [false]) 0%nat
              (Some 0%nat) (oct 100644) 0 H1 eq_refl)
    as (s' & Hrun & Hl & _).
  exists s'. split; [exact Hrun | exact Hl].
Defined.

(** ** More on directory operations *)

Lemma wp_tagfs_mknod_node s dir dentry m dev (Q : Z -> kstate -> Prop) di de :
  k_inodes s !! dir = Some di ->
  is_Some (k_sbs s !! i_sb di) ->
  k_dentries s !! dentry = Some de ->
  d_inode de = None ->
  hd false (k_alloc s) = true ->
  Q 0 (mknod_post s dir dentry di de m dev) ->
  wp (tagfs_mknod dir dentry m dev) Q s.
Proof.
  intros Hdi Hsb Hde Hneg Hal HQ.
  pose proof (fresh_inode_ne _ _ _ Hdi) as Hne.
  unfold tagfs_mknod. ksteps.
  apply wp_tagfs_get_inode_node;
    [assumption | intros ? [= <-]; eauto | assumption |].
  unfold d_instantiate, dget, current_time. ksteps. rewrite Hneg. ksteps.
  exact HQ.
Qed.

Lemma tagfs_mknod_run s dir dentry m dev di de :
  k_inodes s !! dir = Some di ->
  is_Some (k_sbs s !! i_sb di) ->
  k_dentries s !! dentry = Some de ->
  d_inode de = None ->
  hd false (k_alloc s) = true ->
  tagfs_mknod dir dentry m dev s = Ret 0 (mknod_post s dir dentry di de m dev).
Proof.
  intros. apply wp_run. eapply wp_tagfs_mknod_node; eauto.
Qed.

Lemma owner_mode_nondir s dir m : S_ISDIR m = false -> owner_mode s dir m = m.
Proof.
  intros H. unfold owner_mode. rewrite H.
  destruct dir as [d|]; [|reflexivity].
  destruct (k_inodes s !! d); [|reflexivity].
  destruct (_ =? 0); reflexivity.
Qed.

(** What a successful [tagfs_mknod] does besides allocating the node: the
    entry is bound to the node and pinned by one extra reference; the
    parent directory gets the current time as its modification and change
    times, while its access time, link count and mode stay; no other
    inode, no other entry, no super block and no mount record changes. *)
Theorem tagfs_mknod_pins_entry_and_stamps_parent s dir dentry m dev di de :
  k_inodes s !! dir = Some di ->
  is_Some (k_sbs s !! i_sb di) ->
  k_dentries s !! dentry = Some de ->
  d_inode de = None ->
  hd false (k_alloc s) = true ->
  exists s' p di' de',
    tagfs_mknod dir dentry m dev s = Ret 0 s'
    /\ k_inodes s !! p = None /\ is_Some (k_inodes s' !! p)
    /\ k_dentries s' !! dentry = Some de'
    /\ d_inode de' = Some p /\ d_count de' = d_count de + 1
    /\ d_name de' = d_name de /\ d_parent de' = d_parent de
    /\ k_inodes s' !! dir = Some di'
    /\ i_mtime di' = k_time s /\ i_ctime di' = k_time s
    /\ i_atime di' = i_atime di /\ i_nlink di' = i_nlink di
    /\ i_mode di' = i_mode di
    /\ (forall k, k <> dir -> k <> p -> k_inodes s' !! k = k_inodes s !! k)
    /\ (forall k, k <> dentry -> k_dentries s' !! k = k_dentries s !! k)
    /\ k_sbs s' = k_sbs s /\ k_fsi s' = k_fsi s /\ k_trace s' = k_trace s.
Proof.
  intros Hdi Hsb Hde Hneg Hal.
  pose proof (fresh_inode_ne _ _ _ Hdi) as Hne.
  eexists _, (fresh (dom (k_inodes s))), _, _.
  split; [eapply tagfs_mknod_run; eauto|].
  unfold mknod_post. ksimpl.
  split; [apply fresh_inode_dead|]. split; [eauto|].
  do 11 (split; [reflexivity|]).
  split; [intros k H1 H2; rewrite !lookup_insert_ne by congruence; reflexivity|].
  split; [intros k H1; rewrite lookup_insert_ne by congruence; reflexivity|].
  auto.
Qed.

(** [mknod /x] on the sample volume: the entry had one reference. *)
Lemma tagfs_mknod_pins_entry_and_stamps_parent_witness :
  k_inodes (sample_state [true]) !! 0%nat = Some sample_root_inode
  /\ is_Some (k_sbs (sample_state [true]) !! i_sb sample_root_inode)
  /\ exists s' de' di',
       tagfs_mknod 0%nat 1%nat (oct 10644) 0 (sample_state [true]) = Ret 0 s'
       /\ k_dentries s' !! 1%nat = Some de' /\ d_count de' = 2
       /\ k_inodes s' !! 0%nat = Some di' /\ i_nlink di' = 2.
Proof.
  assert (H1 : k_inodes (sample_state [true]) !! 0%nat = Some sample_root_inode)
    by (vm_compute; reflexivity).
  assert (H2 : is_Some (k_sbs (sample_state [true]) !! i_sb sample_root_inode))
    by (vm_compute; eauto).
  split; [exact H1|]. split; [exact H2|].
  destruct (tagfs_mknod_pins_entry_and_stamps_parent (sample_state [true])
              0%nat 1%nat (oct 10644) 0 sample_root_inode
              {| d_name := "x"; d_parent := Some 0%nat; d_inode := None;
                 d_count := 1; d_sb := 0%nat |} H1 H2 eq_refl eq_refl eq_refl)
    as (s' & p & di' & de' & Hrun & _ & _ & Hde & _ & Hc & _ & _ & Hdi & _ & _
        & _ & Hn & _).
  exists s', de', di'. auto 10.
Defined.

(** When the node cannot be allocated, [tagfs_mknod], [tagfs_mkdir] and
    [tagfs_symlink] all return [-ENOSPC], and nothing has changed but
    that one allocation was attempted: no inode number is used, the entry
    is not pinned, the parent keeps its times and its link count, and no
    target is stored. *)
Theorem tagfs_directory_ops_enospc s dir dentry m dev symname di :
  k_inodes s !! dir = Some di ->
  is_Some (k_sbs s !! i_sb di) ->
  hd false (k_alloc s) = false ->
  tagfs_mknod dir dentry m dev s = Ret (- ENOSPC) (with_alloc (tl (k_alloc s)) s)
  /\ tagfs_mkdir dir dentry m s = Ret (- ENOSPC) (with_alloc (tl (k_alloc s)) s)
  /\ tagfs_symlink dir dentry symname s
     = Ret (- ENOSPC) (with_alloc (tl (k_alloc s)) s).
Proof.
  intros Hdi Hsb Hal.
  assert (Hmk : forall m dev, tagfs_mknod dir dentry m dev s
                 = Ret (- ENOSPC) (with_alloc (tl (k_alloc s)) s)).
  { intros. apply wp_run. eapply wp_tagfs_mknod_fail; eauto. }
  split; [apply Hmk|]. split.
  - unfold tagfs_mkdir, bind. rewrite Hmk. reflexivity.
  - apply wp_run. unfold tagfs_symlink. ksteps.
    apply wp_tagfs_get_inode_fail; [assumption..|]. ksteps. auto.
Qed.

(** The sample volume with no memory left. *)
Lemma tagfs_directory_ops_enospc_witness :
  k_inodes (sample_state []) !! 0%nat = Some sample_root_inode
  /\ is_Some (k_sbs (sample_state []) !! i_sb sample_root_inode)
  /\ tagfs_mkdir 0%nat 1%nat (oct 755) (sample_state [])
     = Ret (- ENOSPC) (sample_state [])
  /\ tagfs_symlink 0%nat 1%nat "target" (sample_state [])
     = Ret (- ENOSPC) (sample_state []).
Proof.
  assert (H1 : k_inodes (sample_state []) !! 0%nat = Some sample_root_inode)
    by (vm_compute; reflexivity).
  assert (H2 : is_Some (k_sbs (sample_state []) !! i_sb sample_root_inode))
    by (vm_compute; eauto).
  split; [exact H1|]. split; [exact H2|].
  destruct (tagfs_directory_ops_enospc (sample_state []) 0%nat 1%nat (oct 755)
              0 "target" sample_root_inode H1 H2 eq_refl) as (_ & Hd & Hs).
  split; [exact Hd | exact Hs].
Defined.

(** The directory [tagfs_mkdir] makes, for a mode without file-type bits
    (the VFS passes permission bits): a directory with link count 2 and
    the directory operations, whose mode is the given one, plus
    set-group-id if the parent has it; the new directory is empty. *)
Theorem tagfs_mkdir_new_directory s dir dentry m di de :
  k_inodes s !! dir = Some di ->
  is_Some (k_sbs s !! i_sb di) ->
  k_dentries s !! dentry = Some de ->
  d_inode de = None ->
  hd false (k_alloc s) = true ->
  Z.land m S_IFMT = 0 ->
  (forall k c, k_dentries s !! k = Some c -> d_parent c <> Some dentry) ->
  exists s' p i de',
    tagfs_mkdir dir dentry m s = Ret 0 s'
    /\ k_dentries s' !! dentry = Some de' /\ d_inode de' = Some p
    /\ k_inodes s' !! p = Some i
    /\ S_ISDIR (i_mode i) = true
    /\ i_nlink i = 2
    /\ i_mode i = Z.lor (Z.lor m S_IFDIR)
                    (if Z.land (i_mode di) S_ISGID =? 0 then 0 else S_ISGID)
    /\ i_op i = tagfs_dir_inode_operations
    /\ i_fop i = simple_dir_operations
    /\ simple_empty dentry s' = Ret true s'.
Proof.
  intros Hdi Hsb Hde Hneg Hal Hm Hch.
  pose proof (fresh_inode_ne _ _ _ Hdi) as Hne.
  assert (Hfmt : Z.land (Z.lor m S_IFDIR) S_IFMT = S_IFDIR).
  { rewrite Z.land_lor_distr_l, Hm. reflexivity. }
  set (s1 := mknod_post s dir dentry di de (Z.lor m S_IFDIR) 0).
  assert (Hrun : tagfs_mkdir dir dentry m s
                 = Ret 0 (with_inodes
                            (<[dir := set_i_nlink (wrap32 (i_nlink di + 1))
                                 (set_i_mtime (k_time s)
                                    (set_i_ctime (k_time s) di))]>
                               (k_inodes s1)) s1)).
  { apply wp_run. unfold tagfs_mkdir. kstep.
    eapply wp_tagfs_mknod_node; eauto.
    change (0 =? 0) with true. cbv iota. unfold inc_nlink.
    fold s1. eapply wp_bind, wp_update_inode;
      [subst s1; unfold mknod_post; klookup|].
    ksteps. split; reflexivity. }
  eexists _, (fresh (dom (k_inodes s))), _, _.
  split; [exact Hrun|].
  subst s1. unfold mknod_post. ksimpl.
  split; [reflexivity|]. split; [reflexivity|]. split; [reflexivity|].
  unfold new_node, owner_mode. cbn [i_mode i_nlink i_op i_fop].
  rewrite Hdi, Hfmt. unfold S_ISDIR. rewrite Hfmt.
  change (S_IFDIR =? S_IFDIR) with true. change (S_IFDIR =? S_IFREG) with false.
  cbv iota.
  split.
  { destruct (_ =? 0); [exact (proj2 (Z.eqb_eq _ _) Hfmt)|].
    rewrite ifmt_lor_isgid. exact (proj2 (Z.eqb_eq _ _) Hfmt). }
  split; [reflexivity|].
  split; [destruct (_ =? 0); [rewrite Z.lor_0_r|]; reflexivity|].
  split; [reflexivity|]. split; [reflexivity|].
  apply wp_run. apply wp_simple_empty.
  - ksimpl. eauto.
  - ksimpl. intros k c Hk Hp. exfalso.
    destruct (decide (k = dentry)) as [-> | Hkd].
    + rewrite lookup_insert_eq in Hk. injection Hk as <-.
      cbn [d_parent set_d_count set_d_inode] in Hp.
      exact (Hch _ _ Hde Hp).
    + rewrite lookup_insert_ne in Hk by congruence. exact (Hch _ _ Hk Hp).
  - split; reflexivity.
Qed.

(** [mkdir /x] with mode 0750 on the sample volume. *)
Lemma tagfs_mkdir_new_directory_witness :
  k_inodes (sample_state [true]) !! 0%nat = Some sample_root_inode
  /\ is_Some (k_sbs (sample_state [true]) !! i_sb sample_root_inode)
  /\ Z.land (oct 750) S_IFMT = 0
  /\ exists s' p i,
       tagfs_mkdir 0%nat 1%nat (oct 750) (sample_state [true]) = Ret 0 s'
       /\ k_inodes s' !! p = Some i
       /\ i_mode i = oct 40750 /\ i_nlink i = 2
       /\ simple_empty 1%nat s' = Ret true s'.
Proof.
  assert (H1 : k_inodes (sample_state [true]) !! 0%nat = Some sample_root_inode)
    by (vm_compute; reflexivity).
  assert (H2 : is_Some (k_sbs (sample_state [true]) !! i_sb sample_root_inode))
    by (vm_compute; eauto).
  assert (H3 : Z.land (oct 750) S_IFMT = 0) by reflexivity.
  assert (HF : map_Forall (fun _ c => d_parent c <> Some 1%nat)
                 (k_dentries (sample_state [true])))
    by (refine (proj1 (bool_decide_spec _) _); vm_compute; exact I).
  split; [exact H1|]. split; [exact H2|]. split; [exact H3|].
  destruct (tagfs_mkdir_new_directory (sample_state [true]) 0%nat 1%nat
              (oct 750) sample_root_inode
              {| d_name := "x"; d_parent := Some 0%nat; d_inode := None;
                 d_count := 1; d_sb := 0%nat |}
              H1 H2 eq_refl eq_refl eq_refl H3 HF)
    as (s' & p & i & de' & Hrun & _ & _ & Hi & _ & Hn & Hm & _ & _ & He).
  exists s', p, i. auto 10.
Defined.

(** The node [tagfs_symlink] makes: its mode is [S_IFLNK | 0777] whatever
    the parent directory is like, it has one link and the symbolic-link
    operations, and its page holds the target; the parent directory gets
    new modification and change times and keeps its link count; the entry
    is pinned by one extra reference. *)
Theorem tagfs_symlink_node s dir dentry symname di de :
  k_inodes s !! dir = Some di ->
  is_Some (k_sbs s !! i_sb di) ->
  k_dentries s !! dentry = Some de ->
  d_inode de = None ->
  strlen symname < PAGE_SIZE ->
  hd false (k_alloc s) = true ->
  hd false (tl (k_alloc s)) = true ->
  exists s' p i di' de',
    tagfs_symlink dir dentry symname s = Ret 0 s'
    /\ k_dentries s' !! dentry = Some de'
    /\ d_inode de' = Some p /\ d_count de' = d_count de + 1
    /\ k_inodes s' !! p = Some i
    /\ i_mode i = Z.lor S_IFLNK S_IRWXUGO
    /\ i_nlink i = 1
    /\ i_op i = page_symlink_inode_operations
    /\ gfp_mask (i_mapping i) = GFP_USER
    /\ page0 (i_mapping i) = Some symname
    /\ k_inodes s' !! dir = Some di'
    /\ i_nlink di' = i_nlink di
    /\ i_mtime di' = k_time s /\ i_ctime di' = k_time s.
Proof.
  intros Hdi Hsb Hde Hneg Hlen Hal Hal2.
  pose proof (fresh_inode_ne _ _ _ Hdi) as Hne.
  enough (W : exists s', tagfs_symlink dir dentry symname s = Ret 0 s'
                         /\ exists p i di' de', _)
    by (destruct W as (s' & R & p & i & di' & de' & W);
        exists s', p, i, di', de'; split; [exact R | exact W]).
  apply wp_elim_val with (P := fun s' => exists p i di' de',
       k_dentries s' !! dentry = Some de'
    /\ d_inode de' = Some p /\ d_count de' = d_count de + 1
    /\ k_inodes s' !! p = Some i
    /\ i_mode i = Z.lor S_IFLNK S_IRWXUGO
    /\ i_nlink i = 1
    /\ i_op i = page_symlink_inode_operations
    /\ gfp_mask (i_mapping i) = GFP_USER
    /\ page0 (i_mapping i) = Some symname
    /\ k_inodes s' !! dir = Some di'
    /\ i_nlink di' = i_nlink di
    /\ i_mtime di' = k_time s /\ i_ctime di' = k_time s).
  unfold tagfs_symlink. ksteps.
  apply wp_tagfs_get_inode_node;
    [assumption | intros ? [= <-]; eauto | assumption |].
  rewrite (to_int_strlen _ Hlen).
  unfold page_symlink. ksteps. rewrite (symlink_fits_page _ Hlen). ksteps.
  rewrite Hal2. ksteps. change (0 =? 0) with true. cbv iota.
  unfold d_instantiate, dget, current_time. ksteps. rewrite Hneg. ksteps.
  split; [reflexivity|].
  eexists (fresh (dom (k_inodes s))), _, _, _. ksimpl.
  do 4 (split; [reflexivity|]).
  split; [apply owner_mode_nondir; reflexivity|].
  do 3 (split; [reflexivity|]).
  split; [rewrite strlen_bytes, substring_all; reflexivity|].
  repeat split.
Qed.

(** [symlink /x -> target] on the sample volume. *)
Lemma tagfs_symlink_node_witness :
  k_inodes (sample_state [true; true]) !! 0%nat = Some sample_root_inode
  /\ is_Some (k_sbs (sample_state [true; true]) !! i_sb sample_root_inode)
  /\ strlen "target" < PAGE_SIZE
  /\ exists s' p i,
       tagfs_symlink 0%nat 1%nat "target" (sample_state [true; true]) = Ret 0 s'
       /\ k_inodes s' !! p = Some i
       /\ i_mode i = oct 120777
       /\ page0 (i_mapping i) = Some "target".
Proof.
  assert (H1 : k_inodes (sample_state [true; true]) !! 0%nat
               = Some sample_root_inode) by (vm_compute; reflexivity).
  assert (H2 : is_Some (k_sbs (sample_state [true; true])
                          !! i_sb sample_root_inode)) by (vm_compute; eauto).
  assert (H3 : strlen "target" < PAGE_SIZE) by reflexivity.
  split; [exact H1|]. split; [exact H2|]. split; [exact H3|].
  destruct (tagfs_symlink_node (sample_state [true; true]) 0%nat 1%nat "target"
              sample_root_inode
              {| d_name := "x"; d_parent := Some 0%nat; d_inode := None;
                 d_count := 1; d_sb := 0%nat |}
              H1 H2 eq_refl eq_refl H3 eq_refl eq_refl)
    as (s' & p & i & di' & de' & Hrun & _ & _ & _ & Hi & Hm & _ & _ & _ & Hp & _).
  exists s', p, i. auto 10.
Defined.

(** A directory entry with a positive child is not empty. *)
Lemma wp_simple_empty_child s e (Q : bool -> kstate -> Prop) k c :
  is_Some (k_dentries s !! e) ->
  k_dentries s !! k = Some c ->
  d_parent c = Some e ->
  is_Some (d_inode c) ->
  Q false s ->
  wp (simple_empty e) Q s.
Proof.
  intros [d Hd] Hk Hp Hi HQ. unfold simple_empty. ksteps.
  match goal with |- Q ?b s => replace b with false; [exact HQ|] end.
  symmetry. apply not_true_is_false. intros Hall.
  rewrite forallb_forall in Hall.
  specialize (Hall (k, c)).
  rewrite <- list_elem_of_In, elem_of_map_to_list in Hall.
  specialize (Hall Hk). cbn in Hall.
  rewrite !bool_decide_eq_true_2 in Hall by assumption. discriminate.
Qed.

(** Creation and removal fit together: [simple_unlink], which tagfs
    installs as [.unlink], drops exactly the reference by which
    [tagfs_create] pinned the entry, takes the file's link count from 1
    to 0, and leaves the parent's link count as it was before the
    creation. *)
Theorem tagfs_create_then_unlink s dir dentry m excl di de :
  k_inodes s !! dir = Some di ->
  is_Some (k_sbs s !! i_sb di) ->
  k_dentries s !! dentry = Some de ->
  d_inode de = None ->
  d_count de <> 0 ->
  hd false (k_alloc s) = true ->
  Z.land m S_IFMT = 0 \/ Z.land m S_IFMT = S_IFREG ->
  exists s1 s2 p i1 i2 di2 de2,
    tagfs_create dir dentry m excl s = Ret 0 s1
    /\ k_inodes s1 !! p = Some i1 /\ i_nlink i1 = 1
    /\ simple_unlink dir dentry s1 = Ret 0 s2
    /\ k_inodes s2 !! p = Some i2 /\ i_nlink i2 = 0
    /\ k_dentries s2 !! dentry = Some de2
    /\ d_inode de2 = Some p /\ d_count de2 = d_count de
    /\ k_inodes s2 !! dir = Some di2 /\ i_nlink di2 = i_nlink di.
Proof.
  intros Hdi Hsb Hde Hneg Hcnt Hal Hty.
  pose proof (fresh_inode_ne _ _ _ Hdi) as Hne.
  assert (Hreg : Z.land (Z.lor m S_IFREG) S_IFMT = S_IFREG).
  { rewrite Z.land_lor_distr_l. destruct Hty as [-> | ->]; reflexivity. }
  set (p := fresh (dom (k_inodes s))) in *.
  set (s1 := mknod_post s dir dentry di de (Z.lor m S_IFREG) 0).
  assert (R1 : tagfs_create dir dentry m excl s = Ret 0 s1)
    by (unfold tagfs_create; eapply tagfs_mknod_run; eauto).
  assert (Hn1 : i_nlink (new_node s (i_sb di) (Some dir) (Z.lor m S_IFREG) 0) = 1).
  { unfold new_node. cbn [i_nlink]. rewrite Hreg. reflexivity. }
  enough (W : exists s2, simple_unlink dir dentry s1 = Ret 0 s2
                /\ exists i2 di2 de2,
                     k_inodes s2 !! p = Some i2 /\ i_nlink i2 = 0
                     /\ k_dentries s2 !! dentry = Some de2
                     /\ d_inode de2 = Some p /\ d_count de2 = d_count de
                     /\ k_inodes s2 !! dir = Some di2
                     /\ i_nlink di2 = i_nlink di).
  { destruct W as (s2 & R2 & i2 & di2 & de2 & W).
    exists s1, s2, p, (new_node s (i_sb di) (Some dir) (Z.lor m S_IFREG) 0),
      i2, di2, de2.
    split; [exact R1|].
    split; [subst s1; unfold mknod_post; fold p; klookup|].
    split; [exact Hn1|]. split; [exact R2 | exact W]. }
  apply wp_elim_val.
  subst s1. unfold mknod_post. fold p.
  unfold simple_unlink, deref_d_inode, current_time, drop_nlink.
  ksteps.
  eapply wp_dput_keep; [klookup | ksimpl; lia |]. ksteps.
  split; [reflexivity|].
  eexists _, _, _. ksimpl.
  split; [reflexivity|]. split; [rewrite Hn1; reflexivity|].
  split; [reflexivity|]. split; [reflexivity|]. split; [cbn [d_count set_d_count]; lia|].
  split; reflexivity.
Qed.

(** [create /x] then [unlink /x] on the sample volume. *)
Lemma tagfs_create_then_unlink_witness :
  k_inodes (sample_state [true]) !! 0%nat = Some sample_root_inode
  /\ is_Some (k_sbs (sample_state [true]) !! i_sb sample_root_inode)
  /\ exists s1 s2 p i2 di2,
       tagfs_create 0%nat 1%nat (oct 644) false (sample_state [true]) = Ret 0 s1
       /\ simple_unlink 0%nat 1%nat s1 = Ret 0 s2
       /\ k_inodes s2 !! p = Some i2 /\ i_nlink i2 = 0
       /\ k_inodes s2 !! 0%nat = Some di2 /\ i_nlink di2 = 2.
Proof.
  assert (H1 : k_inodes (sample_state [true]) !! 0%nat = Some sample_root_inode)
    by (vm_compute; reflexivity).
  assert (H2 : is_Some (k_sbs (sample_state [true]) !! i_sb sample_root_inode))
    by (vm_compute; eauto).
  split; [exact H1|]. split; [exact H2|].
  destruct (tagfs_create_then_unlink (sample_state [true]) 0%nat 1%nat
              (oct 644) false sample_root_inode
              {| d_name := "x"; d_parent := Some 0%nat; d_inode := None;
                 d_count := 1; d_sb := 0%nat |}
              H1 H2 eq_refl eq_refl)
    as (s1 & s2 & p & i1 & i2 & di2 & de2 & R1 & _ & _ & R2 & Hi2 & Hn2 & _ & _
        & _ & Hdi & Hnd).
  - discriminate.
  - reflexivity.
  - left. reflexivity.
  - exists s1, s2, p, i2, di2. auto 10.
Defined.

(** Once a node has been made inside a directory, [simple_rmdir], which
    tagfs installs as [.rmdir], refuses to remove that directory: it
    returns [-ENOTEMPTY] and changes nothing. *)
Theorem tagfs_mknod_makes_rmdir_enotempty s e de p ip c dc m dev parent :
  k_dentries s !! e = Some de ->
  d_inode de = Some p ->
  k_inodes s !! p = Some ip ->
  is_Some (k_sbs s !! i_sb ip) ->
  k_dentries s !! c = Some dc ->
  d_inode dc = None ->
  d_parent dc = Some e ->
  hd false (k_alloc s) = true ->
  exists s1,
    tagfs_mknod p c m dev s = Ret 0 s1
    /\ simple_rmdir parent e s1 = Ret (- ENOTEMPTY) s1.
Proof.
  intros He Hp Hip Hsb Hc Hneg Hpar Hal.
  assert (Hce : c <> e) by (intros ->; congruence).
  eexists. split; [eapply tagfs_mknod_run; eauto|].
  apply wp_run. unfold simple_rmdir. kstep.
  eapply (wp_simple_empty_child _ e _ c).
  - unfold mknod_post. ksimpl. eauto.
  - unfold mknod_post. klookup.
  - ksimpl. cbn [d_parent set_d_count set_d_inode]. exact Hpar.
  - ksimpl. eauto.
  - ksteps. split; reflexivity.
Qed.

(** Once [/x] exists, the root of the sample volume cannot be removed. *)
Lemma tagfs_mknod_makes_rmdir_enotempty_witness :
  k_inodes (sample_state [true]) !! 0%nat = Some sample_root_inode
  /\ is_Some (k_sbs (sample_state [true]) !! i_sb sample_root_inode)
  /\ exists s1,
       tagfs_mknod 0%nat 1%nat (oct 100644) 0 (sample_state [true]) = Ret 0 s1
       /\ simple_rmdir 0%nat 0%nat s1 = Ret (- ENOTEMPTY) s1.
Proof.
  assert (H1 : k_inodes (sample_state [true]) !! 0%nat = Some sample_root_inode)
    by (vm_compute; reflexivity).
  assert (H2 : is_Some (k_sbs (sample_state [true]) !! i_sb sample_root_inode))
    by (vm_compute; eauto).
  split; [exact H1|]. split; [exact H2|].
  exact (tagfs_mknod_makes_rmdir_enotempty (sample_state [true]) 0%nat
           {| d_name := "/"; d_parent := None; d_inode := Some 0%nat;
              d_count := 2; d_sb := 0%nat |}
           0%nat sample_root_inode 1%nat
           {| d_name := "x"; d_parent := Some 0%nat; d_inode := None;
              d_count := 1; d_sb := 0%nat |}
           (oct 100644) 0 0%nat eq_refl eq_refl H1 H2 eq_refl eq_refl eq_refl
           eq_refl).
Defined.

(** ** More on mount options *)

(** A [mode] option without a usable value is refused: whether it came as
    a flag, as something that is not a string, or as a string that
    [kstrtouint] does not read as an octal [unsigned int], the result is
    [-EINVAL] and neither the store nor the context changes (the record
    is not even looked at). *)
Theorem tagfs_parse_param_mode_rejected s fc v :
  (forall str, v = fs_value_is_string str ->
               exists e, kstrtouint str 8 = inl e) ->
  tagfs_parse_param fc {| key := "mode"; value := v |} s
  = Ret (- EINVAL, fc) s.
Proof.
  intros Hv. unfold tagfs_parse_param.
  assert (E : fs_parse tagfs_fs_parameters {| key := "mode"; value := v |}
              = (- EINVAL, 0)).
  { destruct v as [|str| | |]; try reflexivity.
    destruct (Hv str eq_refl) as [e He]. cbn. rewrite He. reflexivity. }
  rewrite E. reflexivity.
Qed.

(** [mode=8] and [mode=40000000000] (2^32 in octal) are refused. *)
Lemma tagfs_parse_param_mode_rejected_witness :
  (exists e, kstrtouint "8" 8 = inl e)
  /\ (exists e, kstrtouint "40000000000" 8 = inl e)
  /\ tagfs_parse_param fc_with_source
       {| key := "mode"; value := fs_value_is_string "8" |} (sample_state [])
     = Ret (- EINVAL, fc_with_source) (sample_state [])
  /\ tagfs_parse_param fc_with_source
       {| key := "mode"; value := fs_value_is_string "40000000000" |}
       (sample_state [])
     = Ret (- EINVAL, fc_with_source) (sample_state []).
Proof.
  assert (H1 : exists e, kstrtouint "8" 8 = inl e)
    by (eexists; vm_compute; reflexivity).
  assert (H2 : exists e, kstrtouint "40000000000" 8 = inl e)
    by (eexists; vm_compute; reflexivity).
  split; [exact H1|]. split; [exact H2|]. split.
  - apply (tagfs_parse_param_mode_rejected (sample_state []) fc_with_source
             (fs_value_is_string "8")).
    intros str [= <-]. exact H1.
  - apply (tagfs_parse_param_mode_rejected (sample_state []) fc_with_source
             (fs_value_is_string "40000000000")).
    intros str [= <-]. exact H2.
Defined.

Lemma permission_bits_range f :
  permission_bits f -> 0 <= mode (mount_opts f) < 4096.
Proof.
  unfold permission_bits. intros H.
  change S_IALLUGO with (Z.ones 12) in H.
  rewrite Z.land_ones in H by lia. rewrite <- H.
  apply Z.mod_pos_bound. reflexivity.
Qed.

(** [%o] and [kstrtouint] in base 8 are inverse on permission bits. *)
Lemma kstrtouint_fmt_o v : 0 <= v < 4096 -> kstrtouint (fmt_o v) 8 = inr v.
Proof.
  intros Hv.
  assert (Hall : forallb
            (fun n => match kstrtouint (fmt_o (Z.of_nat n)) 8 with
                      | inr r => r =? Z.of_nat n
                      | inl _ => false
                      end) (seq 0 4096) = true) by (vm_compute; reflexivity).
  rewrite forallb_forall in Hall.
  specialize (Hall (Z.to_nat v)).
  rewrite Z2Nat.id in Hall by lia.
  assert (Hin : In (Z.to_nat v) (seq 0 4096)) by (apply in_seq; lia).
  specialize (Hall Hin).
  destruct (kstrtouint (fmt_o v) 8) as [e|r]; [discriminate|].
  apply Z.eqb_eq in Hall. congruence.
Qed.

(** Showing and parsing agree: the octal text that [tagfs_show_options]
    prints for the mode of a record, given back as a [mode] option, is
    accepted and leaves the record, and the whole store, as it is. *)
Theorem tagfs_mode_option_round_trip s fc q f :
  fc_s_fs_info fc = Some q ->
  k_fsi s !! q = Some f ->
  permission_bits f ->
  tagfs_parse_param fc
    {| key := "mode";
       value := fs_value_is_string (fmt_o (mode (mount_opts f))) |} s
  = Ret (0, fc) s.
Proof.
  intros Hq Hf Hp. unfold tagfs_parse_param.
  rewrite (fs_parse_mode _ _ (kstrtouint_fmt_o _ (permission_bits_range _ Hp))).
  change (Opt_mode =? - ENOPARAM) with false. cbv iota.
  change (Opt_mode <? 0) with false. change (Opt_mode =? Opt_mode) with true.
  cbv iota. rewrite Hq. apply wp_run. unfold deref_fsi. ksteps.
  split; [reflexivity|].
  rewrite Hp. destruct f as [mu [mo] bd dx]. cbn.
  apply with_fsi_id. exact Hf.
Qed.

(** The default mode of the sample volume prints as [755]. *)
Lemma tagfs_mode_option_round_trip_witness :
  fc_s_fs_info fc_with_source = Some 0%nat
  /\ k_fsi (sample_state []) !! 0%nat = Some sample_fsi
  /\ permission_bits sample_fsi
  /\ fmt_o (mode (mount_opts sample_fsi)) = "755"
  /\ tagfs_parse_param fc_with_source
       {| key := "mode"; value := fs_value_is_string "755" |} (sample_state [])
     = Ret (0, fc_with_source) (sample_state []).
Proof.
  assert (H1 : fc_s_fs_info fc_with_source = Some 0%nat) by reflexivity.
  assert (H2 : k_fsi (sample_state []) !! 0%nat = Some sample_fsi)
    by (vm_compute; reflexivity).
  assert (H3 : permission_bits sample_fsi) by reflexivity.
  repeat (split; [assumption|]). split; [reflexivity|].
  exact (tagfs_mode_option_round_trip (sample_state []) fc_with_source 0%nat
           sample_fsi H1 H2 H3).
Defined.

(** Of two [mode] options the later one wins outright: parsing the second
    after the first leaves the store that parsing the second alone would
    have left. *)
Theorem tagfs_parse_param_last_mode_wins s fc q f str1 v1 str2 v2 :
  fc_s_fs_info fc = Some q ->
  k_fsi s !! q = Some f ->
  kstrtouint str1 8 = inr v1 ->
  kstrtouint str2 8 = inr v2 ->
  exists s1 s2 f2,
    tagfs_parse_param fc {| key := "mode"; value := fs_value_is_string str1 |} s
    = Ret (0, fc) s1
    /\ tagfs_parse_param fc
         {| key := "mode"; value := fs_value_is_string str2 |} s1
       = Ret (0, fc) s2
    /\ tagfs_parse_param fc
         {| key := "mode"; value := fs_value_is_string str2 |} s
       = Ret (0, fc) s2
    /\ k_fsi s2 !! q = Some f2
    /\ mode (mount_opts f2) = Z.land v2 S_IALLUGO.
Proof.
  intros Hq Hf H1 H2.
  assert (Hrun : forall s0 f0 str v,
            k_fsi s0 !! q = Some f0 -> kstrtouint str 8 = inr v ->
            tagfs_parse_param fc
              {| key := "mode"; value := fs_value_is_string str |} s0
            = Ret (0, fc)
                (with_fsi
                   (<[q := set_mount_opts {| mode := Z.land v S_IALLUGO |} f0]>
                      (k_fsi s0)) s0)).
  { intros s0 f0 str v Hf0 Hv. unfold tagfs_parse_param.
    rewrite (fs_parse_mode _ _ Hv).
    change (Opt_mode =? - ENOPARAM) with false. cbv iota.
    change (Opt_mode <? 0) with false. change (Opt_mode =? Opt_mode) with true.
    cbv iota. rewrite Hq. apply wp_run. unfold deref_fsi. ksteps.
    split; reflexivity. }
  eexists _, _, _.
  split; [exact (Hrun s f str1 v1 Hf H1)|].
  split; [apply (Hrun _ (set_mount_opts {| mode := Z.land v1 S_IALLUGO |} f));
          [klookup | exact H2]|].
  split; [rewrite (Hrun s f str2 v2 Hf H2); ksimpl; reflexivity|].
  ksimpl. split; reflexivity.
Qed.

(** [mode=700,mode=750] on the sample volume. *)
Lemma tagfs_parse_param_last_mode_wins_witness :
  fc_s_fs_info fc_with_source = Some 0%nat
  /\ k_fsi (sample_state []) !! 0%nat = Some sample_fsi
  /\ kstrtouint "700" 8 = inr (oct 700)
  /\ kstrtouint "750" 8 = inr (oct 750)
  /\ exists s1 s2 f2,
       tagfs_parse_param fc_with_source
         {| key := "mode"; value := fs_value_is_string "700" |} (sample_state [])
       = Ret (0, fc_with_source) s1
       /\ tagfs_parse_param fc_with_source
            {| key := "mode"; value := fs_value_is_string "750" |} s1
          = Ret (0, fc_with_source) s2
       /\ k_fsi s2 !! 0%nat = Some f2
       /\ mode (mount_opts f2) = oct 750.
Proof.
  assert (H1 : fc_s_fs_info fc_with_source = Some 0%nat) by reflexivity.
  assert (H2 : k_fsi (sample_state []) !! 0%nat = Some sample_fsi)
    by (vm_compute; reflexivity).
  assert (H3 : kstrtouint "700" 8 = inr (oct 700)) by (vm_compute; reflexivity).
  assert (H4 : kstrtouint "750" 8 = inr (oct 750)) by (vm_compute; reflexivity).
  repeat (split; [assumption|]).
  destruct (tagfs_parse_param_last_mode_wins (sample_state []) fc_with_source
              0%nat sample_fsi "700" (oct 700) "750" (oct 750) H1 H2 H3 H4)
    as (s1 & s2 & f2 & R1 & R2 & _ & Hf2 & Hm).
  exists s1, s2, f2. auto.
Defined.

(** ** More on the volume lifecycle *)

(** [tagfs_init_fs_context] either fails with [-ENOMEM], leaving the
    context and the records alone, or hands the context a record that did
    not exist before, with an initialised mutex, the default mode and no
    devices, and installs the context operations; the source and the root
    of the context, and all other records, are untouched. *)
Theorem tagfs_init_fs_context_outcomes s fc :
  exists r fc' s',
    tagfs_init_fs_context fc s = Ret (r, fc') s'
    /\ (r = 0 <-> hd false (k_alloc s) = true)
    /\ (r = 0 ->
        exists q f,
          fc_s_fs_info fc' = Some q
          /\ k_fsi s !! q = None /\ k_fsi s' !! q = Some f
          /\ fsi_mutex f = true
          /\ mode (mount_opts f) = TAGFS_DEFAULT_MODE
          /\ bdevp f = None /\ dax_devp f = None
          /\ fc_ops fc' = true
          /\ fc_source fc' = fc_source fc /\ fc_root fc' = fc_root fc
          /\ (forall k, k <> q -> k_fsi s' !! k = k_fsi s !! k))
    /\ (r <> 0 -> r = - ENOMEM /\ fc' = fc /\ k_fsi s' = k_fsi s)
    /\ k_inodes s' = k_inodes s /\ k_dentries s' = k_dentries s
    /\ k_sbs s' = k_sbs s /\ k_trace s' = k_trace s.
Proof.
  destruct (hd false (k_alloc s)) eqn:Hal.
  - eexists 0, _, _. split.
    { apply wp_run. apply wp_tagfs_init_fs_context; [exact Hal|].
      split; reflexivity. }
    split; [tauto|]. split; [|split; [intros []; reflexivity | auto]].
    intros _. eexists _, _. ksimpl.
    split; [reflexivity|]. split; [apply fresh_fsi_dead|].
    do 8 (split; [reflexivity|]).
    intros k Hk. rewrite lookup_insert_ne by congruence. reflexivity.
  - eexists (- ENOMEM), _, _. split.
    { apply wp_run. apply wp_tagfs_init_fs_context_fail; [exact Hal|].
      split; reflexivity. }
    split; [split; discriminate|]. split; [discriminate|]. auto 10.
Qed.

Lemma new_node_with_sbs x s sb dir m dev :
  new_node (with_sbs x s) sb dir m dev = new_node s sb dir m dev.
Proof. reflexivity. Qed.

(** The three ways [tagfs_fill_super] can run. *)
Lemma wp_tagfs_fill_super_cases magic s sb fc b q f (Q : Z -> kstate -> Prop) :
  k_sbs s !! sb = Some b ->
  s_fs_info b = Some q ->
  k_fsi s !! q = Some f ->
  (hd false (k_alloc s) = true -> hd false (tl (k_alloc s)) = true ->
   Q 0 (fill_super_post magic s sb b f)) ->
  (hd false (k_alloc s) = true -> hd false (tl (k_alloc s)) = false ->
   Q (- ENOMEM)
     (with_sbs (<[sb := sb_filled magic b None]> (k_sbs s))
        (with_last_ino (next_counters s)
           (with_alloc (tl (tl (k_alloc s))) s)))) ->
  (hd false (k_alloc s) = false ->
   Q (- ENOMEM)
     (with_sbs (<[sb := sb_filled magic b None]> (k_sbs s))
        (with_alloc (tl (k_alloc s)) s))) ->
  wp (tagfs_fill_super magic sb fc) Q s.
Proof.
  intros Hb Hq Hf H1 H2 H3.
  unfold tagfs_fill_super. ksteps. rewrite Hq. unfold deref_fsi. ksteps.
  destruct (hd false (k_alloc s)) eqn:Hal.
  - apply wp_tagfs_get_inode_node; ksimpl; [eauto | discriminate | assumption |].
    rewrite new_node_with_sbs.
    unfold d_make_root. ksteps.
    destruct (hd false (tl (k_alloc s))) eqn:Hal2.
    + ksteps. unfold d_instantiate. ksteps.
      refine (post_eq _ _ _ _ (H1 eq_refl eq_refl) _).
      apply kstate_ext; reflexivity.
    + ksteps. unfold iput. ksteps.
      change (i_count (new_node _ _ _ _ _) - 1 =? 0) with true. cbv iota.
      ksteps.
      rewrite delete_insert_eq, delete_id by apply fresh_inode_dead.
      refine (post_eq _ _ _ _ (H2 eq_refl eq_refl) _).
      apply kstate_ext; reflexivity.
  - apply wp_tagfs_get_inode_fail; ksimpl; [eauto | assumption |].
    unfold d_make_root. ksteps.
    refine (post_eq _ _ _ _ (H3 eq_refl) _).
    apply kstate_ext; reflexivity.
Qed.

(** Whether or not the root can be made, [tagfs_fill_super] leaves the
    super block with the geometry of tagfs: the magic number, blocks of
    one page, the largest file size, the tagfs operations and a time
    granularity of 1 ns; the record stays attached and no other super
    block changes.  The root it makes belongs to the mounting task, is
    named [/], has no parent and holds one reference. *)
Theorem tagfs_fill_super_geometry magic s sb fc b q f :
  k_sbs s !! sb = Some b ->
  s_fs_info b = Some q ->
  k_fsi s !! q = Some f ->
  exists r s' b',
    tagfs_fill_super magic sb fc s = Ret r s'
    /\ k_sbs s' !! sb = Some b'
    /\ s_magic b' = magic
    /\ s_blocksize b' = PAGE_SIZE
    /\ s_blocksize b' = 2 ^ s_blocksize_bits b'
    /\ s_maxbytes b' = MAX_LFS_FILESIZE
    /\ s_op b' = tagfs_ops /\ s_time_gran b' = 1
    /\ s_fs_info b' = Some q
    /\ (forall k, k <> sb -> k_sbs s' !! k = k_sbs s !! k)
    /\ (r = 0 \/ r = - ENOMEM)
    /\ (r = 0 <-> is_Some (s_root b'))
    /\ (r = 0 ->
        exists e d p i,
          s_root b' = Some e /\ k_dentries s' !! e = Some d
          /\ d_name d = "/" /\ d_parent d = None /\ d_count d = 1
          /\ d_sb d = sb /\ d_inode d = Some p
          /\ k_inodes s' !! p = Some i
          /\ i_uid i = k_fsuid s /\ i_gid i = k_fsgid s
          /\ i_sb i = sb /\ i_count i = 1
          /\ 0 < i_ino i <= UINT_MAX).
Proof.
  intros Hb Hq Hf.
  enough (W : exists r s', tagfs_fill_super magic sb fc s = Ret r s'
                           /\ exists b', _)
    by (destruct W as (r & s' & R & b' & W); exists r, s', b';
        split; [exact R | exact W]).
  apply wp_elim.
  assert (Hother : forall x k, k <> sb ->
            <[sb := x]> (k_sbs s) !! k = k_sbs s !! k)
    by (intros; rewrite lookup_insert_ne by congruence; reflexivity).
  apply (wp_tagfs_fill_super_cases magic s sb fc b q f); try assumption.
  - intros _ _. eexists. unfold fill_super_post. ksimpl.
    split; [reflexivity|]. unfold sb_filled. ksimpl.
    do 6 (split; [reflexivity|]). split; [exact Hq|].
    split; [apply Hother|]. split; [left; reflexivity|].
    split; [split; eauto|]. intros _.
    eexists _, _, _, _. ksimpl. do 2 (split; [reflexivity|]).
    cbn [d_name d_parent d_count d_sb d_inode].
    do 5 (split; [reflexivity|]). split; [reflexivity|].
    cbn [new_node i_uid i_gid i_sb i_count i_ino owner_gid].
    do 4 (split; [reflexivity|]). apply next_ino_range.
  - intros _ _. eexists. ksimpl.
    split; [reflexivity|]. unfold sb_filled. ksimpl.
    do 6 (split; [reflexivity|]). split; [exact Hq|].
    split; [apply Hother|]. split; [right; reflexivity|].
    split; [split; [discriminate | intros [? [=]]]|]. discriminate.
  - intros _. eexists. ksimpl.
    split; [reflexivity|]. unfold sb_filled. ksimpl.
    do 6 (split; [reflexivity|]). split; [exact Hq|].
    split; [apply Hother|]. split; [right; reflexivity|].
    split; [split; [discriminate | intros [? [=]]]|]. discriminate.
Qed.

(** Filling the super block of the sample volume again. *)
Lemma tagfs_fill_super_geometry_witness :
  k_sbs (sample_state [true; true]) !! 0%nat = Some sample_sb
  /\ s_fs_info sample_sb = Some 0%nat
  /\ k_fsi (sample_state [true; true]) !! 0%nat = Some sample_fsi
  /\ exists r s' b',
       tagfs_fill_super 7 0%nat empty_fc (sample_state [true; true]) = Ret r s'
       /\ k_sbs s' !! 0%nat = Some b'
       /\ s_magic b' = 7 /\ s_blocksize b' = 4096 /\ s_time_gran b' = 1.
Proof.
  assert (H1 : k_sbs (sample_state [true; true]) !! 0%nat = Some sample_sb)
    by (vm_compute; reflexivity).
  assert (H2 : s_fs_info sample_sb = Some 0%nat) by reflexivity.
  assert (H3 : k_fsi (sample_state [true; true]) !! 0%nat = Some sample_fsi)
    by (vm_compute; reflexivity).
  repeat (split; [assumption|]).
  destruct (tagfs_fill_super_geometry 7 (sample_state [true; true]) 0%nat
              empty_fc sample_sb 0%nat sample_fsi H1 H2 H3)
    as (r & s' & b' & Hrun & Hb & Hm & Hbs & _ & _ & _ & Hg & _).
  exists r, s', b'. auto 10.
Defined.

Lemma wp_elim_pair {A B} (m : K (A * B)) (Q : A -> B -> kstate -> Prop) s :
  wp m (fun a s' => Q a.1 a.2 s') s ->
  exists a b s', m s = Ret (a, b) s' /\ Q a b s'.
Proof.
  intros W. apply wp_elim in W as ([a b] & s' & E & W). eauto.
Qed.

Lemma fresh_sb_dead s : k_sbs s !! fresh (dom (k_sbs s)) = None.
Proof. apply not_elem_of_dom, is_fresh. Qed.

(** [tagfs_get_tree] mounts all or nothing.  It succeeds exactly when the
    super block, an anonymous device number, the root inode and the root
    dentry can all be had; the record then belongs to the new super
    block, the context no longer owns it (so dropping the context frees
    nothing), and the context holds a second reference on the root.
    Otherwise the result is [-ENOMEM], or [-EMFILE] when the anonymous
    device numbers are used up, and no super block, inode, dentry or
    device number is left behind; the record is either still owned by the
    context or has been freed along with the half-built super block. *)
Theorem tagfs_get_tree_all_or_nothing magic blkmode s fc q f :
  fc_s_fs_info fc = Some q ->
  k_fsi s !! q = Some f ->
  0 <= k_anon_devs s ->
  exists r fc' s',
    tagfs_get_tree magic blkmode fc s = Ret (r, fc') s'
    /\ (r = 0 <->
        hd false (k_alloc s) = true
        /\ k_anon_devs s < Z.shiftl 1 MINORBITS - 1
        /\ hd false (tl (k_alloc s)) = true
        /\ hd false (tl (tl (k_alloc s))) = true
        /\ hd false (tl (tl (tl (k_alloc s)))) = true)
    /\ (r <> 0 ->
        (r = - ENOMEM \/ r = - EMFILE)
        /\ (r = - EMFILE <->
            hd false (k_alloc s) = true
            /\ Z.shiftl 1 MINORBITS - 1 <= k_anon_devs s)
        /\ k_sbs s' = k_sbs s /\ k_inodes s' = k_inodes s
        /\ k_dentries s' = k_dentries s
        /\ k_anon_devs s' = k_anon_devs s
        /\ fc_root fc' = fc_root fc
        /\ (fc_s_fs_info fc' = Some q /\ k_fsi s' = k_fsi s
            \/ fc_s_fs_info fc' = None /\ k_fsi s' = delete q (k_fsi s)))
    /\ (r = 0 ->
        exists sb b e d,
          fc_root fc' = Some e /\ fc_s_fs_info fc' = None
          /\ k_sbs s !! sb = None /\ k_sbs s' !! sb = Some b
          /\ s_fs_info b = Some q /\ s_root b = Some e
          /\ k_dentries s' !! e = Some d /\ d_count d = 2
          /\ k_fsi s' = k_fsi s
          /\ k_anon_devs s' = k_anon_devs s + 1
          /\ tagfs_free_fc fc' s' = Ret tt s').
Proof.
  intros Hq Hf Hdev.
  apply wp_elim_pair.
  unfold tagfs_get_tree, get_tree_nodev, sget_fc. ksteps.
  destruct (hd false (k_alloc s)) eqn:Hal1; ksteps.
  2:{ split; [split; [discriminate | intros [[=] _]]|].
      split; [|discriminate]. intros _.
      split; [left; reflexivity|].
      split; [split; [discriminate | intros [[=] _]]|]. auto 10. }
  apply wp_get_anon_bdev; ksimpl.
  { intros Hfull. change (- EMFILE =? 0) with false. cbv iota. ksteps.
    split; [split; [discriminate | intros (_ & ? & _); lia]|].
    split; [|discriminate]. intros _.
    split; [right; reflexivity|]. split; [split; auto|]. auto 10. }
  { intros Hfree Hal2. change (- ENOMEM =? 0) with false. cbv iota. ksteps.
    split; [split; [discriminate | intros (_ & _ & ? & _); congruence]|].
    split; [|discriminate]. intros _.
    split; [left; reflexivity|].
    split; [split; [discriminate | intros [_ ?]; lia]|]. auto 10. }
  intros Hfree Hal2. change (0 =? 0) with true. cbv iota. ksteps.
  set (sb := fresh (dom (k_sbs s))).
  pose proof (fresh_sb_dead s) as Hdead. fold sb in Hdead.
  (* the store once the super block exists *)
  match goal with |- wp _ _ ?st => remember st as s0 eqn:Es0 end.
  match type of Es0 with
  | _ = with_sbs (<[sb := ?b]> _) _ => set (b0 := b) in *
  end.
  assert (Hsbs : k_sbs s0 = <[sb := b0]> (k_sbs s)) by (subst s0; reflexivity).
  assert (Hino : k_inodes s0 = k_inodes s) by (subst s0; reflexivity).
  assert (Hden : k_dentries s0 = k_dentries s) by (subst s0; reflexivity).
  assert (Hfsi : k_fsi s0 = k_fsi s) by (subst s0; reflexivity).
  assert (Hano : k_anon_devs s0 = k_anon_devs s + 1)
    by (subst s0; reflexivity).
  assert (Hall : k_alloc s0 = tl (tl (k_alloc s))) by (subst s0; reflexivity).
  clear Es0.
  assert (Hb0 : k_sbs s0 !! sb = Some b0)
    by (rewrite Hsbs; apply lookup_insert_eq).
  assert (Hq0 : s_fs_info b0 = Some q) by exact Hq.
  assert (Hf0 : k_fsi s0 !! q = Some f) by (rewrite Hfsi; exact Hf).
  (* a super block that could not be filled is torn down again *)
  assert (Hkill : forall st (P P' : Prop)
                         (Q : Z * fs_context -> kstate -> Prop),
    k_sbs st = <[sb := sb_filled magic b0 None]> (k_sbs s) ->
    k_inodes st = k_inodes s -> k_dentries st = k_dentries s ->
    k_fsi st = k_fsi s -> k_anon_devs st = k_anon_devs s + 1 ->
    (P -> False) -> (P' -> False) ->
    wp (deactivate_locked_super (tagfs_kill_sb blkmode) sb ;;
        ret (- ENOMEM, set_fc_s_fs_info None fc))
       (fun a s' =>
          (a.1 = 0 <-> P)
          /\ (a.1 <> 0 ->
              (a.1 = - ENOMEM \/ a.1 = - EMFILE)
              /\ (a.1 = - EMFILE <-> P')
              /\ k_sbs s' = k_sbs s /\ k_inodes s' = k_inodes s
              /\ k_dentries s' = k_dentries s
              /\ k_anon_devs s' = k_anon_devs s
              /\ fc_root a.2 = fc_root fc
              /\ (fc_s_fs_info a.2 = Some q /\ k_fsi s' = k_fsi s
                  \/ fc_s_fs_info a.2 = None
                     /\ k_fsi s' = delete q (k_fsi s)))
          /\ (a.1 = 0 -> Q a s')) st).
  { intros st P P' Q Es Ei Ed Ef Ea HP HP'.
    unfold deactivate_locked_super. kstep. kstep.
    eapply wp_tagfs_kill_sb;
      [rewrite Es; apply lookup_insert_eq | exact Hq
      | rewrite Ef; exact Hf |].
    kstep. kstep. unfold kill_sb_post, sb_filled. ksimpl.
    split; [split; [discriminate | intros ?; exfalso; auto]|].
    split; [|discriminate]. intros _.
    rewrite Es, Ei, Ed, Ef, Ea.
    rewrite delete_insert_eq, delete_id by exact Hdead.
    split; [left; reflexivity|].
    split; [split; [discriminate | intros ?; exfalso; auto]|].
    do 3 (split; [reflexivity|]). split; [lia|]. auto. }
  apply (wp_tagfs_fill_super_cases magic s0 sb _ b0 q f); try assumption;
    rewrite Hall.
  - intros Hal3 Hal4. change (0 =? 0) with true. cbv iota.
    unfold fill_super_post. ksteps. unfold sb_filled at 1. ksimpl.
    unfold dget. ksteps.
    split; [split; [intros _; auto 10 | reflexivity]|].
    split; [intros []; reflexivity|]. intros _.
    eexists sb, _, _, _. ksimpl.
    split; [reflexivity|]. split; [reflexivity|]. split; [exact Hdead|].
    split; [reflexivity|]. unfold sb_filled. ksimpl.
    split; [exact Hq|]. split; [reflexivity|]. split; [reflexivity|].
    split; [reflexivity|]. split; [exact Hfsi|]. split; [exact Hano|].
    reflexivity.
  - intros Hal3 Hal4. change (- ENOMEM =? 0) with false. cbv iota.
    apply Hkill; ksimpl;
      [ rewrite Hsbs, insert_insert_eq; reflexivity
      | exact Hino | exact Hden | exact Hfsi | exact Hano
      | intros (_ & _ & _ & _ & ?); congruence
      | intros [_ ?]; lia ].
  - intros Hal3. change (- ENOMEM =? 0) with false. cbv iota.
    apply Hkill; ksimpl;
      [ rewrite Hsbs, insert_insert_eq; reflexivity
      | exact Hino | exact Hden | exact Hfsi | exact Hano
      | intros (_ & _ & _ & ? & _); congruence
      | intros [_ ?]; lia ].
Qed.

(** A mount that runs out of memory at the root dentry, and one that
    finds no anonymous device number. *)
Lemma tagfs_get_tree_all_or_nothing_witness :
  fc_s_fs_info fc_with_source = Some 0%nat
  /\ k_fsi (pending_mount_state [true; true; true]) !! 0%nat = Some sample_fsi
  /\ 0 <= k_anon_devs (pending_mount_state [true; true; true])
  /\ (exists fc' s',
        tagfs_get_tree 7 3 fc_with_source
          (pending_mount_state [true; true; true])
        = Ret (- ENOMEM, fc') s'
        /\ k_sbs s' = ∅ /\ k_inodes s' = ∅ /\ k_dentries s' = ∅
        /\ k_anon_devs s' = 0)
  /\ (exists fc' s',
        tagfs_get_tree 7 3 fc_with_source
          (with_anon_devs (Z.shiftl 1 MINORBITS - 1)
             (pending_mount_state [true; true; true]))
        = Ret (- EMFILE, fc') s').
Proof.
  assert (H1 : fc_s_fs_info fc_with_source = Some 0%nat) by reflexivity.
  assert (H2 : k_fsi (pending_mount_state [true; true; true]) !! 0%nat
               = Some sample_fsi) by (vm_compute; reflexivity).
  assert (H3 : 0 <= k_anon_devs (pending_mount_state [true; true; true]))
    by (vm_compute; discriminate).
  repeat (split; [assumption|]).
  split.
  - destruct (tagfs_get_tree_all_or_nothing 7 3
                (pending_mount_state [true; true; true]) fc_with_source 0%nat
                sample_fsi H1 H2 H3)
      as (r & fc' & s' & Hrun & Hiff & Hfail & _).
    assert (Hr : r <> 0).
    { intros E. apply Hiff in E as (_ & _ & _ & _ & E). discriminate E. }
    destruct (Hfail Hr) as (Hr' & Hem & Hs & Hi & Hd & Ha & _).
    assert (r = - ENOMEM) as ->.
    { destruct Hr' as [E|E]; [exact E|].
      apply Hem in E as [_ E]. vm_compute in E. exfalso. apply E. reflexivity. }
    exists fc', s'. auto 10.
  - destruct (tagfs_get_tree_all_or_nothing 7 3
                (with_anon_devs (Z.shiftl 1 MINORBITS - 1)
                   (pending_mount_state [true; true; true]))
                fc_with_source 0%nat sample_fsi H1)
      as (r & fc' & s' & Hrun & Hiff & Hfail & _).
    + vm_compute. reflexivity.
    + vm_compute. discriminate.
    + assert (Hr : r <> 0).
      { intros E. apply Hiff in E as (_ & E & _). vm_compute in E.
        discriminate E. }
      destruct (Hfail Hr) as (_ & Hem & _).
      assert (r = - EMFILE) as ->.
      { apply Hem. split; [reflexivity|]. vm_compute. discriminate. }
      exists fc', s'. exact Hrun.
Defined.

(** ** Unnamed files *)

(** [tagfs_tmpfile] with the node allocated: by the time the file is
    opened, the new node has no link left (one, had a directory been
    asked for), the entry of the file is called [#<inode number>] and is
    bound to the node without an extra reference, and the directory the
    file was made in has not changed at all: no new times, no new link
    count.  The result is that of the open. *)
Theorem tagfs_tmpfile_node_is_unlinked finish_open s dir f m di de :
  k_inodes s !! dir = Some di ->
  is_Some (k_sbs s !! i_sb di) ->
  k_dentries s !! f_path_dentry f = Some de ->
  d_inode de = None ->
  hd false (k_alloc s) = true ->
  exists s1 p i de1,
    tagfs_tmpfile finish_open dir f m s = finish_open f (f_path_dentry f) s1
    /\ k_inodes s !! p = None /\ k_inodes s1 !! p = Some i
    /\ i_nlink i = (if S_ISDIR m then 1 else 0)
    /\ k_dentries s1 !! f_path_dentry f = Some de1
    /\ d_inode de1 = Some p
    /\ d_name de1 = "#" +:+ fmt_u (i_ino i)
    /\ d_count de1 = d_count de /\ d_parent de1 = d_parent de
    /\ k_inodes s1 !! dir = Some di
    /\ (forall k, k <> p -> k_inodes s1 !! k = k_inodes s !! k)
    /\ (forall k, k <> f_path_dentry f ->
                  k_dentries s1 !! k = k_dentries s !! k)
    /\ k_sbs s1 = k_sbs s /\ k_fsi s1 = k_fsi s /\ k_trace s1 = k_trace s.
Proof.
  intros Hdi Hsb Hde Hneg Hal.
  pose proof (fresh_inode_ne _ _ _ Hdi) as Hne.
  set (p := fresh (dom (k_inodes s))) in *.
  assert (W : exists s1,
    (let* d := load_inode dir in
     let* inode := tagfs_get_inode (i_sb d) (Some dir) m 0 in
     match inode with
     | None => ret None
     | Some p => d_tmpfile f p ;; ret (Some p)
     end) s = Ret (Some p) s1
    /\ exists i de1,
         k_inodes s !! p = None /\ k_inodes s1 !! p = Some i
         /\ i_nlink i = (if S_ISDIR m then 1 else 0)
         /\ k_dentries s1 !! f_path_dentry f = Some de1
         /\ d_inode de1 = Some p
         /\ d_name de1 = "#" +:+ fmt_u (i_ino i)
         /\ d_count de1 = d_count de /\ d_parent de1 = d_parent de
         /\ k_inodes s1 !! dir = Some di
         /\ (forall k, k <> p -> k_inodes s1 !! k = k_inodes s !! k)
         /\ (forall k, k <> f_path_dentry f ->
                       k_dentries s1 !! k = k_dentries s !! k)
         /\ k_sbs s1 = k_sbs s /\ k_fsi s1 = k_fsi s
         /\ k_trace s1 = k_trace s).
  { apply wp_elim_val. ksteps.
    apply wp_tagfs_get_inode_node;
      [assumption | intros ? [= <-]; eauto | assumption |].
    fold p. unfold d_tmpfile, inode_dec_link_count, drop_nlink, d_instantiate.
    ksteps. cbn [set_d_name d_inode]. rewrite Hneg. ksteps.
    split; [reflexivity|].
    eexists _, _. ksimpl.
    split; [apply fresh_inode_dead|]. split; [reflexivity|].
    split.
    { unfold new_node, S_ISDIR. cbn [i_nlink set_i_nlink].
      destruct (_ =? S_IFDIR); reflexivity. }
    split; [reflexivity|].
    cbn [d_inode d_name d_count d_parent set_d_inode set_d_name].
    do 4 (split; [reflexivity|]).
    split; [exact Hdi|].
    split; [intros k Hk; rewrite lookup_insert_ne by congruence; reflexivity|].
    split; [intros k Hk; rewrite lookup_insert_ne by congruence; reflexivity|].
    auto. }
  destruct W as (s1 & R & i & de1 & W).
  exists s1, p, i, de1. split; [|exact W].
  revert R. unfold tagfs_tmpfile, bind.
  destruct (load_inode dir s) as [d s0|]; [|discriminate].
  destruct (tagfs_get_inode (i_sb d) (Some dir) m 0 s0) as [[p'|] s2|];
    [|discriminate..].
  destruct (d_tmpfile f p' s2) as [[] s3|]; [|discriminate].
  unfold ret. intros [= _ ->]. reflexivity.
Qed.

(** An unnamed regular file made in the root of the sample volume. *)
Lemma tagfs_tmpfile_node_is_unlinked_witness :
  k_inodes (sample_state [true]) !! 0%nat = Some sample_root_inode
  /\ is_Some (k_sbs (sample_state [true]) !! i_sb sample_root_inode)
  /\ exists s1 p i,
       tagfs_tmpfile open_succeeds 0%nat sample_file (oct 100600)
         (sample_state [true]) = Ret 0 s1
       /\ k_inodes s1 !! p = Some i /\ i_nlink i = 0
       /\ k_inodes s1 !! 0%nat = Some sample_root_inode.
Proof.
  assert (H1 : k_inodes (sample_state [true]) !! 0%nat = Some sample_root_inode)
    by (vm_compute; reflexivity).
  assert (H2 : is_Some (k_sbs (sample_state [true]) !! i_sb sample_root_inode))
    by (vm_compute; eauto).
  split; [exact H1|]. split; [exact H2|].
  destruct (tagfs_tmpfile_node_is_unlinked open_succeeds (sample_state [true])
              0%nat sample_file (oct 100600) sample_root_inode
              {| d_name := "x"; d_parent := Some 0%nat; d_inode := None;
                 d_count := 1; d_sb := 0%nat |}
              H1 H2 eq_refl eq_refl eq_refl)
    as (s1 & p & i & de1 & Hrun & _ & Hi & Hn & _ & _ & _ & _ & _ & Hdi & _).
  exists s1, p, i. auto.
Defined.

(** [tagfs_tmpfile] without memory for the node: [-ENOSPC], nothing is
    opened and nothing changes but the attempted allocation. *)
Theorem tagfs_tmpfile_enospc finish_open s dir f m di :
  k_inodes s !! dir = Some di ->
  is_Some (k_sbs s !! i_sb di) ->
  hd false (k_alloc s) = false ->
  tagfs_tmpfile finish_open dir f m s
  = Ret (- ENOSPC) (with_alloc (tl (k_alloc s)) s).
Proof.
  intros Hdi Hsb Hal. apply wp_run. unfold tagfs_tmpfile. ksteps.
  apply wp_tagfs_get_inode_fail; [assumption..|]. ksteps. auto.
Qed.

(** No memory for an unnamed file. *)
Lemma tagfs_tmpfile_enospc_witness :
  k_inodes (sample_state []) !! 0%nat = Some sample_root_inode
  /\ is_Some (k_sbs (sample_state []) !! i_sb sample_root_inode)
  /\ tagfs_tmpfile open_succeeds 0%nat sample_file (oct 100600) (sample_state [])
     = Ret (- ENOSPC) (sample_state []).
Proof.
  assert (H1 : k_inodes (sample_state []) !! 0%nat = Some sample_root_inode)
    by (vm_compute; reflexivity).
  assert (H2 : is_Some (k_sbs (sample_state []) !! i_sb sample_root_inode))
    by (vm_compute; eauto).
  split; [exact H1|]. split; [exact H2|].
  exact (tagfs_tmpfile_enospc open_succeeds (sample_state []) 0%nat sample_file
           (oct 100600) sample_root_inode H1 H2 eq_refl).
Defined.

(** ** More on teardown *)



(** A context that is set up and dropped again without a mount leaves
    the records as they were: [tagfs_free_fc] frees the very record that
    [tagfs_init_fs_context] allocated, once. *)
Theorem tagfs_init_then_free_fc s fc :
  hd false (k_alloc s) = true ->
  exists fc' s1 s2 q,
    tagfs_init_fs_context fc s = Ret (0, fc') s1
    /\ fc_s_fs_info fc' = Some q
    /\ k_fsi s !! q = None /\ is_Some (k_fsi s1 !! q)
    /\ tagfs_free_fc fc' s1 = Ret tt s2
    /\ k_fsi s2 = k_fsi s
    /\ k_trace s2 = k_trace s ++ [EvKfree q].
Proof.
  intros Hal. eexists _, _, _, (fresh (dom (k_fsi s))).
  split.
  { apply wp_run. apply wp_tagfs_init_fs_context; [exact Hal|].
    split; reflexivity. }
  ksimpl. split; [reflexivity|]. split; [apply fresh_fsi_dead|].
  split; [eauto|].
  split.
  { apply wp_run. unfold tagfs_free_fc. ksimpl.
    eapply wp_kfree; [klookup|]. split; reflexivity. }
  ksimpl. rewrite delete_insert_eq, delete_id by apply fresh_fsi_dead.
  split; reflexivity.
Qed.

(** A context set up and dropped before anything else exists. *)
Lemma tagfs_init_then_free_fc_witness :
  exists fc' s1 s2,
    tagfs_init_fs_context empty_fc (empty_state [true]) = Ret (0, fc') s1
    /\ tagfs_free_fc fc' s1 = Ret tt s2
    /\ k_fsi s2 = ∅.
Proof.
  destruct (tagfs_init_then_free_fc (empty_state [true]) empty_fc eq_refl)
    as (fc' & s1 & s2 & q & R1 & _ & _ & _ & R2 & Hk & _).
  exists fc', s1, s2. auto.
Defined.

(** Device numbers: a character or block device node made by
    [tagfs_mknod] carries the device number it was given and the mode as
    given; a node of any other kind carries no device number, whatever
    was passed. *)
Theorem tagfs_mknod_device_number s dir dentry m dev di de :
  k_inodes s !! dir = Some di ->
  is_Some (k_sbs s !! i_sb di) ->
  k_dentries s !! dentry = Some de ->
  d_inode de = None ->
  hd false (k_alloc s) = true ->
  exists s' p i de',
    tagfs_mknod dir dentry m dev s = Ret 0 s'
    /\ k_dentries s' !! dentry = Some de' /\ d_inode de' = Some p
    /\ k_inodes s' !! p = Some i
    /\ (S_ISCHR m || S_ISBLK m = true -> i_rdev i = dev /\ i_mode i = m)
    /\ (S_ISCHR m || S_ISBLK m = false -> i_rdev i = 0).
Proof.
  intros Hdi Hsb Hde Hneg Hal.
  pose proof (fresh_inode_ne _ _ _ Hdi) as Hne.
  eexists _, (fresh (dom (k_inodes s))), _, _.
  split; [eapply tagfs_mknod_run; eauto|].
  unfold mknod_post. ksimpl.
  do 3 (split; [reflexivity|]).
  unfold new_node, S_ISCHR, S_ISBLK. cbn [i_rdev i_mode].
  split; intros H; rewrite H; [|reflexivity].
  split; [reflexivity|]. apply owner_mode_nondir. unfold S_ISDIR.
  apply orb_true_iff in H as [H|H]; apply Z.eqb_eq in H; rewrite H; reflexivity.
Qed.

(** [mknod /x c 259] on the sample volume. *)
Lemma tagfs_mknod_device_number_witness :
  k_inodes (sample_state [true]) !! 0%nat = Some sample_root_inode
  /\ is_Some (k_sbs (sample_state [true]) !! i_sb sample_root_inode)
  /\ exists s' p i,
       tagfs_mknod 0%nat 1%nat (oct 20600) 259 (sample_state [true]) = Ret 0 s'
       /\ k_inodes s' !! p = Some i
       /\ i_rdev i = 259 /\ i_mode i = oct 20600.
Proof.
  assert (H1 : k_inodes (sample_state [true]) !! 0%nat = Some sample_root_inode)
    by (vm_compute; reflexivity).
  assert (H2 : is_Some (k_sbs (sample_state [true]) !! i_sb sample_root_inode))
    by (vm_compute; eauto).
  split; [exact H1|]. split; [exact H2|].
  destruct (tagfs_mknod_device_number (sample_state [true]) 0%nat 1%nat
              (oct 20600) 259 sample_root_inode
              {| d_name := "x"; d_parent := Some 0%nat; d_inode := None;
                 d_count := 1; d_sb := 0%nat |}
              H1 H2 eq_refl eq_refl eq_refl)
    as (s' & p & i & de' & Hrun & _ & _ & Hi & Hdev & _).
  destruct (Hdev eq_refl) as [Hr Hm].
  exists s', p, i. auto.
Defined.

(** ** The mode of a mount configuration *)

(** A context set up and given [mode=17750]: the record holds [7750]. *)
Lemma mount_configuration_permission_bits_witness :
  exists fc1 s1 r s2 f,
    tagfs_init_fs_context empty_fc (empty_state [true]) = Ret (0, fc1) s1
    /\ parse_params fc1
         [ {| key := "mode"; value := fs_value_is_string "17750" |} ] s1
       = Ret r s2
    /\ fc_s_fs_info fc1 = Some 0%nat
    /\ k_fsi s2 !! 0%nat = Some f
    /\ permission_bits f.
Proof.
  pose (fc1 := set_fc_ops true (set_fc_s_fs_info (Some 0%nat) empty_fc)).
  pose (f2 := set_mount_opts {| mode := oct 7750 |} sample_fsi).
  pose (s1 := with_fsi {[ 0%nat := sample_fsi ]} (empty_state [])).
  pose (s2 := with_fsi {[ 0%nat := f2 ]} (empty_state [])).
  exists fc1, s1, (0, fc1), s2, f2.
  assert (H1 : tagfs_init_fs_context empty_fc (empty_state [true])
               = Ret (0, fc1) s1) by (vm_compute; reflexivity).
  assert (H2 : parse_params fc1
                 [ {| key := "mode"; value := fs_value_is_string "17750" |} ] s1
               = Ret (0, fc1) s2) by (vm_compute; reflexivity).
  assert (H3 : fc_s_fs_info fc1 = Some 0%nat) by reflexivity.
  assert (H4 : k_fsi s2 !! 0%nat = Some f2) by (vm_compute; reflexivity).
  split; [exact H1|]. split; [exact H2|]. split; [exact H3|].
  split; [exact H4|].
  exact (mount_configuration_permission_bits (empty_state [true]) empty_fc fc1
           s1 _ (0, fc1) s2 0%nat f2 H1 H2 H3 H4).
Defined.

(** ** From the mount options to [/proc/mounts] *)

(** A volume shows the mode it was mounted with: when [tagfs_get_tree]
    succeeds for a context whose record holds some mode, then
    [tagfs_show_options] on the root it has put into the context prints
    [,mode=<that mode in octal>], or nothing if the mode is the
    default. *)
Theorem tagfs_mounted_volume_shows_its_mode magic blkmode s fc q f fc' s' m :
  fc_s_fs_info fc = Some q ->
  k_fsi s !! q = Some f ->
  tagfs_get_tree magic blkmode fc s = Ret (0, fc') s' ->
  exists root,
    fc_root fc' = Some root
    /\ tagfs_show_options m root s'
       = Ret (0, if mode (mount_opts f) =? TAGFS_DEFAULT_MODE then m
                 else m +:+ ",mode=" +:+ fmt_o (mode (mount_opts f))) s'.
Proof.
  intros Hq Hf Hrun.
  pose proof (wp_inv _ _ _ _ _ (wp_tagfs_get_tree magic blkmode s fc q f Hq Hf)
                Hrun) as [H | [H | H]]; cbn [fst snd] in H.
  - destruct H as (_ & _ & e & d & b & Hroot & Hd & Hb & Hfsi & Hk & _).
    exists e. split; [exact Hroot|].
    apply wp_run. unfold tagfs_show_options.
    eapply wp_bind, wp_load_dentry; [exact Hd|].
    eapply wp_bind, wp_load_sb; [exact Hb|].
    rewrite Hfsi.
    eapply wp_bind, wp_load_fsi; [rewrite Hk; exact Hf|].
    destruct (_ =? _); apply wp_ret; split; reflexivity.
  - destruct H as [H _]. contradiction H. reflexivity.
  - destruct H as [H _]. contradiction H. reflexivity.
Qed.

(** Mounting with the default mode, all allocations succeeding. *)
Lemma tagfs_mounted_volume_shows_its_mode_witness :
  fc_s_fs_info fc_with_source = Some 0%nat
  /\ k_fsi (pending_mount_state [true; true; true; true]) !! 0%nat
     = Some sample_fsi
  /\ exists fc' s' root,
       tagfs_get_tree 7 3 fc_with_source
         (pending_mount_state [true; true; true; true]) = Ret (0, fc') s'
       /\ fc_root fc' = Some root
       /\ tagfs_show_options "rw" root s' = Ret (0, "rw") s'.
Proof.
  assert (H1 : fc_s_fs_info fc_with_source = Some 0%nat) by reflexivity.
  assert (H2 : k_fsi (pending_mount_state [true; true; true; true]) !! 0%nat
               = Some sample_fsi) by (vm_compute; reflexivity).
  split; [exact H1|]. split; [exact H2|].
  destruct (tagfs_get_tree 7 3 fc_with_source
              (pending_mount_state [true; true; true; true]))
    as [[r fc'] s'|] eqn:Hrun; [|vm_compute in Hrun; discriminate Hrun].
  assert (Hr : r = 0).
  { vm_compute in Hrun. injection Hrun as <- _ _. reflexivity. }
  subst r.
  destruct (tagfs_mounted_volume_shows_its_mode 7 3 _ _ 0%nat sample_fsi fc' s'
              "rw" H1 H2 Hrun) as (root & Hroot & Hshow).
  exists fc', s', root. auto.
Defined.
